(** * YDbf: a shallow embedding of the DBF reader (ydbfdm/lib.py, ydbfdm/reader.py)

    The development follows the Python sources function by function.
    Python values are modelled as follows:
    - [bytes] objects are [list byte];
    - text decoded with the ["ascii"] codec (field names, type tags) is a
      [string]; text decoded with a code page is a list of code points;
    - Python integers are [Z];
    - [dict] objects are [gmap], built with [py_dict], which replays the
      insertions in order so that a later pair overrides an earlier one;
    - exceptions are values of the type [exn], threaded by the monad [result];
    - the file handle is an explicit record carried in the reader state. *)

From Stdlib Require Import ZArith List Ascii String Lia Bool.
From Stdlib.Strings Require Import Byte.
From stdpp Require Import base option list gmap strings fin_maps.

Local Open Scope string_scope.
Local Open Scope Z_scope.

(** ** Bytes *)

Abbreviation bytes := (list byte).

Definition byte_to_Z (b : byte) : Z := Z.of_N (Byte.to_N b).

(** A [bytes] literal, written as the string with the same characters. *)
Definition b (s : string) : bytes := list_byte_of_string s.

#[global] Instance byte_eq_decision : EqDecision byte := Byte.byte_eq_dec.

(** ** Exceptions and the error monad *)

(** The [ValueError]s the reader meets, by the place that raises them. *)
Inductive value_error : Type :=
| date_out_of_range                     (* datetime.date(y, m, d) *)
| invalid_int_literal (val : bytes)     (* int(val) *)
| invalid_float_literal (val : bytes)   (* float(val) *)
| version_not_supported (version : string) (sig : Z)
| unknown_field_type (type_string name_string : string)
| cannot_resolve_lang (raw_lang : Z)
| no_converter (name typ : string).

Inductive exn : Type :=
| ValueError (why : value_error)
| UnicodeDecodeError (encoding : string) (object : bytes) (note : option Z)
| LookupError (encoding : string)       (* unknown codec name *)
| struct_error                          (* unpack on a buffer of the wrong size *)
| TypeError                             (* hex() of a bytes object, decode(None) *)
| KeyError (key : string)
| OSError                               (* seek to a negative offset *)
| AssertionError (msg : string)         (* the text before any field details *)
| InvalidOperation                      (* decimal.Decimal on a malformed string *)
| RuntimeError (cause : exn) (i : Z).

Inductive result (A : Type) : Type :=
| OK (a : A)
| Raise (e : exn).
Arguments OK {A} a.
Arguments Raise {A} e.

(** Sequencing: [x ← m; k] runs [k] unless [m] raised. *)
#[global] Instance result_bind : MBind result := fun A B k m =>
  match m with
  | OK a => k a
  | Raise e => Raise e
  end.

(** [assert c, msg] *)
Definition assert (c : bool) (msg : string) : result unit :=
  if c then OK tt else Raise (AssertionError msg).

(** ** Python builtins on bytes *)

(** The whitespace of [bytes.strip()]: space, tab, LF, CR, VT, FF. *)
Definition is_space (c : byte) : bool :=
  bool_decide (c ∈ [x20; x09; x0a; x0d; x0b; x0c]).

Definition is_nul (c : byte) : bool := bool_decide (c = x00).

Definition is_digit (c : byte) : bool :=
  (48 <=? byte_to_Z c) && (byte_to_Z c <=? 57).

Definition digit_val (c : byte) : Z := byte_to_Z c - 48.

Fixpoint lstrip_by {A} (p : A -> bool) (l : list A) : list A :=
  match l with
  | [] => []
  | c :: r => if p c then lstrip_by p r else l
  end.

Fixpoint rstrip_by {A} (p : A -> bool) (l : list A) : list A :=
  match l with
  | [] => []
  | c :: r =>
      match rstrip_by p r with
      | [] => if p c then [] else [c]
      | r' => c :: r'
      end
  end.

(** [val.strip()], [val.rstrip()], [val.rstrip(b"\x00")] *)
Definition strip (val : bytes) : bytes := rstrip_by is_space (lstrip_by is_space val).
Definition rstrip (val : bytes) : bytes := rstrip_by is_space val.
Definition rstrip_nul (val : bytes) : bytes := rstrip_by is_nul val.

(** [val.isdigit()]: every byte is an ASCII digit and there is at least one. *)
Definition isdigit (val : bytes) : bool :=
  negb (bool_decide (val = [])) && forallb is_digit val.

(** [val[i:j]] for [0 <= i <= j] *)
Definition slice (i j : nat) (val : bytes) : bytes := take (j - i) (drop i val).
Arguments slice : simpl never.

(** The digits of a base-10 literal; one underscore is allowed between two
    digits.  [after_digit] tells whether the previous byte was a digit. *)
Fixpoint parse_digits (acc : Z) (after_digit : bool) (l : bytes) : option Z :=
  match l with
  | [] => if after_digit then Some acc else None
  | c :: r =>
      if is_digit c then parse_digits (10 * acc + digit_val c) true r
      else if bool_decide (c = x5f) && after_digit then parse_digits acc false r
      else None
  end.

(** [int(val)] on a bytes object: surrounding whitespace, an optional sign,
    then the digits. *)
Definition py_int (val : bytes) : result Z :=
  let bad := Raise (ValueError (invalid_int_literal val)) in
  match strip val with
  | [] => bad
  | c :: r =>
      if bool_decide (c = x2d) then
        match parse_digits 0 false r with Some n => OK (- n) | None => bad end
      else if bool_decide (c = x2b) then
        match parse_digits 0 false r with Some n => OK n | None => bad end
      else
        match parse_digits 0 false (c :: r) with Some n => OK n | None => bad end
  end.

(** ** [datetime.date] *)

Record date : Type := mkdate { year : Z; month : Z; day : Z }.

Definition is_leap (y : Z) : bool :=
  (y mod 4 =? 0) && (negb (y mod 100 =? 0) || (y mod 400 =? 0)).

Definition days_in_month (y m : Z) : Z :=
  if m =? 2 then (if is_leap y then 29 else 28)
  else if (m =? 4) || (m =? 6) || (m =? 9) || (m =? 11) then 30
  else 31.

Definition valid_ymd (y m d : Z) : bool :=
  (1 <=? y) && (y <=? 9999) && (1 <=? m) && (m <=? 12)
  && (1 <=? d) && (d <=? days_in_month y m).

(** [datetime.date(y, m, d)] *)
Definition datetime_date (y m d : Z) : result date :=
  if valid_ymd y m d then OK (mkdate y m d)
  else Raise (ValueError date_out_of_range).

(** ** Python [float] (IEEE 754 binary64), in exact integer arithmetic *)

(** A finite float is [(-1)^neg * m * 2^e] with [0 <= m < 2^53] and
    [-1074 <= e <= 971]. *)
Inductive pyfloat : Type :=
| Fnan
| Finf (neg : bool)
| Ffin (neg : bool) (m e : Z).

(** The integer nearest to [n / d], ties to the even one ([0 <= n], [0 < d]). *)
Definition round_half_even (n d : Z) : Z :=
  let q := n / d in
  match 2 * (n mod d) ?= d with
  | Lt => q
  | Gt => q + 1
  | Eq => if Z.even q then q else q + 1
  end.

(** The fraction [(p / q) / 2^e]. *)
Definition scale2 (p q e : Z) : Z * Z :=
  if 0 <=? e then (p, q * 2 ^ e) else (p * 2 ^ (- e), q).

(** The binary64 nearest to [p / q] ([0 <= p], [0 < q]), ties to even;
    values beyond the largest finite float round to infinity. *)
Definition binary64_of_ratio (neg : bool) (p q : Z) : pyfloat :=
  if p =? 0 then Ffin neg 0 0
  else
    let e0 := Z.log2 p - Z.log2 q in
    let L := (let '(n0, d0) := scale2 p q e0 in if d0 <=? n0 then e0 else e0 - 1) in
    let e := Z.max (L - 52) (-1074) in
    let m := (let '(n, d) := scale2 p q e in round_half_even n d) in
    let '(m, e) := if m =? 2 ^ 53 then (2 ^ 52, e + 1) else (m, e) in
    if 971 <? e then Finf neg else Ffin neg m e.

(** The binary64 nearest to [n * 10^ex]. *)
Definition binary64_of_decimal (neg : bool) (n ex : Z) : pyfloat :=
  if 0 <=? ex then binary64_of_ratio neg (n * 10 ^ ex) 1
  else binary64_of_ratio neg n (10 ^ (- ex)).

(** *** Numeric literals *)

Fixpoint digits_value_from (acc : Z) (l : bytes) : Z :=
  match l with
  | [] => acc
  | c :: r => digits_value_from (10 * acc + digit_val c) r
  end.

Definition digits_value (l : bytes) : Z := digits_value_from 0 l.

(** The leading digits of [l] and what follows them. *)
Fixpoint span_digits (l : bytes) : bytes * bytes :=
  match l with
  | [] => ([], [])
  | c :: r =>
      if is_digit c then let '(ds, rest) := span_digits r in (c :: ds, rest)
      else ([], l)
  end.

(** An optional sign: [true] for a minus. *)
Definition split_sign (l : bytes) : bool * bytes :=
  match l with
  | c :: r =>
      if bool_decide (c = x2d) then (true, r)
      else if bool_decide (c = x2b) then (false, r)
      else (false, l)
  | [] => (false, [])
  end.

(** Underscores in a numeric literal are dropped; each one must stand
    between two digits. *)
Fixpoint remove_underscores (prev : byte) (l : bytes) : option bytes :=
  match l with
  | [] => if bool_decide (prev = x5f) then None else Some []
  | c :: r =>
      if bool_decide (c = x5f) then
        if is_digit prev then remove_underscores c r else None
      else if bool_decide (prev = x5f) && negb (is_digit c) then None
      else option_map (cons c) (remove_underscores c r)
  end.

Definition lower (c : byte) : byte :=
  let n := Byte.to_N c in
  if ((65 <=? n) && (n <=? 90))%N
  then match Byte.of_N (n + 32) with Some c' => c' | None => c end
  else c.

(** The exponent part of a literal: empty, or [e], an optional sign and
    at least one digit, up to the end of the literal. *)
Definition exponent_part (l : bytes) : option Z :=
  match l with
  | [] => Some 0
  | c :: r =>
      if bool_decide (lower c = x65) then
        let '(neg, r1) := split_sign r in
        let '(ds, rest) := span_digits r1 in
        if bool_decide (ds = []) || negb (bool_decide (rest = [])) then None
        else Some (if neg then - digits_value ds else digits_value ds)
      else None
  end.

(** A decimal literal without its sign: the digits before the point, the
    digits after it, and the exponent.  One digit at least is required. *)
Definition decimal_literal (l : bytes) : option (bytes * bytes * Z) :=
  let '(ip, l1) := span_digits l in
  let '(fp, l2) :=
    match l1 with
    | c :: r => if bool_decide (c = x2e) then span_digits r else ([], l1)
    | [] => ([], [])
    end in
  if bool_decide (ip = []) && bool_decide (fp = []) then None
  else match exponent_part l2 with
       | Some ex => Some (ip, fp, ex)
       | None => None
       end.

(** [float(val)] on a bytes object. *)
Definition py_float (val : bytes) : result pyfloat :=
  let bad := Raise (ValueError (invalid_float_literal val)) in
  match remove_underscores x00 (strip val) with
  | None => bad
  | Some s =>
      let '(neg, s1) := split_sign s in
      let name := map lower s1 in
      if bool_decide (name = b "inf") || bool_decide (name = b "infinity") then OK (Finf neg)
      else if bool_decide (name = b "nan") then OK Fnan
      else match decimal_literal s1 with
           | Some (ip, fp, ex) =>
               OK (binary64_of_decimal neg (digits_value (ip ++ fp)) (ex - Z.of_nat (length fp)))
           | None => bad
           end
  end.

(** *** Formatting with ["%.<dec>f"] *)

Definition digit_byte (d : Z) : byte :=
  match Byte.of_N (Z.to_N (48 + d mod 10)) with Some c => c | None => x30 end.

(** The [k] low decimal digits of [n]. *)
Fixpoint pad_digits (k : nat) (n : Z) : bytes :=
  match k with
  | O => []
  | S k' => pad_digits k' (n / 10) ++ [digit_byte n]
  end.

Definition is_zero_digit (c : byte) : bool := bool_decide (c = x30).

(** The decimal digits of [n >= 0], without leading zeros. *)
Definition digits_of (n : Z) : bytes :=
  match lstrip_by is_zero_digit (pad_digits (S (Z.to_nat (Z.log2 n))) n) with
  | [] => [x30]
  | ds => ds
  end.

(** [("%%.%df" % dec) % x]: the value of [x] rounded to [dec] decimals
    (ties to even on the exact binary value), printed without exponent.
    The string, which is ASCII, is kept as its bytes. *)
Definition format_f (dec : Z) (x : pyfloat) : bytes :=
  match x with
  | Fnan => b "nan"
  | Finf neg => (if neg then [x2d] else []) ++ b "inf"
  | Ffin neg m e =>
      let '(n, d) := scale2 (m * 10 ^ dec) 1 (- e) in
      let N := round_half_even n d in
      (if neg then [x2d] else [])
      ++ digits_of (N / 10 ^ dec)
      ++ (if dec =? 0 then [] else x2e :: pad_digits (Z.to_nat dec) N)
  end.

(** ** [decimal.Decimal] *)

Inductive Decimal : Type :=
| Dec_finite (sign : bool) (coefficient : Z) (exponent : Z)
| Dec_infinity (sign : bool)
| Dec_nan (sign : bool) (signaling : bool) (payload : Z).

(** The whitespace of [str.strip()], among the ASCII characters. *)
Definition is_str_space (c : byte) : bool :=
  let n := Byte.to_N c in
  (((0x09 <=? n) && (n <=? 0x0D)) || ((0x1C <=? n) && (n <=? 0x20)))%N.

Definition str_strip (s : bytes) : bytes :=
  rstrip_by is_str_space (lstrip_by is_str_space s).

(** The digits after [nan] or [snan], when [name] is a NaN. *)
Definition nan_payload (name : bytes) : option (bool * Z) :=
  let payload (signaling : bool) (ds : bytes) :=
    if forallb is_digit ds then Some (signaling, digits_value ds) else None in
  match name with
  | c1 :: c2 :: c3 :: r =>
      if bool_decide ([c1; c2; c3] = b "nan") then payload false r
      else match r with
           | c4 :: r' =>
               if bool_decide ([c1; c2; c3; c4] = b "snan") then payload true r'
               else None
           | [] => None
           end
  | _ => None
  end.

(** [Decimal(s)] on a string of ASCII characters: whitespace around it and
    every underscore are dropped before it is read. *)
Definition Decimal_of_str (s : bytes) : result Decimal :=
  let s0 := List.filter (fun c => negb (bool_decide (c = x5f))) (str_strip s) in
  let '(neg, s1) := split_sign s0 in
  let name := map lower s1 in
  if bool_decide (name = b "inf") || bool_decide (name = b "infinity") then OK (Dec_infinity neg)
  else match nan_payload name with
       | Some (signaling, payload) => OK (Dec_nan neg signaling payload)
       | None =>
           match decimal_literal s1 with
           | Some (ip, fp, ex) =>
               OK (Dec_finite neg (digits_value (ip ++ fp)) (ex - Z.of_nat (length fp)))
           | None => Raise InvalidOperation
           end
       end.

(** ** Python dictionaries *)

(** [dict(pairs)]: the pairs are inserted from left to right. *)
Definition py_dict `{Countable K} {V} (pairs : list (K * V)) : gmap K V :=
  fold_left (fun m kv => <[kv.1 := kv.2]> m) pairs ∅.

(** ** lib.py: reference data *)

Module lib.

Definition CHAR : string := "C".
Definition NUMERAL : string := "N".
Definition DATE : string := "D".
Definition LOGICAL : string := "L".

Definition SYSTEM_ENCODING : string := "ascii".

(** The literal of [ENCODINGS], entry by entry in source order; this is
    also the order in which [ENCODINGS.items()] enumerates it. *)
Definition ENCODINGS_items : list (Z * (string * string)) :=
  [ (0x00, ("ascii", "ASCII"));
    (0x01, ("cp437", "DOS USA"));
    (0x02, ("cp850", "DOS Multilingual"));
    (0x03, ("cp1252", "Windows ANSI"));
    (0x04, ("mac_roman", "Standard Macintosh"));
    (0x64, ("cp852", "EE MS-DOS"));
    (0x65, ("cp866", "Russian MS-DOS"));
    (0x66, ("cp865", "Nordic MS-DOS"));
    (0x67, ("cp861", "Icelandic MS-DOS"));
    (0x6A, ("cp737", "Greek MS-DOS (437G)"));
    (0x6B, ("cp857", "Turkish MS-DOS"));
    (0x96, ("mac_cyrillic", "Russian Macintosh"));
    (0x97, ("mac_latin2", "Eastern Europe Macintosh"));
    (0x98, ("mac_greek", "Greek Macinstosh"));
    (0xC8, ("cp1250", "Windows EE"));
    (0xC9, ("cp1251", "Russian Windows"));
    (0xCA, ("cp1254", "Turkish Windows"));
    (0xCB, ("cp1253", "Greek Windows"));
    (0x4D, ("cp936", "Chinese GBK (PRC)"));
    (0x7a, ("cp936", "Chinese Simplified (PRC, Singapore) Windows")) ].

Definition ENCODINGS : gmap Z (string * string) := py_dict ENCODINGS_items.

Definition REVERSE_ENCODINGS : gmap string (Z * string) :=
  py_dict (map (fun cv => ((cv.2).1, (cv.1, (cv.2).2))) ENCODINGS_items).

Definition SIGNATURES_items : list (Z * string) :=
  [ (0x02, "FoxBase");
    (0x03, "dBASE III");
    (0x04, "dBASE IV");
    (0x05, "dBASE V");
    (0x30, "Visual FoxPro");
    (0x31, "Visual FoxPro with AutoIncrement field");
    (0x43, "dBASE IV with SQL table and memo file");
    (0x7B, "dBASE IV with memo file");
    (0x83, "dBASE III with memo file");
    (0x8B, "dBASE IV with memo file");
    (0x8E, "dBASE IV with SQL table");
    (0xB3, ".dbv and .dbt memo (Flagship)");
    (0xCB, "dBASE IV with SQL table and memo file");
    (0xE5, "Clipper SIX driver with SMT memo field");
    (0xF5, "FoxPro with memo field");
    (0xFB, "FoxPro") ].

Definition SIGNATURES : gmap Z string := py_dict SIGNATURES_items.

Definition SUPPORTED_SIGNATURES : list Z := [0x03; 0x04; 0x05].

(** ** lib.py: common functions *)

(** [dbf2date(dbf_str)]; [None] is Python's [None]. *)
Definition dbf2date (dbf_str : option bytes) : result (option date) :=
  match dbf_str with
  | None => OK None
  | Some s =>
      if negb (isdigit s) || negb (bool_decide (length s = 8%nat)) then OK None
      else
        y ← py_int (slice 0 4 s);
        m ← py_int (slice 4 6 s);
        d ← py_int (slice 6 8 s);
        r ← datetime_date y m d;
        OK (Some r)
  end.

End lib.

(** ** Text *)

(** A Python [str] obtained from a code page: its code points. *)
Abbreviation text := (list N).

(** The characters [str.rstrip()] removes. *)
Definition is_unicode_space (c : N) : bool :=
  (((0x09 <=? c) && (c <=? 0x0D)) || ((0x1C <=? c) && (c <=? 0x20))
   || (c =? 0x85) || (c =? 0xA0) || (c =? 0x1680)
   || ((0x2000 <=? c) && (c <=? 0x200A))
   || (c =? 0x2028) || (c =? 0x2029) || (c =? 0x202F) || (c =? 0x205F)
   || (c =? 0x3000))%N.

Definition text_rstrip (t : text) : text := rstrip_by is_unicode_space t.

(** [val.decode("ascii")]: the bytes below 128, as a string. *)
Definition ascii_decode (val : bytes) : result string :=
  if forallb (fun c => byte_to_Z c <? 128) val then OK (string_of_list_byte val)
  else Raise (UnicodeDecodeError "ascii" val None).

(** ** The file handle *)

(** A file opened for binary reading: its bytes, the position, and the
    [name] attribute when the handle has one. *)
Record filehandle : Type := mkfh {
  fh_data : bytes;
  fh_pos : nat;
  fh_name : option string
}.

Definition fh_seek (offset : Z) (f : filehandle) : result filehandle :=
  if offset <? 0 then Raise OSError
  else OK (mkfh (fh_data f) (Z.to_nat offset) (fh_name f)).

Definition fh_tell (f : filehandle) : Z := Z.of_nat (fh_pos f).

(** [fh.read(n)]: at most [n] bytes from the position on. *)
Definition fh_read (n : nat) (f : filehandle) : bytes * filehandle :=
  let buf := take n (drop (fh_pos f) (fh_data f)) in
  (buf, mkfh (fh_data f) (fh_pos f + length buf) (fh_name f)).

(** ** [struct.unpack] for the three layouts *)

(** A little-endian unsigned integer. *)
Definition le (bs : bytes) : Z :=
  fold_right (fun c acc => byte_to_Z c + 256 * acc) 0 bs.

Definition byte_at (i : nat) (buf : bytes) : Z := byte_to_Z (nth i buf x00).
Arguments le : simpl never.
Arguments byte_at : simpl never.

(** [unpack("<B3BLHH17xB2x", buf)] *)
Definition unpack_HEADER_FORMAT (buf : bytes)
  : result (Z * Z * Z * Z * Z * Z * Z * Z) :=
  if bool_decide (length buf = 32%nat) then
    OK (byte_at 0 buf, byte_at 1 buf, byte_at 2 buf, byte_at 3 buf,
        le (slice 4 8 buf), le (slice 8 10 buf), le (slice 10 12 buf),
        byte_at 29 buf)
  else Raise struct_error.

(** [unpack("<11sc4xBB14x", buf)] *)
Definition unpack_FIELD_DESCRIPTION_FORMAT (buf : bytes)
  : result (bytes * bytes * Z * Z) :=
  if bool_decide (length buf = 32%nat) then
    OK (slice 0 11 buf, slice 11 12 buf, byte_at 16 buf, byte_at 17 buf)
  else Raise struct_error.

(** A record format ["%ds%ds..."] is kept as the list of its counts. *)
Definition calcsize (recfmt : list Z) : Z := foldr Z.add 0 recfmt.
Arguments calcsize : simpl never.

Fixpoint split_by (recfmt : list Z) (buf : bytes) : list bytes :=
  match recfmt with
  | [] => []
  | n :: r => take (Z.to_nat n) buf :: split_by r (drop (Z.to_nat n) buf)
  end.

(** [unpack(recfmt, buf)] *)
Definition unpack_record (recfmt : list Z) (buf : bytes) : result (list bytes) :=
  if bool_decide (Z.of_nat (length buf) = calcsize recfmt) then OK (split_by recfmt buf)
  else Raise struct_error.

(** ** reader.py *)

(** A field description [(NAME, TYPE, SIZE, DECIMAL)]. *)
Definition field : Type := string * string * Z * Z.

Definition deletion_flag_field : field := ("_deletion_flag", lib.CHAR, 1, 0).

Inductive value : Type :=
| VNone
| VBool (v : bool)
| VInt (v : Z)
| VBytes (v : bytes)
| VStr (v : text)
| VDecimal (v : Decimal)
| VDate (v : date).

(** The conversion functions local to [_makeActions]. *)
Inductive action : Type :=
| dbf2py_date
| dbf2py_logic
| dbf2py_unicode
| dbf2py_string
| dbf2py_integer
| dbf2py_decimal.

Record YDbfReader : Type := mkYDbfReader {
  fh : filehandle;
  explicit_encoding : option string;
  _fields : list field;
  fields : list field;
  builtin_fields : list field;
  builtin__fields : list field;
  numrec : Z;
  lenheader : Z;
  numfields : Z;
  field_names : list string;
  start_from : Z;
  stop_at : Z;
  recfmt : list Z;
  recsize : Z;
  dt : option date;
  sig : Z;
  raw_lang : Z;
  encoding : option string;
  builtin_encoding : option string;
  converters : gmap string action
}.

(** Python truth of [None], [""] and non-empty strings and lists. *)
Definition truthy_str (o : option string) : bool :=
  match o with
  | Some s => negb (bool_decide (s = ""))
  | None => false
  end.

Definition truthy_list {A} (o : option (list A)) : bool :=
  match o with
  | Some (_ :: _) => true
  | _ => false
  end.

(** The attribute assignments of [__init__] before [_readHeader] is called.
    [sig] and [raw_lang] do not exist yet at that point; they are given 0. *)
Definition init_attributes (fh0 : filehandle) (fields0 : option (list field))
    (encoding0 : option string) : YDbfReader :=
  let user := match fields0 with Some l => l | None => [] end in
  let _fields0 := if truthy_list fields0 then deletion_flag_field :: user else [] in
  {| fh := fh0;
     explicit_encoding := encoding0;
     _fields := _fields0;
     fields := [];                 (* [self.fields = []], assigned a second time *)
     builtin_fields := [];
     builtin__fields := [];
     numrec := 0; lenheader := 0; numfields := 0;
     field_names := [];
     start_from := 0; stop_at := 0;
     recfmt := []; recsize := 0;
     dt := None;
     sig := 0; raw_lang := 0;
     encoding := None; builtin_encoding := None;
     converters := ∅ |}.

(** [name.split(b"\0", 1)[0]] *)
Fixpoint until_nul (name : bytes) : bytes :=
  match name with
  | [] => []
  | c :: r => if is_nul c then [] else c :: until_nul r
  end.

(** The loop [for fieldno in range(numfields)] of [_readHeader]. *)
Fixpoint read_field_descriptions (n : nat) (f : filehandle) (acc : list field)
  : result (list field * filehandle) :=
  match n with
  | O => OK (acc, f)
  | S n' =>
      let '(buf, f1) := fh_read 32 f in
      '(name, typ, size, deci) ← unpack_FIELD_DESCRIPTION_FORMAT buf;
      let name := until_nul name in
      type_string ← ascii_decode typ;
      name_string ← ascii_decode name;
      if negb (bool_decide (type_string ∈ [lib.CHAR; lib.DATE; lib.LOGICAL; lib.NUMERAL]))
      then Raise (ValueError (unknown_field_type type_string name_string))
      else read_field_descriptions n' f1 (acc ++ [(name_string, type_string, size, deci)])
  end.

Definition _readHeader (self : YDbfReader) : result YDbfReader :=
  f ← fh_seek 0 (fh self);
  let '(buf, f) := fh_read 32 f in
  '(sig, year, month, day, numrec, lenheader, recsize, lang) ← unpack_HEADER_FORMAT buf;
  let year := year + 1900 in
  let year := if year <? 1950 then year + 100 else year in
  dt ← datetime_date year month day;
  if negb (bool_decide (sig ∈ lib.SUPPORTED_SIGNATURES)) then
    let version := default "UNKNOWN" (lib.SIGNATURES !! sig) in
    Raise (ValueError (version_not_supported version sig))
  else
    let numfields := (lenheader - 33) / 32 in
    '(flds, f) ← read_field_descriptions (Z.to_nat numfields) f [];
    let '(terminator, f) := fh_read 1 f in
    if negb (bool_decide (terminator = [x0d])) then
      Raise TypeError     (* the message calls [hex] on a bytes object *)
    else
      let flds := deletion_flag_field :: flds in
      let builtin__fields := flds in
      let builtin_fields := tail flds in
      let '(fields', _fields') :=
        match fields self with
        | [] => (builtin_fields, builtin__fields)
        | _ => (fields self, _fields self)
        end in
      let recfmt := map (fun fld : field => fld.1.2) _fields' in
      OK {| fh := f;
            explicit_encoding := explicit_encoding self;
            _fields := _fields';
            fields := fields';
            builtin_fields := builtin_fields;
            builtin__fields := builtin__fields;
            numrec := numrec;
            lenheader := lenheader;
            numfields := numfields;
            field_names := map (fun fld : field => fld.1.1.1) fields';
            start_from := start_from self;
            stop_at := numrec;
            recfmt := recfmt;
            recsize := calcsize recfmt;
            dt := Some dt;
            sig := sig;
            raw_lang := lang;
            encoding := encoding self;
            builtin_encoding := builtin_encoding self;
            converters := converters self |}.

Definition _defineEncoding (self : YDbfReader) : result YDbfReader :=
  let builtin :=
    match lib.ENCODINGS !! raw_lang self with
    | Some value => Some value.1
    | None => None
    end in
  if bool_decide (builtin = None) && bool_decide (explicit_encoding self = None)
  then Raise (ValueError (cannot_resolve_lang (raw_lang self)))
  else
    let enc := if truthy_str (explicit_encoding self)
               then explicit_encoding self else builtin in
    OK {| fh := fh self;
          explicit_encoding := explicit_encoding self;
          _fields := _fields self;
          fields := fields self;
          builtin_fields := builtin_fields self;
          builtin__fields := builtin__fields self;
          numrec := numrec self;
          lenheader := lenheader self;
          numfields := numfields self;
          field_names := field_names self;
          start_from := start_from self;
          stop_at := stop_at self;
          recfmt := recfmt self;
          recsize := recsize self;
          dt := dt self;
          sig := sig self;
          raw_lang := raw_lang self;
          encoding := enc;
          builtin_encoding := builtin;
          converters := converters self |}.

(** [self.action_resolvers]; the lambdas read [self.encoding]. *)
Definition action_resolvers (self_encoding : option string)
  : list (string -> Z -> Z -> option action) :=
  [ (fun typ size dec =>
       if bool_decide (typ = lib.CHAR) && truthy_str self_encoding
       then Some dbf2py_unicode else None);
    (fun typ size dec =>
       if bool_decide (typ = lib.CHAR) && negb (truthy_str self_encoding)
       then Some dbf2py_string else None);
    (fun typ size dec =>
       if bool_decide (typ = lib.NUMERAL) && negb (dec =? 0)
       then Some dbf2py_decimal else None);
    (fun typ size dec =>
       if bool_decide (typ = lib.NUMERAL) && (dec =? 0)
       then Some dbf2py_integer else None);
    (fun typ size dec => if bool_decide (typ = lib.DATE) then Some dbf2py_date else None);
    (fun typ size dec => if bool_decide (typ = lib.LOGICAL) then Some dbf2py_logic else None) ].

(** The inner loop of [_makeActions]: the first resolver that answers. *)
Fixpoint resolve (resolvers : list (string -> Z -> Z -> option action))
    (typ : string) (size dec : Z) : option action :=
  match resolvers with
  | [] => None
  | resolver :: rest =>
      match resolver typ size dec with
      | Some a => Some a
      | None => resolve rest typ size dec
      end
  end.

(** The outer loop of [_makeActions]. *)
Fixpoint make_converters (self_encoding : option string) (flds : list field)
    (convs : gmap string action) : result (gmap string action) :=
  match flds with
  | [] => OK convs
  | (name, typ, size, dec) :: rest =>
      match resolve (action_resolvers self_encoding) typ size dec with
      | Some a => make_converters self_encoding rest (<[name := a]> convs)
      | None => Raise (ValueError (no_converter name typ))
      end
  end.

Definition _makeActions (self : YDbfReader) : result YDbfReader :=
  convs ← make_converters (encoding self) (_fields self) (converters self);
  OK {| fh := fh self;
        explicit_encoding := explicit_encoding self;
        _fields := _fields self;
        fields := fields self;
        builtin_fields := builtin_fields self;
        builtin__fields := builtin__fields self;
        numrec := numrec self;
        lenheader := lenheader self;
        numfields := numfields self;
        field_names := field_names self;
        start_from := start_from self;
        stop_at := stop_at self;
        recfmt := recfmt self;
        recsize := recsize self;
        dt := dt self;
        sig := sig self;
        raw_lang := raw_lang self;
        encoding := encoding self;
        builtin_encoding := builtin_encoding self;
        converters := convs |}.

(** [YDbfReader.postInit] *)
Definition postInit (self : YDbfReader) : result YDbfReader := OK self.

(** [__init__], for a class whose [postInit] method is [post]. *)
Definition __init__ (post : YDbfReader -> result YDbfReader)
    (fh0 : filehandle) (fields0 : option (list field)) (use_unicode : bool)
    (encoding0 : option string) : result YDbfReader :=
  let self := init_attributes fh0 fields0 encoding0 in
  self ← _readHeader self;
  self ← (if use_unicode then _defineEncoding self else OK self);
  self ← _makeActions self;
  post self.

(** [YDbfReader(fh, fields, use_unicode, encoding)] *)
Definition new_YDbfReader := __init__ postInit.


Section Records.

(** The codecs known to the interpreter: [codecs name] is the decoder
    registered under [name], which answers [None] on undecodable input. *)
Variable codecs : string -> option (bytes -> option text).

(** [val.decode(enc)]; empty input decodes to the empty string before the
    codec is looked up. *)
Definition bytes_decode (val : bytes) (enc : option string) : result text :=
  match enc with
  | None => Raise TypeError
  | Some name =>
      if bool_decide (val = []) then OK []
      else match codecs name with
           | None => Raise (LookupError name)
           | Some decoder =>
               match decoder val with
               | Some t => OK t
               | None => Raise (UnicodeDecodeError name val None)
               end
           end
  end.

(** The call [conv(val, size, dec)] of a conversion function. *)
Definition call (self_encoding : option string) (conv : action)
    (val : bytes) (size dec : Z) : result value :=
  match conv with
  | dbf2py_date =>
      d ← lib.dbf2date (Some val);
      OK (match d with Some d => VDate d | None => VNone end)
  | dbf2py_logic =>
      OK (VBool (bool_decide (strip val ∈ [b "Y"; b "y"; b "T"; b "t"])))
  | dbf2py_unicode =>
      t ← bytes_decode val self_encoding;
      OK (VStr (text_rstrip t))
  | dbf2py_string => OK (VBytes (rstrip val))
  | dbf2py_integer =>
      match strip val with
      | [] => OK (VInt 0)
      | s => n ← py_int s; OK (VInt n)
      end
  | dbf2py_decimal =>
      x ← match strip val with
          | [] => OK (Ffin false 0 0)
          | s => py_float s
          end;
      d ← Decimal_of_str (format_f dec x);
      OK (VDecimal d)
  end.

(** [self.converters[name]] for each of [self._fields]. *)
Fixpoint converters_tuple (convs : gmap string action) (flds : list field)
  : result (list (action * string * Z * Z)) :=
  match flds with
  | [] => OK []
  | (name, typ, size, dec) :: rest =>
      match convs !! name with
      | None => Raise (KeyError name)
      | Some conv =>
          l ← converters_tuple convs rest;
          OK ((conv, name, size, dec) :: l)
      end
  end.

(** The generator expression inside [dict(...)], run to its end. *)
Fixpoint record_items (self_encoding : option string) (show_deleted : bool)
    (zipped : list ((action * string * Z * Z) * bytes))
  : result (list (string * value)) :=
  match zipped with
  | [] => OK []
  | ((conv, name, size, dec), val) :: rest =>
      if negb (bool_decide (name = "_deletion_flag")) || show_deleted then
        v ← call self_encoding conv (rstrip_nul val) size dec;
        l ← record_items self_encoding show_deleted rest;
        OK ((name, v) :: l)
      else record_items self_encoding show_deleted rest
  end.

(** The two [except] clauses around the [yield]. *)
Definition reraise {A} (i : Z) (r : result A) : result A :=
  match r with
  | OK a => OK a
  | Raise (UnicodeDecodeError enc obj _) => Raise (UnicodeDecodeError enc obj (Some i))
  | Raise (ValueError why) => Raise (RuntimeError (ValueError why) i)
  | Raise TypeError => Raise (RuntimeError TypeError i)
  | Raise (KeyError k) => Raise (RuntimeError (KeyError k) i)
  | Raise e => Raise e
  end.

(** What one turn of the loop over the records does. *)
Inductive turn : Type :=
| Skipped
| Yielded (record : gmap string value)
| Raised (e : exn).

(** The body of the loop, for record number [i] unpacked as [record];
    [record[0]] exists because [_fields] begins with the deletion flag. *)
Definition loop_body (self_encoding : option string) (show_deleted : bool)
    (convs : list (action * string * Z * Z)) (i : Z) (record : list bytes) : turn :=
  if negb show_deleted && negb (bool_decide (nth 0 record [] = b " ")) then Skipped
  else
    match reraise i (items ← record_items self_encoding show_deleted (zip convs record);
                     OK (py_dict items)) with
    | OK d => Yielded d
    | Raise e => Raised e
    end.

(** What a generator produced when it was run to its end: the records it
    yielded, and the exception that ended it, if one did. *)
Record iteration : Type := mkiteration {
  yielded : list (gmap string value);
  raised : option exn
}.

(** [for i in range(i, i + n)] *)
Fixpoint records_loop (self : YDbfReader) (show_deleted : bool)
    (convs : list (action * string * Z * Z)) (f : filehandle) (i : Z) (n : nat)
  : iteration * filehandle :=
  match n with
  | O => (mkiteration [] None, f)
  | S n' =>
      let '(buf, f1) := fh_read (Z.to_nat (recsize self)) f in
      match unpack_record (recfmt self) buf with
      | Raise e => (mkiteration [] (Some e), f1)
      | OK record =>
          match loop_body (encoding self) show_deleted convs i record with
          | Skipped => records_loop self show_deleted convs f1 (i + 1) n'
          | Raised e => (mkiteration [] (Some e), f1)
          | Yielded d =>
              let '(it, f2) := records_loop self show_deleted convs f1 (i + 1) n' in
              (mkiteration (d :: yielded it) (raised it), f2)
          end
      end
  end.

Definition with_cursor (self : YDbfReader) (f : filehandle) (start stop : Z)
  : YDbfReader :=
  {| fh := f;
     explicit_encoding := explicit_encoding self;
     _fields := _fields self;
     fields := fields self;
     builtin_fields := builtin_fields self;
     builtin__fields := builtin__fields self;
     numrec := numrec self;
     lenheader := lenheader self;
     numfields := numfields self;
     field_names := field_names self;
     start_from := start;
     stop_at := stop;
     recfmt := recfmt self;
     recsize := recsize self;
     dt := dt self;
     sig := sig self;
     raw_lang := raw_lang self;
     encoding := encoding self;
     builtin_encoding := builtin_encoding self;
     converters := converters self |}.

(** [records(start_from, limit, show_deleted)], run to its end: the reader
    afterwards and what the generator produced. *)
Definition records (self : YDbfReader) (start_from0 limit : option Z)
    (show_deleted : bool) : YDbfReader * iteration :=
  let start := default (start_from self) start_from0 in
  let offset := lenheader self + recsize self * start in
  match (if bool_decide (fh_tell (fh self) = offset) then OK (fh self)
         else fh_seek offset (fh self)) with
  | Raise e => (with_cursor self (fh self) start (stop_at self), mkiteration [] (Some e))
  | OK f =>
      let stop := match limit with Some l => start + l | None => stop_at self end in
      match converters_tuple (converters self) (_fields self) with
      | Raise e => (with_cursor self f start stop, mkiteration [] (Some e))
      | OK convs =>
          let '(it, f1) :=
            records_loop self show_deleted convs f start (Z.to_nat (stop - start)) in
          (with_cursor self f1 start stop, it)
      end
  end.

(** [read()] *)
Definition read (self : YDbfReader) : YDbfReader * iteration :=
  records self None None false.

End Records.

Section Strict.

(** [os.stat(file_name)[6]]: the size of the named file, [None] when the
    call raises [OSError]. *)
Variable os_stat_size : string -> option Z.

(** The loop over [self.fields] in [checkConsistency]; the messages go on
    with the name and the size of the field. *)
Fixpoint check_fields (flds : list field) : result unit :=
  match flds with
  | [] => OK tt
  | (f_name, f_type, f_size, f_decimal) :: rest =>
      _ ← (if bool_decide (f_type = lib.NUMERAL)
           then assert (f_size <? 20) "Size of numeral field must be <20" else OK tt);
      _ ← (if bool_decide (f_type = lib.CHAR)
           then assert (f_size <? 255) "Size of numeral field must be <255" else OK tt);
      _ ← (if bool_decide (f_type = lib.LOGICAL)
           then assert (f_size =? 1) "Size of logical field must be 1" else OK tt);
      check_fields rest
  end.

Definition checkConsistency (self : YDbfReader) : result unit :=
  _ ← assert (1 <? recsize self) "Length of record must be >1";
  _ ← (if bool_decide (sig self ∈ [0x03; 0x04])
       then assert (recsize self <? 4000) "Length of record must be <4000 B for dBASE III and IV"
       else OK tt);
  _ ← assert (recsize self <? 32 * 1024) "Length of record must be <32KB";
  _ ← assert (0 <=? numrec self) "Number of records must be non-negative";
  _ ← assert (0 <? numfields self) "The dbf file must have at least one field";
  _ ← (if sig self =? 0x03
       then assert (numfields self <? 128) "Number of fields in dBASE III must be <128"
       else OK tt);
  _ ← (if sig self =? 0x04
       then assert (numfields self <? 256) "Number of fields in dBASE IV must be <256"
       else OK tt);
  _ ← check_fields (fields self);
  match fh_name (fh self) with
  | None => OK tt
  | Some file_name =>
      match os_stat_size file_name with
      | None => OK tt
      | Some os_size =>
          let dbf_size := lenheader self + 1 + numrec self * recsize self in
          assert (os_size =? dbf_size)
            "Logical size (calculated from file structure and number of records) should be equal to size of file"
      end
  end.

(** [YDbfStrictReader.postInit] *)
Definition strict_postInit (self : YDbfReader) : result YDbfReader :=
  self ← postInit self;
  _ ← checkConsistency self;
  OK self.

(** [YDbfStrictReader(fh, fields, use_unicode, encoding)] *)
Definition new_YDbfStrictReader := __init__ strict_postInit.

End Strict.

(** ** lib.py: the other date functions *)

(** ["%0<w>d" % n]: the digits of [n], with zeros in front up to [w]
    characters, the sign included. *)
Definition format_0d (w : nat) (n : Z) : bytes :=
  if n <? 0 then
    x2d :: (replicate (w - 1 - length (digits_of (- n))) x30 ++ digits_of (- n))%list
  else (replicate (w - length (digits_of n)) x30 ++ digits_of n)%list.

(** [date2dbf(dt)] *)
Definition date2dbf (dt : value) : result bytes :=
  match dt with
  | VDate d =>
      OK (format_0d 4 (year d) ++ format_0d 2 (month d) ++ format_0d 2 (day d))%list
  | _ => Raise TypeError
  end.

Definition text_slice (i j : nat) (t : text) : text := take (j - i) (drop i t).

(** [sep.join(parts)] and [t.split(sep)] for a separator of one character. *)
Fixpoint text_join (sep : N) (parts : list text) : text :=
  match parts with
  | [] => []
  | [p] => p
  | p :: ps => (p ++ sep :: text_join sep ps)%list
  end.

Fixpoint text_split (sep : N) (t : text) : list text :=
  match t with
  | [] => [[]]
  | c :: r =>
      if (c =? sep)%N then [] :: text_split sep r
      else match text_split sep r with
           | p :: ps => (c :: p) :: ps
           | [] => [[c]]
           end
  end.

(** The full stop. *)
Definition dot : N := 46%N.

(** [dbf2str(dbf_str)] *)
Definition dbf2str (dbf_str : option bytes) : result (option text) :=
  match dbf_str with
  | None => OK None
  | Some s =>
      if negb (isdigit s) || negb (bool_decide (length s = 8%nat)) then OK None
      else
        string_date ←
          (if forallb (fun c => byte_to_Z c <? 128) s then OK (map Byte.to_N s)
           else Raise (UnicodeDecodeError lib.SYSTEM_ENCODING s None));
        OK (Some (text_join dot
                    (rev [text_slice 0 4 string_date; text_slice 4 6 string_date;
                          text_slice 6 8 string_date])))
  end.

(** What [str2dbf] raises. *)
Inductive str2dbf_error : Type :=
| not_a_string                       (* TypeError *)
| not_10_symbols (str_l : nat)       (* ValueError *)
| not_3_parts (parts : nat)          (* ValueError: the unpacking of [split] *)
| not_ascii.                         (* UnicodeEncodeError *)

(** [str2dbf(dt_str)] *)
Definition str2dbf (dt_str : value) : str2dbf_error + bytes :=
  match dt_str with
  | VStr t =>
      let str_l := length t in
      if negb (bool_decide (str_l = 10%nat)) then inl (not_10_symbols str_l)
      else match text_split dot t with
           | [d; m; y] =>
               let dbf_string := (y ++ m ++ d)%list in
               if forallb (fun c => (c <? 128)%N) dbf_string
               then inr (omap Byte.of_N dbf_string)
               else inl not_ascii
           | parts => inl (not_3_parts (length parts))
           end
  | _ => inl not_a_string
  end.

(** The display form of 8 digits: day, month and year between full stops. *)
Definition display (s : bytes) : text :=
  (map Byte.to_N (slice 6 8 s) ++ dot :: map Byte.to_N (slice 4 6 s)
  ++ dot :: map Byte.to_N (slice 0 4 s))%list.

(** ** Sample files *)

Module sample.

Definition byte_of_Z (z : Z) : byte := default x00 (Byte.of_N (Z.to_N z)).

(** [n] as [k] little-endian bytes. *)
Fixpoint le_bytes (k : nat) (n : Z) : bytes :=
  match k with
  | O => []
  | S k' => byte_of_Z (n mod 256) :: le_bytes k' (n / 256)
  end.

(** The 32 bytes of a file header. *)
Definition header (sig year month day numrec lenheader recsize lang : Z) : bytes :=
  [byte_of_Z sig; byte_of_Z year; byte_of_Z month; byte_of_Z day]
  ++ le_bytes 4 numrec ++ le_bytes 2 lenheader ++ le_bytes 2 recsize
  ++ replicate 17 x00 ++ [byte_of_Z lang] ++ replicate 2 x00.

(** The 32 bytes of a field description. *)
Definition description (name typ : string) (size deci : Z) : bytes :=
  take 11 (b name ++ replicate 11 x00) ++ b typ ++ replicate 4 x00
  ++ [byte_of_Z size; byte_of_Z deci] ++ replicate 14 x00.

(** A dBASE III table with the columns NAME (Character, 5) and QTY
    (Numeral, 3), written on 2008-07-14 under language code [lang]; of its
    two records the first is active and the second has the deletion flag
    [flag2]. *)
Definition table (lang : Z) (flag2 : byte) : bytes :=
  header 0x03 8 7 14 2 97 9 lang
  ++ description "NAME" "C" 5 0 ++ description "QTY" "N" 3 0 ++ [x0d]
  ++ b " ALICE 12" ++ flag2 :: b "BOB    7"
  ++ [x1a].

(** The same table under a signature the reader does not support. *)
Definition foxpro_table : bytes :=
  header 0x30 8 7 14 2 97 9 0x00 ++ drop 32 (table 0x00 x2a).

Definition handle (data : bytes) (name : option string) : filehandle :=
  mkfh data 0 name.

(** A codec table that knows ["ascii"] only. *)
Definition ascii_codec (val : bytes) : option text :=
  if forallb (fun c => byte_to_Z c <? 128) val then Some (map Byte.to_N val) else None.

Definition codecs (name : string) : option (bytes -> option text) :=
  if bool_decide (name = "ascii") then Some ascii_codec else None.

(** A file system in which the file ["t.dbf"] has [size] bytes. *)
Definition os_stat_size (size : Z) (file_name : string) : option Z :=
  if bool_decide (file_name = "t.dbf") then Some size else None.

(** Text with the characters of an ASCII string. *)
Definition u (s : string) : text := map Byte.to_N (b s).

(** The reader [YDbfReader(fh0, None, use_unicode, encoding0)], when the
    constructor returns. *)
Definition opened (fh0 : filehandle) (use_unicode : bool)
    (encoding0 : option string) : YDbfReader :=
  match new_YDbfReader fh0 None use_unicode encoding0 with
  | OK r => r
  | Raise _ => init_attributes fh0 None encoding0
  end.

End sample.

(** ** Vocabulary of the properties *)

(** A reader comes out of either class. *)
Definition initialized (fh0 : filehandle) (fields0 : option (list field))
    (use_unicode : bool) (encoding0 : option string) (r : YDbfReader) : Prop :=
  new_YDbfReader fh0 fields0 use_unicode encoding0 = OK r
  \/ exists os_stat_size,
       new_YDbfStrictReader os_stat_size fh0 fields0 use_unicode encoding0 = OK r.

(** An exception, if any, is an [AssertionError]. *)
Definition asserts {A} (m : result A) : Prop :=
  match m with
  | OK _ => True
  | Raise e => exists msg, e = AssertionError msg
  end.

(** No exception is an [AssertionError]. *)
Definition no_assert {A} (m : result A) : Prop :=
  forall msg, m <> Raise (AssertionError msg).


(** ** Vocabulary of the further properties *)

(** A field description as [_readHeader] accepts it: one of the four type
    tags, a name of at most 11 characters, a size and a decimal count that
    fit a byte. *)
Definition descriptor_ok (f : field) : Prop :=
  f.1.1.2 ∈ [lib.CHAR; lib.DATE; lib.LOGICAL; lib.NUMERAL]
  /\ (String.length f.1.1.1 <= 11)%nat
  /\ 0 <= f.1.2 <= 255
  /\ 0 <= f.2 <= 255.

(** The name, the type, the size and the decimal count of a field. *)
Definition field_name (f : field) : string := f.1.1.1.
Definition field_size (f : field) : Z := f.1.2.

(** The bounds [checkConsistency] puts on one field. *)
Definition strict_field_ok (f : field) : Prop :=
  (f.1.1.2 = lib.NUMERAL -> f.1.2 < 20)
  /\ (f.1.1.2 = lib.CHAR -> f.1.2 < 255)
  /\ (f.1.1.2 = lib.LOGICAL -> f.1.2 = 1).

(** The bytes of record number [i] in the file of a reader: [recsize] bytes
    from the offset [lenheader + recsize * i] on. *)
Definition record_bytes (self : YDbfReader) (i : Z) : bytes :=
  take (Z.to_nat (recsize self))
       (drop (Z.to_nat (lenheader self + recsize self * i)) (fh_data (fh self))).

(** What the body of the loop does with record number [i] of the file. *)
Definition turn_at (codecs : string -> option (bytes -> option text))
    (self : YDbfReader) (show_deleted : bool)
    (convs : list (action * string * Z * Z)) (i : Z) : turn :=
  loop_body codecs (encoding self) show_deleted convs i
    (split_by (recfmt self) (record_bytes self i)).

Definition yield_of (t : turn) : option (gmap string value) :=
  match t with Yielded d => Some d | _ => None end.

Definition is_raised (t : turn) : bool :=
  match t with Raised _ => true | _ => false end.

(** The first record number and the number of turns of a call
    [records(start_from, limit)]. *)
Definition window_start (self : YDbfReader) (start_from0 : option Z) : Z :=
  default (start_from self) start_from0.
Definition window_stop (self : YDbfReader) (start_from0 limit : option Z) : Z :=
  match limit with
  | Some l => window_start self start_from0 + l
  | None => stop_at self
  end.

(** The decimal text of an integer, ["%d" % n]. *)
Definition format_d (n : Z) : bytes :=
  if n <? 0 then x2d :: digits_of (- n) else digits_of n.

(** An exception that carries no record number: neither a [RuntimeError]
    nor a [UnicodeDecodeError] annotated by [records]. *)
Definition unnumbered (e : exn) : Prop :=
  match e with
  | RuntimeError _ _ => False
  | UnicodeDecodeError _ _ (Some _) => False
  | _ => True
  end.

(* ===================================================================== *)
(** * Properties *)
(* ===================================================================== *)

Example reverse_cp936 :
  lib.REVERSE_ENCODINGS !! "cp936"
  = Some (0x7a, "Chinese Simplified (PRC, Singapore) Windows").
Proof. vm_compute. reflexivity. Qed.

Example float_12_50 : py_float (b "  12.50") = OK (Ffin false 7036874417766400 (-49)).
Proof. vm_compute. reflexivity. Qed.

Example format_12_50 : format_f 2 (Ffin false 7036874417766400 (-49)) = b "12.50".
Proof. vm_compute. reflexivity. Qed.

Example format_0125 : (x ← py_float (b "0.125"); OK (format_f 2 x)) = OK (b "0.12").
Proof. vm_compute. reflexivity. Qed.

Example format_tenth : (x ← py_float (b "0.1"); OK (format_f 20 x)) = OK (b "0.10000000000000000555").
Proof. vm_compute. reflexivity. Qed.

Example format_big : (x ← py_float (b "-12345678901234567.89"); OK (format_f 2 x)) = OK (b "-12345678901234568.00").
Proof. vm_compute. reflexivity. Qed.

Example float_max : py_float (b "1.7976931348623157e308") = OK (Ffin false (2^53 - 1) 971).
Proof. vm_compute. reflexivity. Qed.

Example float_over : py_float (b "1.7976931348623159e308") = OK (Finf false).
Proof. vm_compute. reflexivity. Qed.

Example float_min : py_float (b "5e-324") = OK (Ffin false 1 (-1074)).
Proof. vm_compute. reflexivity. Qed.

Example float_under : py_float (b "2e-324") = OK (Ffin false 0 (-1074)).
Proof. vm_compute. reflexivity. Qed.

Example dec_12_50 : Decimal_of_str (b "12.50") = OK (Dec_finite false 1250 (-2)).
Proof. vm_compute. reflexivity. Qed.

Example sample_open :
  (r ← new_YDbfReader (sample.handle (sample.table 0 x2a) None) None true None;
   OK (dt r, numrec r, lenheader r, recsize r, _fields r, encoding r))
  = OK (Some (mkdate 2008 7 14), 2, 97, 9,
        [("_deletion_flag", "C", 1, 0); ("NAME", "C", 5, 0); ("QTY", "N", 3, 0)],
        Some "ascii").
Proof. vm_compute. reflexivity. Qed.

Example sample_read :
  (r ← new_YDbfReader (sample.handle (sample.table 0 x2a) None) None true None;
   OK (read sample.codecs r).2)
  = OK (mkiteration
          [py_dict [("NAME", VStr (sample.u "ALICE")); ("QTY", VInt 12)]] None).
Proof. vm_compute. reflexivity. Qed.

Example sample_read_deleted :
  (r ← new_YDbfReader (sample.handle (sample.table 0 x2a) None) None true None;
   OK (records sample.codecs r None None true).2)
  = OK (mkiteration
          [py_dict [("_deletion_flag", VStr []); ("NAME", VStr (sample.u "ALICE")); ("QTY", VInt 12)];
           py_dict [("_deletion_flag", VStr (sample.u "*")); ("NAME", VStr (sample.u "BOB")); ("QTY", VInt 7)]]
          None).
Proof. vm_compute. reflexivity. Qed.

(** ** Dictionaries built from a list of pairs *)

Section py_dict_facts.
Context `{Countable K} {V : Type}.
Implicit Types (l : list (K * V)) (m : gmap K V).

Lemma fold_insert_lookup l m k :
  fold_left (fun m kv => <[kv.1 := kv.2]> m) l m !! k
  = match fold_left (fun m kv => <[kv.1 := kv.2]> m) l ∅ !! k with
    | Some v => Some v
    | None => m !! k
    end.
Proof.
  revert m. induction l as [|[k' v'] l IH]; intros m; simpl.
  - by rewrite lookup_empty.
  - rewrite (IH (<[k':=v']> m)), (IH (<[k':=v']> ∅)).
    destruct (fold_left _ l ∅ !! k); [done|].
    destruct (decide (k' = k)) as [->|Hne].
    + by rewrite !lookup_insert_eq.
    + by rewrite !lookup_insert_ne, lookup_empty.
Qed.

Lemma py_dict_cons k v l k' :
  py_dict ((k, v) :: l) !! k'
  = match py_dict l !! k' with
    | Some w => Some w
    | None => if decide (k = k') then Some v else None
    end.
Proof.
  unfold py_dict; simpl. rewrite fold_insert_lookup.
  destruct (fold_left _ l ∅ !! k'); [done|].
  destruct (decide (k = k')) as [->|Hne].
  - by rewrite lookup_insert_eq.
  - by rewrite lookup_insert_ne, lookup_empty.
Qed.

Lemma py_dict_lookup_elem l k v : py_dict l !! k = Some v -> (k, v) ∈ l.
Proof.
  induction l as [|[k' v'] l IH].
  - unfold py_dict; simpl. by rewrite lookup_empty.
  - rewrite py_dict_cons. destruct (py_dict l !! k) eqn:E.
    + intros [= ->]. right. by apply IH.
    + destruct (decide (k' = k)) as [->|]; [|done]. intros [= ->]. left.
Qed.

Lemma py_dict_is_Some l k : is_Some (py_dict l !! k) <-> k ∈ l.*1.
Proof.
  induction l as [|[k' v'] l IH].
  - unfold py_dict; simpl. rewrite lookup_empty. split.
    + by intros [? ?].
    + by intros ?%elem_of_nil.
  - rewrite py_dict_cons, fmap_cons, elem_of_cons. simpl.
    destruct (py_dict l !! k) eqn:E.
    + split; [intros _; right; apply IH; eauto | eauto].
    + destruct (decide (k' = k)) as [->|Hne].
      * split; eauto.
      * split; [by intros [? ?]|]. intros [->|Hin]; [done|].
        apply IH in Hin as [? ?]. done.
Qed.

End py_dict_facts.

(** ** The encoding catalog and its reverse (lib.py) *)

(** C8, as the claim states it, fails at the language code 0x4D: its
    encoding name is cp936, which the reverse table sends to 0x7A. *)
Lemma C8_reverse_of_0x4D_is_0x7A :
  exists value back,
    lib.ENCODINGS !! 0x4D = Some value
    /\ lib.REVERSE_ENCODINGS !! value.1 = Some back
    /\ back.1 = 0x7A /\ back.1 <> 0x4D.
Proof.
  exists ("cp936", "Chinese GBK (PRC)"),
         (0x7A, "Chinese Simplified (PRC, Singapore) Windows").
  repeat split; try (vm_compute; reflexivity). discriminate.
Qed.

(** C8 (amended): for every language code [c] of the catalog, the reverse
    table has an entry for the encoding name of [c]; the code of that entry
    carries the same encoding name in the catalog, with the label the
    entry records; and the entry is [c] itself with its own label for every
    [c] other than 0x4D. *)
Theorem C8_reverse_encodings (c : Z) (value : string * string) :
  lib.ENCODINGS !! c = Some value ->
  exists back : Z * string,
    lib.REVERSE_ENCODINGS !! value.1 = Some back
    /\ lib.ENCODINGS !! back.1 = Some (value.1, back.2)
    /\ (c <> 0x4D -> back = (c, value.2)).
Proof.
  intros Hc. apply py_dict_lookup_elem in Hc. unfold lib.ENCODINGS_items in Hc.
  repeat (apply elem_of_cons in Hc as [Hc|Hc];
          [ injection Hc as -> ->; eexists; split; [vm_compute; reflexivity|];
            split; [vm_compute; reflexivity|]; intros Hne; solve [ reflexivity | by destruct Hne ] |]).
  by apply elem_of_nil in Hc.
Qed.

Lemma C8_reverse_encodings_witness :
  exists back : Z * string,
    lib.REVERSE_ENCODINGS !! "cp866" = Some back
    /\ lib.ENCODINGS !! back.1 = Some ("cp866", back.2)
    /\ (0x65 <> 0x4D -> back = (0x65, "Russian MS-DOS")).
Proof.
  apply (C8_reverse_encodings 0x65 ("cp866", "Russian MS-DOS")).
  vm_compute. reflexivity.
Defined.

(** ** Digits and [int] *)

Lemma is_digit_not_space c : is_digit c = true -> is_space c = false.
Proof. destruct c; vm_compute; congruence. Qed.

Lemma is_digit_not_sign c : is_digit c = true -> c <> x2d /\ c <> x2b.
Proof. destruct c; vm_compute; intros; split; congruence. Qed.

Lemma rstrip_by_id {A} (p : A -> bool) (l : list A) :
  forallb (fun c => negb (p c)) l = true -> rstrip_by p l = l.
Proof.
  induction l as [|c l IH]; simpl; [done|].
  intros [Hc Hl]%andb_true_iff. rewrite (IH Hl).
  destruct l; [|done]. by destruct (p c).
Qed.

Lemma lstrip_by_id {A} (p : A -> bool) (l : list A) :
  forallb (fun c => negb (p c)) l = true -> lstrip_by p l = l.
Proof.
  destruct l as [|c l]; simpl; [done|].
  intros [Hc _]%andb_true_iff. by destruct (p c).
Qed.

Lemma digits_no_space (s : bytes) :
  forallb is_digit s = true -> forallb (fun c => negb (is_space c)) s = true.
Proof.
  induction s as [|c s IH]; simpl; [done|].
  intros [Hc Hs]%andb_true_iff. by rewrite (is_digit_not_space _ Hc), IH.
Qed.

Lemma strip_digits (s : bytes) : forallb is_digit s = true -> strip s = s.
Proof.
  intros Hs%digits_no_space. unfold strip.
  by rewrite (lstrip_by_id _ _ Hs), (rstrip_by_id _ _ Hs).
Qed.

Lemma parse_digits_all (s : bytes) acc after :
  forallb is_digit s = true -> (s <> [] \/ after = true) ->
  parse_digits acc after s = Some (digits_value_from acc s).
Proof.
  revert acc after. induction s as [|c s IH]; intros acc after; simpl.
  - intros _ [?| ->]; done.
  - intros [Hc Hs]%andb_true_iff _. rewrite Hc. apply IH; auto.
Qed.

Lemma py_int_digits (s : bytes) : isdigit s = true -> py_int s = OK (digits_value s).
Proof.
  unfold isdigit. intros [Hne Hs]%andb_true_iff.
  apply negb_true_iff, bool_decide_eq_false in Hne.
  unfold py_int. rewrite (strip_digits _ Hs).
  destruct s as [|c s]; [done|].
  pose proof Hs as [Hc _]%andb_true_iff.
  destruct (is_digit_not_sign _ Hc) as [Hm Hp].
  rewrite !bool_decide_eq_false_2 by done.
  rewrite (parse_digits_all (c :: s) 0 false Hs) by (by left). done.
Qed.

Lemma forallb_take {A} (p : A -> bool) n (l : list A) :
  forallb p l = true -> forallb p (take n l) = true.
Proof.
  revert n; induction l as [|c l IH]; intros [|n]; simpl; try done.
  intros [-> Hl]%andb_true_iff. by apply IH.
Qed.

Lemma forallb_drop {A} (p : A -> bool) n (l : list A) :
  forallb p l = true -> forallb p (drop n l) = true.
Proof.
  revert n; induction l as [|c l IH]; intros [|n]; simpl; try done.
  intros [_ Hl]%andb_true_iff. by apply IH.
Qed.

Lemma isdigit_slice (i j : nat) (s : bytes) :
  isdigit s = true -> (i < j)%nat -> (j <= length s)%nat -> isdigit (slice i j s) = true.
Proof.
  unfold isdigit, slice. intros [_ Hs]%andb_true_iff Hij Hj.
  apply andb_true_iff; split.
  - apply negb_true_iff, bool_decide_eq_false. intros E.
    apply (f_equal length) in E. rewrite length_take, length_drop in E. simpl in E. lia.
  - by apply forallb_take, forallb_drop.
Qed.

(** ** Dates (lib.py) *)

(** C6, as the claim states it, fails at the eight digits 00000000: they
    are all digits, yet no calendar date is returned. *)
Lemma C6_zero_date_is_an_error :
  isdigit (b "00000000") = true
  /\ length (b "00000000") = 8%nat
  /\ lib.dbf2date (Some (b "00000000")) = Raise (ValueError date_out_of_range).
Proof. repeat split. Qed.

(** C6 (amended): [dbf2date] returns [None] exactly when its argument is
    [None], is not all digits, or is not 8 bytes long.  On any other
    argument it reads the year from the first four digits, the month from
    the next two and the day from the last two; it returns that date when it
    is a date of the calendar (year 1 to 9999, month 1 to 12, a day of that
    month), and raises [ValueError] otherwise. *)
Theorem C6_dbf2date (dbf_str : option bytes) :
  (lib.dbf2date dbf_str = OK None
   <-> dbf_str = None
       \/ exists s, dbf_str = Some s /\ (isdigit s = false \/ length s <> 8%nat))
  /\ (forall s, dbf_str = Some s -> isdigit s = true -> length s = 8%nat ->
      let y := digits_value (slice 0 4 s) in
      let m := digits_value (slice 4 6 s) in
      let d := digits_value (slice 6 8 s) in
      lib.dbf2date dbf_str
      = if valid_ymd y m d then OK (Some (mkdate y m d))
        else Raise (ValueError date_out_of_range)).
Proof.
  assert (Hgood : forall s, isdigit s = true -> length s = 8%nat ->
      lib.dbf2date (Some s)
      = if valid_ymd (digits_value (slice 0 4 s)) (digits_value (slice 4 6 s))
             (digits_value (slice 6 8 s))
        then OK (Some (mkdate (digits_value (slice 0 4 s))
                   (digits_value (slice 4 6 s)) (digits_value (slice 6 8 s))))
        else Raise (ValueError date_out_of_range)).
  { intros s Hd Hl. unfold lib.dbf2date. rewrite Hd, (bool_decide_eq_true_2 _ Hl). simpl.
    rewrite !py_int_digits by (apply isdigit_slice; [done|lia|lia]). simpl.
    unfold datetime_date. by destruct (valid_ymd _ _ _). }
  split.
  - split.
    + destruct dbf_str as [s|]; [|by left]. intros Hr. right. exists s. split; [done|].
      destruct (isdigit s) eqn:Hd; [|by left]. right. intros Hl.
      rewrite (Hgood s Hd Hl) in Hr. by destruct (valid_ymd _ _ _).
    + intros [->|(s & -> & Hs)]; [done|]. unfold lib.dbf2date.
      destruct Hs as [->|Hl]; [done|].
      rewrite (bool_decide_eq_false_2 _ Hl). simpl. by rewrite orb_true_r.
  - intros s -> Hd Hl. simpl. by apply Hgood.
Qed.

Lemma C6_dbf2date_witness :
  lib.dbf2date (Some (b "20080714")) = OK (Some (mkdate 2008 7 14)).
Proof.
  exact (proj2 (C6_dbf2date (Some (b "20080714"))) (b "20080714")
           eq_refl eq_refl eq_refl).
Defined.

(** ** Reading the header (reader.py) *)

Lemma bind_OK {A B} (m : result A) (k : A -> result B) (y : B) :
  m ≫= k = OK y -> exists x, m = OK x /\ k x = OK y.
Proof. destruct m; simpl; [eauto|done]. Qed.

Lemma OK_inj {A} (x y : A) : OK x = OK y -> x = y.
Proof. congruence. Qed.

Lemma byte_at_take i n (l : bytes) : (i < n)%nat -> byte_at i (take n l) = byte_at i l.
Proof.
  intros Hi. unfold byte_at. f_equal.
  rewrite <- (take_drop n l) at 2.
  destruct (decide (i < length (take n l))%nat) as [Hlt|Hge].
  - by rewrite app_nth1.
  - rewrite nth_overflow by lia. rewrite length_take in Hge.
    rewrite nth_overflow; [done|]. rewrite length_app, length_take, length_drop. lia.
Qed.

Lemma slice_take i j n (l : bytes) :
  (i <= j <= n)%nat -> slice i j (take n l) = slice i j l.
Proof.
  intros Hj. unfold slice. rewrite !take_drop_commute, take_take.
  do 2 f_equal. lia.
Qed.

Lemma read_field_descriptions_handle n f acc flds f' :
  read_field_descriptions n f acc = OK (flds, f') ->
  fh_data f' = fh_data f /\ fh_name f' = fh_name f.
Proof.
  revert f acc. induction n as [|n IH]; intros f acc; simpl.
  - by intros [= _ ->].
  - intros ([[[name typ] size] deci] & _ & H)%bind_OK.
    apply bind_OK in H as (ts & _ & H). apply bind_OK in H as (ns & _ & H).
    destruct (negb _); [done|]. by apply IH in H.
Qed.

(** What a successful [_readHeader] has stored in the reader. *)
Lemma readHeader_inv self self' :
  _readHeader self = OK self' ->
  let data := fh_data (fh self) in
  let y := byte_at 1 data + 1900 in
  (32 <= length data)%nat
  /\ sig self' = byte_at 0 data
  /\ sig self' ∈ lib.SUPPORTED_SIGNATURES
  /\ dt self' = Some (mkdate (if y <? 1950 then y + 100 else y) (byte_at 2 data) (byte_at 3 data))
  /\ numrec self' = le (slice 4 8 data)
  /\ lenheader self' = le (slice 8 10 data)
  /\ raw_lang self' = byte_at 29 data
  /\ stop_at self' = numrec self'
  /\ explicit_encoding self' = explicit_encoding self
  /\ encoding self' = encoding self
  /\ converters self' = converters self
  /\ fh_data (fh self') = data
  /\ fh_name (fh self') = fh_name (fh self)
  /\ recfmt self' = map (fun fld : field => fld.1.2) (_fields self')
  /\ recsize self' = calcsize (recfmt self')
  /\ (fields self = [] -> _fields self' = deletion_flag_field :: fields self').
Proof.
  unfold _readHeader. cbn. rewrite drop_0.
  unfold unpack_HEADER_FORMAT.
  case_bool_decide as Hlen; cbn; [|done].
  intros (d & Hd & H)%bind_OK.
  unfold datetime_date in Hd. destruct (valid_ymd _ _ _) eqn:Hv; [|done].
  injection Hd as <-.
  case_bool_decide as Hsig; cbn in H; [|done].
  apply bind_OK in H as ([flds f1] & Hf & H).
  apply read_field_descriptions_handle in Hf as [Hfd Hfn]. simpl in Hfd, Hfn.
  destruct (negb _); [done|].
  rewrite length_take in Hlen.
  rewrite byte_at_take in Hsig by lia.
  destruct (fields self) eqn:Hfields; injection H as <-; simpl;
    rewrite ?byte_at_take, ?slice_take by lia; repeat split; try done; try lia.
Qed.

(** [_defineEncoding] and [_makeActions] touch nothing but their own
    attributes. *)
Lemma defineEncoding_inv s s' :
  _defineEncoding s = OK s' ->
  exists enc builtin,
    s' = mkYDbfReader (fh s) (explicit_encoding s) (_fields s) (fields s)
           (builtin_fields s) (builtin__fields s) (numrec s) (lenheader s)
           (numfields s) (field_names s) (start_from s) (stop_at s) (recfmt s)
           (recsize s) (dt s) (sig s) (raw_lang s) enc builtin (converters s).
Proof.
  unfold _defineEncoding. destruct (_ && _); [done|]. intros <-%OK_inj. eauto.
Qed.

Lemma makeActions_inv s s' :
  _makeActions s = OK s' ->
  exists convs,
    s' = mkYDbfReader (fh s) (explicit_encoding s) (_fields s) (fields s)
           (builtin_fields s) (builtin__fields s) (numrec s) (lenheader s)
           (numfields s) (field_names s) (start_from s) (stop_at s) (recfmt s)
           (recsize s) (dt s) (sig s) (raw_lang s) (encoding s)
           (builtin_encoding s) convs.
Proof.
  unfold _makeActions. intros (convs & _ & <-%OK_inj)%bind_OK. eauto.
Qed.

(** The stages of a successful [__init__]. *)
Lemma init_inv post fh0 fields0 use_unicode encoding0 r :
  __init__ post fh0 fields0 use_unicode encoding0 = OK r ->
  exists s1 s2 s3,
    _readHeader (init_attributes fh0 fields0 encoding0) = OK s1
    /\ (if use_unicode then _defineEncoding s1 else OK s1) = OK s2
    /\ _makeActions s2 = OK s3
    /\ post s3 = OK r.
Proof.
  unfold __init__.
  intros (s1 & H1 & H)%bind_OK.
  apply bind_OK in H as (s2 & H2 & H). apply bind_OK in H as (s3 & H3 & H).
  eauto 10.
Qed.

Lemma strict_postInit_inv os_stat_size s r :
  strict_postInit os_stat_size s = OK r -> r = s /\ checkConsistency os_stat_size s = OK tt.
Proof.
  unfold strict_postInit, postInit. simpl.
  intros ([] & Hc & [= <-])%bind_OK. done.
Qed.


(** The strict class builds the reader the plain class builds, or fails. *)
Lemma strict_is_plain os_stat_size fh0 fields0 use_unicode encoding0 r :
  new_YDbfStrictReader os_stat_size fh0 fields0 use_unicode encoding0 = OK r ->
  new_YDbfReader fh0 fields0 use_unicode encoding0 = OK r.
Proof.
  unfold new_YDbfStrictReader, new_YDbfReader.
  intros (s1 & s2 & s3 & H1 & H2 & H3 & [-> _]%strict_postInit_inv)%init_inv.
  unfold __init__. rewrite H1. simpl. rewrite H2. simpl. by rewrite H3.
Qed.

Lemma initialized_plain fh0 fields0 use_unicode encoding0 r :
  initialized fh0 fields0 use_unicode encoding0 r ->
  new_YDbfReader fh0 fields0 use_unicode encoding0 = OK r.
Proof. intros [H|[os H]]; [done|]. by apply strict_is_plain in H. Qed.

(** The attributes of a reader once [__init__] has returned. *)
Lemma plain_reader_facts fh0 fields0 use_unicode encoding0 r :
  new_YDbfReader fh0 fields0 use_unicode encoding0 = OK r ->
  let data := fh_data fh0 in
  let y := byte_at 1 data + 1900 in
  (32 <= length data)%nat
  /\ sig r = byte_at 0 data
  /\ sig r ∈ lib.SUPPORTED_SIGNATURES
  /\ dt r = Some (mkdate (if y <? 1950 then y + 100 else y) (byte_at 2 data) (byte_at 3 data))
  /\ numrec r = le (slice 4 8 data)
  /\ lenheader r = le (slice 8 10 data)
  /\ raw_lang r = byte_at 29 data
  /\ stop_at r = numrec r
  /\ explicit_encoding r = encoding0
  /\ fh_data (fh r) = data
  /\ fh_name (fh r) = fh_name fh0
  /\ recfmt r = map (fun fld : field => fld.1.2) (_fields r)
  /\ recsize r = calcsize (recfmt r)
  /\ _fields r = deletion_flag_field :: fields r.
Proof.
  intros (s1 & s2 & s3 & H1 & H2 & H3 & [= <-])%init_inv.
  apply readHeader_inv in H1. simpl in H1.
  destruct H1 as (?&?&?&?&?&?&?&?&?&?&?&?&?&?&?&Hf). specialize (Hf eq_refl).
  apply makeActions_inv in H3 as [convs ->]. simpl.
  destruct use_unicode.
  - apply defineEncoding_inv in H2 as (e & bi & ->). simpl. repeat split; done.
  - injection H2 as <-. repeat split; done.
Qed.

(** ** The creation date *)

(** C5: the creation year of a reader is the raw year byte (the second
    byte of the file) plus 1900, plus 100 more when that sum is below 1950;
    a raw year byte 8 gives 2008 and a raw year byte 96 gives 1996. *)
Theorem C5_creation_year fh0 fields0 use_unicode encoding0 r :
  initialized fh0 fields0 use_unicode encoding0 r ->
  let raw := byte_at 1 (fh_data fh0) in
  exists d,
    dt r = Some d
    /\ year d = (if raw + 1900 <? 1950 then raw + 1900 + 100 else raw + 1900)
    /\ (raw = 8 -> year d = 2008)
    /\ (raw = 96 -> year d = 1996).
Proof.
  intros Hr%initialized_plain%plain_reader_facts. simpl in Hr.
  destruct Hr as (_ & _ & _ & Hdt & _). simpl.
  eexists; split; [exact Hdt|]. simpl.
  split; [done|]. split; intros ->; done.
Qed.

Lemma C5_creation_year_witness :
  exists d,
    dt (sample.opened (sample.handle (sample.table 0 x2a) None) true None) = Some d
    /\ year d = 2008
    /\ (8 = 8 -> year d = 2008)
    /\ (8 = 96 -> year d = 1996).
Proof.
  apply (C5_creation_year (sample.handle (sample.table 0 x2a) None) None true None).
  left. vm_compute. reflexivity.
Defined.

(** ** Unsupported signatures *)

(** C2: when the first byte of a 32-byte header is none of 0x03, 0x04,
    0x05, the constructor of either reader class raises [ValueError] and
    returns no reader, whatever its other arguments.  The error is the one
    that names the unsupported version, unless the date bytes of the header
    are not a calendar date, which [datetime.date] reports first, also with
    a [ValueError]. *)
Theorem C2_unsupported_signature post fh0 fields0 use_unicode encoding0 :
  (32 <= length (fh_data fh0))%nat ->
  byte_at 0 (fh_data fh0) ∉ lib.SUPPORTED_SIGNATURES ->
  let sig0 := byte_at 0 (fh_data fh0) in
  exists why,
    __init__ post fh0 fields0 use_unicode encoding0 = Raise (ValueError why)
    /\ (why = version_not_supported (default "UNKNOWN" (lib.SIGNATURES !! sig0)) sig0
        \/ why = date_out_of_range).
Proof.
  intros Hlen Hsig. unfold __init__, _readHeader. cbn. rewrite drop_0.
  unfold unpack_HEADER_FORMAT.
  rewrite bool_decide_eq_true_2 by (rewrite length_take; lia). cbn.
  unfold datetime_date. destruct (valid_ymd _ _ _); cbn.
  - rewrite byte_at_take by lia.
    rewrite (bool_decide_eq_false_2 _ Hsig). cbn. eauto.
  - eauto.
Qed.

Lemma C2_unsupported_signature_witness :
  exists why,
    new_YDbfReader (sample.handle sample.foxpro_table None) None true None
    = Raise (ValueError why)
    /\ (why = version_not_supported "Visual FoxPro" 0x30 \/ why = date_out_of_range).
Proof.
  apply (C2_unsupported_signature postInit (sample.handle sample.foxpro_table None) None true None).
  - vm_compute. lia.
  - vm_compute. intros H. repeat (apply elem_of_cons in H as [H|H]; [discriminate H|]).
    by apply elem_of_nil in H.
Defined.

(** ** The encoding of character fields *)

(** C1, as the claim states it, fails at the empty string: given as the
    override for a file whose language code 0x00 is in the catalog, it does
    not win, the catalog entry does; and given for a file whose language
    code 0x05 is not in the catalog, no encoding is resolved and no error is
    raised. *)
Lemma C1_empty_override_does_not_win :
  (exists r,
     new_YDbfReader (sample.handle (sample.table 0x00 x2a) None) None true (Some "") = OK r
     /\ explicit_encoding r = Some "" /\ encoding r = Some "ascii")
  /\ (exists r,
        new_YDbfReader (sample.handle (sample.table 0x05 x2a) None) None true (Some "") = OK r
        /\ lib.ENCODINGS !! raw_lang r = None /\ encoding r = None).
Proof.
  split.
  - exists (sample.opened (sample.handle (sample.table 0x00 x2a) None) true (Some "")).
    repeat split; vm_compute; reflexivity.
  - exists (sample.opened (sample.handle (sample.table 0x05 x2a) None) true (Some "")).
    repeat split; vm_compute; reflexivity.
Qed.

Lemma defineEncoding_catalog s value :
  explicit_encoding s = None -> lib.ENCODINGS !! raw_lang s = Some value ->
  exists s', _defineEncoding s = OK s' /\ encoding s' = Some value.1.
Proof.
  intros He Hl. unfold _defineEncoding. rewrite He, Hl. cbn. eauto.
Qed.

Lemma defineEncoding_override s e :
  explicit_encoding s = Some e -> e <> "" ->
  exists s', _defineEncoding s = OK s' /\ encoding s' = Some e.
Proof.
  intros He Hne. unfold _defineEncoding. rewrite He.
  rewrite (bool_decide_eq_false_2 (Some e = None)) by done.
  rewrite andb_false_r. cbn. rewrite (bool_decide_eq_false_2 _ Hne). cbn. eauto.
Qed.

Lemma defineEncoding_unresolved s :
  explicit_encoding s = None -> lib.ENCODINGS !! raw_lang s = None ->
  _defineEncoding s = Raise (ValueError (cannot_resolve_lang (raw_lang s))).
Proof.
  intros He Hl. unfold _defineEncoding. rewrite He, Hl. done.
Qed.

(** The encoding of a reader built in text mode is the one
    [_defineEncoding] chose after the header was read. *)
Lemma initialized_encoding fh0 fields0 encoding0 s s' r :
  _readHeader (init_attributes fh0 fields0 encoding0) = OK s ->
  _defineEncoding s = OK s' ->
  initialized fh0 fields0 true encoding0 r ->
  encoding r = encoding s'.
Proof.
  intros Hs Hs' (s1 & s2 & s3 & H1 & H2 & H3 & H4)%initialized_plain%init_inv.
  rewrite Hs in H1. apply OK_inj in H1 as <-.
  rewrite Hs' in H2. apply OK_inj in H2 as <-.
  apply OK_inj in H4 as <-.
  by apply makeActions_inv in H3 as [convs ->].
Qed.

(** C1 (amended): let the header of a file be read, in text mode.  With no
    override ([None]) and a language code in the catalog, the resolved
    encoding is the catalog entry.  With an override that is a non-empty
    string, the resolved encoding is the override, whether or not the
    catalog has an entry.  With no override and a language code that is not
    in the catalog, the constructor of either class raises the [ValueError]
    that reports the unresolved language code. *)
Theorem C1_encoding_resolution fh0 fields0 encoding0 s :
  _readHeader (init_attributes fh0 fields0 encoding0) = OK s ->
  raw_lang s = byte_at 29 (fh_data fh0)
  /\ (forall value,
        encoding0 = None -> lib.ENCODINGS !! raw_lang s = Some value ->
        exists s', _defineEncoding s = OK s' /\ encoding s' = Some value.1
          /\ forall r, initialized fh0 fields0 true encoding0 r -> encoding r = Some value.1)
  /\ (forall e,
        encoding0 = Some e -> e <> "" ->
        exists s', _defineEncoding s = OK s' /\ encoding s' = Some e
          /\ forall r, initialized fh0 fields0 true encoding0 r -> encoding r = Some e)
  /\ (encoding0 = None -> lib.ENCODINGS !! raw_lang s = None ->
      forall post,
        __init__ post fh0 fields0 true encoding0
        = Raise (ValueError (cannot_resolve_lang (raw_lang s)))).
Proof.
  intros Hs. pose proof (readHeader_inv _ _ Hs) as Hinv. cbn in Hinv.
  destruct Hinv as (_&_&_&_&_&_&Hlang&_&Hexp&_).
  split; [done|]. split; [|split].
  - intros value -> Hl.
    destruct (defineEncoding_catalog s value Hexp Hl) as (s' & Hs' & He).
    exists s'. repeat split; [done..|]. intros r Hr.
    by rewrite (initialized_encoding _ _ _ _ _ _ Hs Hs' Hr).
  - intros e -> Hne.
    destruct (defineEncoding_override s e Hexp Hne) as (s' & Hs' & He).
    exists s'. repeat split; [done..|]. intros r Hr.
    by rewrite (initialized_encoding _ _ _ _ _ _ Hs Hs' Hr).
  - intros -> Hl post. unfold __init__. rewrite Hs. cbn.
    by rewrite (defineEncoding_unresolved s Hexp Hl).
Qed.

Lemma C1_encoding_resolution_witness :
  let fh0 := sample.handle (sample.table 0x65 x2a) None in
  let s := match _readHeader (init_attributes fh0 None None) with
           | OK s => s
           | Raise _ => init_attributes fh0 None None
           end in
  raw_lang s = 0x65
  /\ (forall value,
        @None string = None -> lib.ENCODINGS !! raw_lang s = Some value ->
        exists s', _defineEncoding s = OK s' /\ encoding s' = Some value.1
          /\ forall r, initialized fh0 None true None r -> encoding r = Some value.1)
  /\ (forall e,
        None = Some e -> e <> "" ->
        exists s', _defineEncoding s = OK s' /\ encoding s' = Some e
          /\ forall r, initialized fh0 None true None r -> encoding r = Some e)
  /\ (@None string = None -> lib.ENCODINGS !! raw_lang s = None ->
      forall post,
        __init__ post fh0 None true None
        = Raise (ValueError (cannot_resolve_lang (raw_lang s)))).
Proof.
  intros fh0 s.
  apply (C1_encoding_resolution fh0 None None s).
  vm_compute. reflexivity.
Defined.

(** ** The length of a reader *)



(** ** The strict reader *)


Lemma asserts_assert c msg : asserts (assert c msg).
Proof. destruct c; simpl; eauto. Qed.

Lemma asserts_bind {A B} (m : result A) (k : A -> result B) :
  asserts m -> (forall a, m = OK a -> asserts (k a)) -> asserts (m ≫= k).
Proof. destruct m; simpl; eauto. Qed.

Lemma asserts_check_fields flds : asserts (check_fields flds).
Proof.
  induction flds as [|[[[n t] sz] d] flds IH]; simpl; [done|].
  repeat (apply asserts_bind; [case_bool_decide; simpl; auto using asserts_assert|intros _ _]).
  done.
Qed.

Section strict_facts.
Variable os_stat_size : string -> option Z.

Lemma asserts_checkConsistency self : asserts (checkConsistency os_stat_size self).
Proof.
  unfold checkConsistency.
  repeat (apply asserts_bind;
          [ first [ apply asserts_assert | apply asserts_check_fields
                  | destruct (bool_decide _); simpl; auto using asserts_assert
                  | destruct (_ =? _); simpl; auto using asserts_assert ]
          | intros _ _ ]).
  destruct (fh_name _); [|done]. destruct (os_stat_size _); [|done].
  apply asserts_assert.
Qed.

(** When [checkConsistency] passes on a named file whose size the system
    reports, that size is the one computed from the header. *)
Lemma checkConsistency_size self file_name os_size :
  checkConsistency os_stat_size self = OK tt ->
  fh_name (fh self) = Some file_name ->
  os_stat_size file_name = Some os_size ->
  os_size = lenheader self + 1 + numrec self * recsize self.
Proof.
  unfold checkConsistency. intros H Hn Hs.
  repeat (apply bind_OK in H as ([] & _ & H)).
  rewrite Hn, Hs in H. unfold assert in H.
  destruct (_ =? _) eqn:E; [|done]. by apply Z.eqb_eq in E.
Qed.

End strict_facts.

(** The plain reader runs no assertion. *)

Lemma no_assert_OK {A} (a : A) : no_assert (OK a).
Proof. by intros msg. Qed.

Lemma no_assert_bind {A B} (m : result A) (k : A -> result B) :
  no_assert m -> (forall a, no_assert (k a)) -> no_assert (m ≫= k).
Proof.
  intros Hm Hk msg. destruct m as [a|e]; cbn; [apply Hk|].
  intros [= ->]. by apply (Hm msg).
Qed.

Lemma no_assert_ascii_decode val : no_assert (ascii_decode val).
Proof. intros msg. unfold ascii_decode. by destruct (forallb _ _). Qed.

Lemma no_assert_make_converters enc flds convs :
  no_assert (make_converters enc flds convs).
Proof.
  revert convs. induction flds as [|[[[n t] sz] d] l IH]; intros convs; [by intros msg|].
  cbn [make_converters]. destruct (resolve _ t sz d); [apply IH|by intros msg].
Qed.

Lemma no_assert_read_field_descriptions n f acc :
  no_assert (read_field_descriptions n f acc).
Proof.
  revert f acc. induction n as [|n IH]; intros f acc; [by intros msg|].
  cbn [read_field_descriptions]. destruct (fh_read 32 f) as [buf f1].
  apply no_assert_bind.
  { unfold unpack_FIELD_DESCRIPTION_FORMAT. intros msg. by case_bool_decide. }
  intros [[[name typ] size] deci].
  apply no_assert_bind; [apply no_assert_ascii_decode|intros ts].
  apply no_assert_bind; [apply no_assert_ascii_decode|intros ns].
  destruct (negb _); [by intros msg|apply IH].
Qed.

Lemma no_assert_readHeader self : no_assert (_readHeader self).
Proof.
  unfold _readHeader.
  apply no_assert_bind; [by intros msg|intros f].
  destruct (fh_read 32 f) as [buf f1].
  apply no_assert_bind.
  { unfold unpack_HEADER_FORMAT. intros msg. by case_bool_decide. }
  intros [[[[[[[sg yy] mm] dd] nr] lh] rs] lang].
  apply no_assert_bind.
  { unfold datetime_date. intros msg. by destruct (valid_ymd _ _ _). }
  intros d. destruct (negb _); [by intros msg|].
  apply no_assert_bind; [apply no_assert_read_field_descriptions|].
  intros [flds f2]. destruct (fh_read 1 f2) as [terminator f3].
  destruct (negb _); [by intros msg|].
  destruct (fields self); apply no_assert_OK.
Qed.

Lemma no_assert_plain fh0 fields0 use_unicode encoding0 :
  no_assert (new_YDbfReader fh0 fields0 use_unicode encoding0).
Proof.
  unfold new_YDbfReader, __init__.
  apply no_assert_bind; [apply no_assert_readHeader|intros s1].
  apply no_assert_bind.
  { destruct use_unicode; [|apply no_assert_OK].
    unfold _defineEncoding. intros msg. by destruct (_ && _). }
  intros s2. apply no_assert_bind; [|intros s3; apply no_assert_OK].
  unfold _makeActions.
  apply no_assert_bind; [apply no_assert_make_converters|intros c; apply no_assert_OK].
Qed.

(** C7: let the plain reader open a file, and let the handle have a name
    whose size the operating system reports.  If that size differs from
    [lenheader + 1 + numrec * recsize], the strict reader raises
    [AssertionError] on the same arguments, while the plain reader, which
    has returned the reader [r], raises [AssertionError] on no arguments at
    all. *)
Theorem C7_strict_file_size os_stat_size fh0 fields0 use_unicode encoding0 r
    file_name os_size :
  new_YDbfReader fh0 fields0 use_unicode encoding0 = OK r ->
  fh_name fh0 = Some file_name ->
  os_stat_size file_name = Some os_size ->
  os_size <> lenheader r + 1 + numrec r * recsize r ->
  (exists msg,
     new_YDbfStrictReader os_stat_size fh0 fields0 use_unicode encoding0
     = Raise (AssertionError msg))
  /\ (forall msg,
        new_YDbfReader fh0 fields0 use_unicode encoding0 <> Raise (AssertionError msg)).
Proof.
  intros Hr Hn Hs Hne. split; [|apply no_assert_plain].
  pose proof (plain_reader_facts _ _ _ _ _ Hr) as Hf. cbn in Hf.
  destruct Hf as (_&_&_&_&_&_&_&_&_&_&Hname&_).
  apply init_inv in Hr as (s1 & s2 & s3 & H1 & H2 & H3 & <-%OK_inj).
  unfold new_YDbfStrictReader, __init__. rewrite H1. cbn. rewrite H2. cbn.
  rewrite H3. cbn.
  pose proof (asserts_checkConsistency os_stat_size s3) as Ha.
  destruct (checkConsistency os_stat_size s3) as [[]|e] eqn:Hc; cbn.
  - exfalso. apply Hne.
    apply (checkConsistency_size os_stat_size s3 file_name os_size Hc); [|done].
    by rewrite Hname.
  - destruct Ha as [msg ->]. eauto.
Qed.

Lemma C7_strict_file_size_witness :
  let fh0 := sample.handle (sample.table 0 x2a) (Some "t.dbf") in
  let r := sample.opened fh0 true None in
  (exists msg,
     new_YDbfStrictReader (sample.os_stat_size 117) fh0 None true None
     = Raise (AssertionError msg))
  /\ (forall msg, new_YDbfReader fh0 None true None <> Raise (AssertionError msg)).
Proof.
  intros fh0 r.
  apply (C7_strict_file_size (sample.os_stat_size 117) fh0 None true None r "t.dbf" 117).
  - vm_compute. reflexivity.
  - reflexivity.
  - reflexivity.
  - vm_compute. discriminate.
Defined.

Example strict_accepts_exact_size :
  let fh0 := sample.handle (sample.table 0 x2a) (Some "t.dbf") in
  new_YDbfStrictReader (sample.os_stat_size 116) fh0 None true None
  = OK (sample.opened fh0 true None).
Proof. vm_compute. reflexivity. Qed.

(** ** Stripping *)

Lemma rstrip_by_replicate {A} (p : A -> bool) n c :
  p c = true -> rstrip_by p (replicate n c) = [].
Proof. intros Hc. induction n as [|n IH]; simpl; [done|]. by rewrite IH, Hc. Qed.

Lemma rstrip_by_app_replicate {A} (p : A -> bool) l n c :
  p c = true -> rstrip_by p (l ++ replicate n c) = rstrip_by p l.
Proof.
  intros Hc. induction l as [|a l IH]; simpl.
  - by apply rstrip_by_replicate.
  - by rewrite IH.
Qed.

(** What [rstrip_by p] returns does not end with a [p]. *)
Lemma rstrip_by_last {A} (p : A -> bool) l c :
  last (rstrip_by p l) = Some c -> p c = false.
Proof.
  revert c. induction l as [|a l IH]; intros c; simpl; [done|].
  destruct (rstrip_by p l) as [|a' l'] eqn:E.
  - destruct (p a) eqn:Ha; simpl; [done|]. by intros [= <-].
  - intros Hl. apply IH. by rewrite <- Hl.
Qed.

Lemma lstrip_by_replicate_app {A} (p : A -> bool) n c l :
  p c = true -> lstrip_by p (replicate n c ++ l)%list = lstrip_by p l.
Proof. intros Hc. induction n as [|n IH]; simpl; [done|]. by rewrite Hc. Qed.

(** [rstrip_by p] removes a suffix of elements that satisfy [p]. *)
Lemma rstrip_by_suffix {A} (p : A -> bool) (l : list A) :
  exists s, l = (rstrip_by p l ++ s)%list /\ forallb p s = true.
Proof.
  induction l as [|a l (s & Hl & Hs)]; simpl; [by exists []|].
  destruct (rstrip_by p l) as [|a' l'] eqn:E.
  - destruct (p a) eqn:Ha.
    + exists (a :: s). simpl in Hl. subst l. simpl. by rewrite Ha, Hs.
    + exists s. simpl in *. by subst l.
  - exists s. split; [|done]. simpl in *. by f_equal.
Qed.

(** [rstrip_by p] keeps a list whose last element does not satisfy [p]. *)
Lemma rstrip_by_keeps {A} (p : A -> bool) (l : list A) :
  (forall c, last l = Some c -> p c = false) -> rstrip_by p l = l.
Proof.
  induction l as [|a l IH]; simpl; [done|]. intros Hlast.
  destruct l as [|a' l'].
  - simpl. by rewrite (Hlast a eq_refl).
  - rewrite IH by (intros c Hc; by apply Hlast). done.
Qed.

Lemma all_nul (s : bytes) : forallb is_nul s = true -> s = replicate (length s) x00.
Proof.
  induction s as [|c s IH]; simpl; [done|].
  intros [Hc Hs]%andb_true_iff. apply bool_decide_eq_true in Hc as ->. by rewrite <- IH.
Qed.

Lemma rstrip_nul_spec (val : bytes) :
  exists n, val = (rstrip_nul val ++ replicate n x00)%list
            /\ last (rstrip_nul val) <> Some x00.
Proof.
  destruct (rstrip_by_suffix is_nul val) as (s & Hl & Hs).
  exists (length s). split.
  - by rewrite <- (all_nul s Hs).
  - intros Hlast. by apply rstrip_by_last in Hlast.
Qed.

Lemma rstrip_nul_keeps (v : bytes) n :
  last v <> Some x00 -> rstrip_nul (v ++ replicate n x00) = v.
Proof.
  intros Hlast. unfold rstrip_nul. rewrite rstrip_by_app_replicate by done.
  apply rstrip_by_keeps. intros c Hc. unfold is_nul.
  apply bool_decide_eq_false. intros ->. by apply Hlast.
Qed.

(** ** One record *)

Section record_facts.
Variable codecs : string -> option (bytes -> option text).

(** C10: the yield expression hands every converter its field with the
    trailing NUL bytes removed, and nothing else: a field is what is handed
    over followed by NUL bytes only, and what is handed over does not end
    with a NUL, so a field that does not end with a NUL, whatever NUL bytes
    it holds inside, is handed over as it is.  The converter of a field
    that is [v] followed by NUL bytes is called on [v].  Hence fields that
    differ only by NUL bytes appended to them give the same items, the same
    record or the same exception, whatever the converters are. *)
Theorem C10_trailing_nul_stripped (self_encoding : option string) (show_deleted : bool)
    (convs : list (action * string * Z * Z)) (padded : list (bytes * nat)) :
  let plain := map fst padded in
  let with_nul := map (fun vn : bytes * nat => (vn.1 ++ replicate vn.2 x00)%list) padded in
  (forall val : bytes,
     exists n, val = (rstrip_nul val ++ replicate n x00)%list
               /\ last (rstrip_nul val) <> Some x00)
  /\ (forall (v : bytes) n,
        rstrip_nul (v ++ replicate n x00) = rstrip_nul v
        /\ (last v <> Some x00 -> rstrip_nul (v ++ replicate n x00) = v))
  /\ (forall conv name size dec (v : bytes) n rest,
        last v <> Some x00 ->
        record_items codecs self_encoding show_deleted
          (((conv, name, size, dec), (v ++ replicate n x00)%list) :: rest)
        = if negb (bool_decide (name = "_deletion_flag")) || show_deleted then
            x ← call codecs self_encoding conv v size dec;
            l ← record_items codecs self_encoding show_deleted rest;
            OK ((name, x) :: l)
          else record_items codecs self_encoding show_deleted rest)
  /\ record_items codecs self_encoding show_deleted (zip convs with_nul)
     = record_items codecs self_encoding show_deleted (zip convs plain)
  /\ (forall i, loop_body codecs self_encoding true convs i with_nul
                = loop_body codecs self_encoding true convs i plain).
Proof.
  intros plain with_nul.
  assert (Hitems : forall sd,
    record_items codecs self_encoding sd (zip convs with_nul)
    = record_items codecs self_encoding sd (zip convs plain)).
  { intros sd. subst plain with_nul. revert convs.
    induction padded as [|[v n] l IH]; intros [|[[[conv name] size] dec] convs];
      try reflexivity.
    cbn [map zip zip_with record_items fst snd].
    unfold rstrip_nul at 1. rewrite rstrip_by_app_replicate by done.
    fold (rstrip_nul v). by rewrite IH. }
  split; [|split; [|split; [|split]]].
  - apply rstrip_nul_spec.
  - intros v n. split; [by apply rstrip_by_app_replicate|apply rstrip_nul_keeps].
  - intros conv name size dec v n rest Hlast. cbn [record_items].
    by rewrite (rstrip_nul_keeps v n Hlast).
  - apply Hitems.
  - intros i. unfold loop_body. cbn [negb andb]. by rewrite Hitems.
Qed.

End record_facts.

Lemma C10_trailing_nul_stripped_witness :
  record_items sample.codecs None true
    (zip [(dbf2py_integer, "QTY", 5, 0)] [(b " 12" ++ replicate 2 x00)%list])
  = record_items sample.codecs None true
      (zip [(dbf2py_integer, "QTY", 5, 0)] [b " 12"])
  /\ record_items sample.codecs None true
       [((dbf2py_string, "NAME", 5, 0), ([x41; x00; x42] ++ replicate 2 x00)%list)]
     = OK [("NAME", VBytes [x41; x00; x42])].
Proof.
  pose proof (C10_trailing_nul_stripped sample.codecs None true
                [(dbf2py_integer, "QTY", 5, 0)] [(b " 12", 2%nat)])
    as (_ & _ & Hstep & Hitems & _).
  split; [exact Hitems|].
  rewrite (Hstep dbf2py_string "NAME" 5 0 [x41; x00; x42] 2%nat []); [|discriminate].
  vm_compute. reflexivity.
Defined.

(** ** Deleted records *)


Lemma make_converters_keys enc flds c0 c :
  make_converters enc flds c0 = OK c ->
  (forall k, is_Some (c0 !! k) -> is_Some (c !! k))
  /\ (forall f : field, f ∈ flds -> is_Some (c !! f.1.1.1)).
Proof.
  revert c0. induction flds as [|[[[n t] sz] d] l IH]; intros c0.
  - intros <-%OK_inj. split; [done|]. by intros f ?%elem_of_nil.
  - cbn [make_converters]. destruct (resolve _ t sz d) as [a|]; [|done].
    intros [Hmono Hin]%IH. split.
    + intros k Hk. apply Hmono. destruct (decide (n = k)) as [->|Hne].
      * rewrite lookup_insert_eq. eauto.
      * by rewrite lookup_insert_ne.
    + intros f [->|Hf]%elem_of_cons; [|by apply Hin].
      apply Hmono. cbn. rewrite lookup_insert_eq. eauto.
Qed.

Lemma converters_tuple_total (convs : gmap string action) flds :
  (forall f : field, f ∈ flds -> is_Some (convs !! f.1.1.1)) ->
  exists cs, converters_tuple convs flds = OK cs.
Proof.
  induction flds as [|[[[n t] sz] d] l IH]; intros Hk; [by eexists|].
  cbn [converters_tuple].
  destruct (Hk (n, t, sz, d)) as [a Ha]; [by left|]. cbn in Ha. rewrite Ha.
  destruct IH as [cs ->]; [intros f Hf; apply Hk; by right|].
  by eexists.
Qed.

(** The table of converters of a reader has an entry for each of its fields. *)
Lemma plain_reader_converters fh0 fields0 use_unicode encoding0 r :
  new_YDbfReader fh0 fields0 use_unicode encoding0 = OK r ->
  exists cs, converters_tuple (converters r) (_fields r) = OK cs.
Proof.
  intros (s1 & s2 & s3 & H1 & H2 & H3 & <-%OK_inj)%init_inv.
  unfold _makeActions in H3. apply bind_OK in H3 as (c & Hc & <-%OK_inj). cbn.
  apply converters_tuple_total. by apply make_converters_keys in Hc as [_ Hc].
Qed.



Lemma reraise_OK {A} i (m : result A) (a : A) : reraise i m = OK a -> m = OK a.
Proof. destruct m as [|[]]; cbn; congruence. Qed.


Section deleted_records.
Variable codecs : string -> option (bytes -> option text).






End deleted_records.


(** ** Decimal digits *)

Lemma digit_byte_spec d :
  is_digit (digit_byte d) = true /\ digit_val (digit_byte d) = d mod 10.
Proof.
  unfold digit_byte. pose proof (Z.mod_pos_bound d 10 eq_refl) as Hr.
  assert (Hc : d mod 10 = 0 \/ d mod 10 = 1 \/ d mod 10 = 2 \/ d mod 10 = 3
               \/ d mod 10 = 4 \/ d mod 10 = 5 \/ d mod 10 = 6 \/ d mod 10 = 7
               \/ d mod 10 = 8 \/ d mod 10 = 9) by lia.
  destruct Hc as [-> | [-> | [-> | [-> | [-> | [-> | [-> | [-> | [-> | ->]]]]]]]]];
    split; reflexivity.
Qed.

Lemma digits_value_from_app acc l1 l2 :
  digits_value_from acc (l1 ++ l2) = digits_value_from (digits_value_from acc l1) l2.
Proof. revert acc. induction l1 as [|c l1 IH]; intros acc; simpl; [done|apply IH]. Qed.

(** The value of a digit string is linear in the accumulator. *)
Lemma digits_value_from_acc acc l :
  digits_value_from acc l = acc * 10 ^ Z.of_nat (length l) + digits_value_from 0 l.
Proof.
  revert acc. induction l as [|c l IH]; intros acc.
  - simpl. lia.
  - cbn [digits_value_from length]. rewrite (IH (10 * acc + digit_val c)), (IH (10 * 0 + digit_val c)).
    rewrite Nat2Z.inj_succ, Z.pow_succ_r by lia. ring.
Qed.


Lemma pad_digits_digits k n : forallb is_digit (pad_digits k n) = true.
Proof.
  revert n. induction k as [|k IH]; intros n; simpl; [done|].
  rewrite forallb_app, IH. simpl. by rewrite (proj1 (digit_byte_spec n)).
Qed.

Lemma pad_digits_value k n : 0 <= n -> digits_value (pad_digits k n) = n mod 10 ^ Z.of_nat k.
Proof.
  unfold digits_value. revert n. induction k as [|k IH]; intros n Hn.
  - simpl. by rewrite Z.mod_1_r.
  - cbn [pad_digits]. rewrite digits_value_from_app, IH by (apply Z.div_pos; lia).
    cbn [digits_value_from]. rewrite (proj2 (digit_byte_spec n)).
    rewrite Nat2Z.inj_succ, Z.pow_succ_r by lia.
    rewrite (Z.rem_mul_r n 10 (10 ^ Z.of_nat k)) by lia. lia.
Qed.

Lemma lstrip_zero_value l :
  digits_value (lstrip_by is_zero_digit l) = digits_value l.
Proof.
  unfold digits_value. induction l as [|c l IH]; simpl; [done|].
  unfold is_zero_digit at 1. case_bool_decide as Hc; [|done].
  subst c. rewrite IH. reflexivity.
Qed.

Lemma lstrip_digits (p : byte -> bool) l :
  forallb is_digit l = true -> forallb is_digit (lstrip_by p l) = true.
Proof.
  induction l as [|c l IH]; simpl; [done|].
  intros [Hc Hl]%andb_true_iff. destruct (p c); [by apply IH|].
  simpl. by rewrite Hc, Hl.
Qed.

Lemma pow2_le_pow10 k : 0 <= k -> 2 ^ k <= 10 ^ k.
Proof. intros Hk. apply Z.pow_le_mono_l. lia. Qed.

(** [digits_of n] is a non-empty string of digits whose value is [n]. *)
Lemma digits_of_spec n :
  0 <= n ->
  digits_of n <> [] /\ forallb is_digit (digits_of n) = true
  /\ digits_value (digits_of n) = n.
Proof.
  intros Hn. unfold digits_of.
  set (k := S (Z.to_nat (Z.log2 n))).
  pose proof (lstrip_zero_value (pad_digits k n)) as Hv.
  pose proof (lstrip_digits is_zero_digit _ (pad_digits_digits k n)) as Hd.
  assert (Hk : n < 10 ^ Z.of_nat k).
  { subst k. rewrite Nat2Z.inj_succ, Z2Nat.id by apply Z.log2_nonneg.
    destruct (decide (n = 0)) as [->|Hn0]; [done|].
    pose proof (Z.log2_spec n ltac:(lia)) as [_ Hlt].
    pose proof (pow2_le_pow10 (Z.succ (Z.log2 n)) ltac:(pose proof (Z.log2_nonneg n); lia)).
    lia. }
  rewrite pad_digits_value, Z.mod_small in Hv by lia.
  destruct (lstrip_by is_zero_digit (pad_digits k n)) as [|c l].
  - cbv in Hv. subst n. repeat split; done.
  - done.
Qed.

(** ** Literals made of a sign, digits, a point and digits *)












(** ** Floats and their fixed-point print *)




Lemma digits_value_from_nonneg acc ds :
  0 <= acc -> forallb is_digit ds = true -> 0 <= digits_value_from acc ds.
Proof.
  revert acc. induction ds as [|c ds IH]; intros acc Hacc; simpl; [done|].
  intros [Hc Hds]%andb_true_iff. apply IH; [|done].
  unfold is_digit in Hc. unfold digit_val. lia.
Qed.





(** ** Rounding to the nearest integer *)



(** ** Decimal numbers that binary64 carries exactly *)



(** ** Numbers written with a point *)







(** ** Numeral fields *)


Section numeral_fields.
Variable codecs : string -> option (bytes -> option text).



End numeral_fields.


(* ===================================================================== *)
(** * Further properties *)
(* ===================================================================== *)

Local Open Scope list_scope.

(** ** Zero-padded numbers *)

Lemma lstrip_by_head {A} (p : A -> bool) l c r : lstrip_by p l = c :: r -> p c = false.
Proof.
  induction l as [|a l IH]; simpl; [done|].
  destruct (p a) eqn:Ha; [done|]. by intros [= <- _].
Qed.

Lemma digits_value_zeros k : digits_value (replicate k x30) = 0.
Proof. unfold digits_value. induction k as [|k IH]; simpl; [done|exact IH]. Qed.

Lemma digits_value_app l1 l2 :
  digits_value (l1 ++ l2) = digits_value l1 * 10 ^ Z.of_nat (length l2) + digits_value l2.
Proof.
  unfold digits_value. by rewrite digits_value_from_app, digits_value_from_acc.
Qed.

(** A digit string that does not begin with a zero is at least a power of
    ten. *)
Lemma digits_value_lower c l :
  is_digit c = true -> c <> x30 -> forallb is_digit l = true ->
  10 ^ Z.of_nat (length l) <= digits_value (c :: l).
Proof.
  intros Hc Hc0 Hl. change (c :: l) with ([c] ++ l). rewrite digits_value_app.
  pose proof (digits_value_from_nonneg 0 l (Z.le_refl 0) Hl) as Hv.
  fold (digits_value l) in Hv.
  assert (1 <= digits_value [c]).
  { revert Hc Hc0. destruct c; vm_compute; congruence. }
  pose proof (Z.pow_pos_nonneg 10 (Z.of_nat (length l))). nia.
Qed.

Lemma digits_of_length n w :
  0 <= n < 10 ^ Z.of_nat w -> (1 <= w)%nat -> (length (digits_of n) <= w)%nat.
Proof.
  intros [Hn Hw] Hw1.
  destruct (digits_of_spec n Hn) as (_ & Hd & Hv).
  unfold digits_of in *.
  destruct (lstrip_by is_zero_digit _) as [|c l] eqn:E; [simpl; lia|].
  apply lstrip_by_head in E. unfold is_zero_digit in E.
  apply bool_decide_eq_false in E.
  simpl in Hd. apply andb_true_iff in Hd as [Hc Hl].
  pose proof (digits_value_lower c l Hc E Hl) as Hlow.
  assert (Z.of_nat (length l) < Z.of_nat w).
  { apply (Z.pow_lt_mono_r_iff 10); lia. }
  simpl. lia.
Qed.

(** Within its width, ["%0<w>d"] prints exactly [w] digits. *)
Lemma format_0d_spec w n :
  0 <= n < 10 ^ Z.of_nat w -> (1 <= w)%nat ->
  forallb is_digit (format_0d w n) = true
  /\ length (format_0d w n) = w
  /\ digits_value (format_0d w n) = n.
Proof.
  intros Hn Hw. unfold format_0d.
  rewrite (proj2 (Z.ltb_ge n 0)) by lia.
  destruct (digits_of_spec n (proj1 Hn)) as (_ & Hd & Hv).
  pose proof (digits_of_length n w Hn Hw) as Hlen.
  repeat split.
  - rewrite forallb_app, Hd, andb_true_r.
    induction (w - length (digits_of n))%nat as [|k IH]; simpl; [done|exact IH].
  - rewrite length_app, length_replicate. lia.
  - rewrite digits_value_app, digits_value_zeros, Hv. lia.
Qed.

Lemma digit_byte_val c : is_digit c = true -> digit_byte (digit_val c) = c.
Proof. destruct c; vm_compute; congruence. Qed.

Lemma digit_val_range c : is_digit c = true -> 0 <= digit_val c < 10.
Proof. unfold is_digit, digit_val. lia. Qed.

(** A string of digits is the fixed-width print of its value. *)
Lemma pad_digits_of_value l :
  forallb is_digit l = true -> pad_digits (length l) (digits_value l) = l.
Proof.
  induction l as [|c l IH] using rev_ind; [done|].
  rewrite forallb_app. simpl. intros [Hl [Hc _]%andb_true_iff]%andb_true_iff.
  rewrite length_app. simpl. rewrite Nat.add_1_r. cbn [pad_digits].
  rewrite digits_value_app. simpl.
  change (digits_value [c]) with (10 * 0 + digit_val c).
  pose proof (digit_val_range c Hc) as Hr.
  assert (E : digits_value l * 10 ^ Z.of_nat 1 + (10 * 0 + digit_val c)
              = digit_val c + digits_value l * 10) by (change (Z.of_nat 1) with 1; lia).
  rewrite E, Z.div_add, Z.div_small, Z.add_0_l by lia.
  rewrite (IH Hl). do 2 f_equal.
  unfold digit_byte. rewrite Z.mod_add by lia.
  apply (digit_byte_val c Hc).
Qed.

(** Two strings of digits of one length and one value are equal. *)
Lemma digits_inj l1 l2 :
  forallb is_digit l1 = true -> forallb is_digit l2 = true ->
  length l1 = length l2 -> digits_value l1 = digits_value l2 -> l1 = l2.
Proof.
  intros H1 H2 Hl Hv.
  rewrite <- (pad_digits_of_value l1 H1), <- (pad_digits_of_value l2 H2).
  by rewrite Hl, Hv.
Qed.

(** ** Dates written and read back (lib.py) *)

Lemma dbf2date_digits s :
  isdigit s = true -> length s = 8%nat ->
  lib.dbf2date (Some s)
  = datetime_date (digits_value (slice 0 4 s)) (digits_value (slice 4 6 s))
      (digits_value (slice 6 8 s)) ≫= fun r => OK (Some r).
Proof.
  intros Hd Hl. unfold lib.dbf2date. rewrite Hd, (bool_decide_eq_true_2 _ Hl). simpl.
  by rewrite !py_int_digits by (apply isdigit_slice; [done|lia|lia]).
Qed.

Lemma dbf2date_Some_inv s d :
  lib.dbf2date (Some s) = OK (Some d) ->
  isdigit s = true /\ length s = 8%nat
  /\ d = mkdate (digits_value (slice 0 4 s)) (digits_value (slice 4 6 s))
                (digits_value (slice 6 8 s))
  /\ valid_ymd (year d) (month d) (day d) = true.
Proof.
  intros H.
  destruct (isdigit s) eqn:Hd; [|by (unfold lib.dbf2date in H; rewrite Hd in H)].
  destruct (decide (length s = 8%nat)) as [Hl|Hl].
  - rewrite (dbf2date_digits s Hd Hl) in H. unfold datetime_date in H.
    destruct (valid_ymd _ _ _) eqn:Hv; [|done]. simpl in H.
    injection H as <-. done.
  - unfold lib.dbf2date in H. rewrite Hd, (bool_decide_eq_false_2 _ Hl) in H. done.
Qed.

Lemma slices_of_app (a b c : bytes) :
  length a = 4%nat -> length b = 2%nat -> length c = 2%nat ->
  slice 0 4 (a ++ b ++ c) = a /\ slice 4 6 (a ++ b ++ c) = b /\ slice 6 8 (a ++ b ++ c) = c.
Proof.
  intros Ha Hb Hc. unfold slice. repeat split.
  - rewrite drop_0. by rewrite take_app_length' by done.
  - rewrite drop_app_length' by done. by rewrite take_app_length' by done.
  - rewrite app_assoc. rewrite drop_app_length' by (rewrite length_app; lia).
    apply take_ge. lia.
Qed.

Lemma app_of_slices (s : bytes) :
  length s = 8%nat -> s = slice 0 4 s ++ slice 4 6 s ++ slice 6 8 s.
Proof.
  intros Hl. do 9 (destruct s as [|? s]; try discriminate Hl). reflexivity.
Qed.

Lemma days_in_month_le y m : days_in_month y m <= 31.
Proof.
  unfold days_in_month.
  destruct (m =? 2); [by destruct (is_leap y)|]. by destruct (_ || _).
Qed.

Lemma isdigit_forallb s : isdigit s = true -> forallb is_digit s = true.
Proof. unfold isdigit. by intros [_ ?]%andb_true_iff. Qed.

(** X1: [date2dbf] and [dbf2date] are inverse to each other on calendar
    dates.  A date is written as 8 digits that [dbf2date] reads back as the
    same date; and whenever [dbf2date] returns a date for some bytes,
    [date2dbf] writes that date as the very same bytes. *)
Theorem X1_date2dbf_dbf2date (d : date) (s : bytes) :
  (valid_ymd (year d) (month d) (day d) = true ->
   exists s', date2dbf (VDate d) = OK s' /\ length s' = 8%nat
              /\ lib.dbf2date (Some s') = OK (Some d))
  /\ (lib.dbf2date (Some s) = OK (Some d) -> date2dbf (VDate d) = OK s).
Proof.
  assert (Hfmt : forall y m dd,
            valid_ymd y m dd = true ->
            (forallb is_digit (format_0d 4 y) = true /\ length (format_0d 4 y) = 4%nat
             /\ digits_value (format_0d 4 y) = y)
            /\ (forallb is_digit (format_0d 2 m) = true /\ length (format_0d 2 m) = 2%nat
                /\ digits_value (format_0d 2 m) = m)
            /\ (forallb is_digit (format_0d 2 dd) = true /\ length (format_0d 2 dd) = 2%nat
                /\ digits_value (format_0d 2 dd) = dd)).
  { intros y m dd Hv. unfold valid_ymd in Hv.
    pose proof (days_in_month_le y m).
    repeat (apply andb_true_iff in Hv as [Hv ?]).
    repeat split; apply format_0d_spec; simpl; lia. }
  split.
  - intros Hv. destruct d as [y m dd]. cbn [year month day] in Hv.
    destruct (Hfmt y m dd Hv) as ((Hy1 & Hy2 & Hy3) & (Hm1 & Hm2 & Hm3) & (Hd1 & Hd2 & Hd3)).
    exists (format_0d 4 y ++ format_0d 2 m ++ format_0d 2 dd). split; [reflexivity|].
    assert (Hlen : length (format_0d 4 y ++ format_0d 2 m ++ format_0d 2 dd) = 8%nat)
      by (rewrite !length_app; lia).
    split; [exact Hlen|].
    rewrite dbf2date_digits; [|unfold isdigit|exact Hlen].
    + destruct (slices_of_app _ _ _ Hy2 Hm2 Hd2) as (-> & -> & ->).
      rewrite Hy3, Hm3, Hd3. unfold datetime_date. by rewrite Hv.
    + apply andb_true_iff; split.
      * apply negb_true_iff, bool_decide_eq_false. intros E. rewrite E in Hlen. done.
      * by rewrite !forallb_app, Hy1, Hm1, Hd1.
  - intros (Hd & Hl & -> & Hv)%dbf2date_Some_inv. cbn [year month day] in Hv.
    cbn [date2dbf year month day].
    destruct (Hfmt _ _ _ Hv) as ((Hy1 & Hy2 & Hy3) & (Hm1 & Hm2 & Hm3) & (Hd1 & Hd2 & Hd3)).
    pose proof (isdigit_forallb s Hd) as Hs.
    f_equal. rewrite (app_of_slices s Hl) at 4.
    f_equal; [|f_equal]; apply digits_inj; try done;
      try (unfold slice; by apply forallb_take, forallb_drop);
      rewrite ?Hy2, ?Hm2, ?Hd2; unfold slice; rewrite length_take, length_drop; lia.
Qed.

Lemma X1_date2dbf_dbf2date_witness :
  (exists s', date2dbf (VDate (mkdate 2009 7 14)) = OK s' /\ length s' = 8%nat
              /\ lib.dbf2date (Some s') = OK (Some (mkdate 2009 7 14)))
  /\ date2dbf (VDate (mkdate 2009 7 14)) = OK (b "20090714").
Proof.
  pose proof (X1_date2dbf_dbf2date (mkdate 2009 7 14) (b "20090714")) as [H1 H2].
  split; [apply H1|apply H2]; reflexivity.
Defined.

(** ** Dates for display (lib.py) *)

Lemma digits_below_128 s : forallb is_digit s = true -> forallb (fun c => byte_to_Z c <? 128) s = true.
Proof.
  induction s as [|c s IH]; simpl; [done|].
  intros [Hc Hs]%andb_true_iff. rewrite (IH Hs), andb_true_r.
  unfold is_digit in Hc. apply Z.ltb_lt. lia.
Qed.

Lemma text_slice_map (i j : nat) (s : bytes) :
  text_slice i j (map Byte.to_N s) = map Byte.to_N (slice i j s).
Proof. unfold text_slice, slice. by rewrite <- List.firstn_map, <- List.skipn_map. Qed.

Lemma dbf2str_digits s :
  isdigit s = true -> length s = 8%nat -> dbf2str (Some s) = OK (Some (display s)).
Proof.
  intros Hd Hl. unfold dbf2str. rewrite Hd, (bool_decide_eq_true_2 _ Hl). simpl.
  rewrite (digits_below_128 s (isdigit_forallb s Hd)). simpl.
  rewrite !text_slice_map. reflexivity.
Qed.

(** X2: [dbf2str] never raises.  It returns [None] exactly when its
    argument is [None], is not all digits or is not 8 bytes long, and on 8
    digits it returns the last two, a full stop, the middle two, a full
    stop and the first four, whether or not they form a calendar date. *)
Theorem X2_dbf2str (dbf_str : option bytes) :
  (exists r, dbf2str dbf_str = OK r)
  /\ (dbf2str dbf_str = OK None
      <-> dbf_str = None
          \/ exists s, dbf_str = Some s /\ (isdigit s = false \/ length s <> 8%nat))
  /\ (forall s, dbf_str = Some s -> isdigit s = true -> length s = 8%nat ->
      dbf2str dbf_str = OK (Some (display s)) /\ length (display s) = 10%nat).
Proof.
  assert (Hnone : forall s, isdigit s = false \/ length s <> 8%nat -> dbf2str (Some s) = OK None).
  { intros s [Hd|Hl]; unfold dbf2str; [by rewrite Hd|].
    rewrite (bool_decide_eq_false_2 _ Hl). simpl. by rewrite orb_true_r. }
  split; [|split].
  - destruct dbf_str as [s|]; [|by eexists].
    destruct (isdigit s) eqn:Hd; [|rewrite Hnone by (by left); by eexists].
    destruct (decide (length s = 8%nat)) as [Hl|Hl];
      [rewrite dbf2str_digits by done|rewrite Hnone by (by right)]; by eexists.
  - split.
    + destruct dbf_str as [s|]; [|by left]. intros Hr. right. exists s. split; [done|].
      destruct (isdigit s) eqn:Hd; [|by left]. right. intros Hl.
      by rewrite dbf2str_digits in Hr.
    + intros [->|(s & -> & Hs)]; [done|by apply Hnone].
  - intros s -> Hd Hl. split; [by apply dbf2str_digits|].
    unfold display, slice. rewrite !length_app. simpl. rewrite !length_app. simpl.
    rewrite !length_map, !length_take, !length_drop. lia.
Qed.

Lemma X2_dbf2str_witness :
  dbf2str (Some (b "00000000")) = OK (Some (display (b "00000000")))
  /\ length (display (b "00000000")) = 10%nat.
Proof.
  exact (proj2 (proj2 (X2_dbf2str (Some (b "00000000")))) (b "00000000")
           eq_refl eq_refl eq_refl).
Defined.

Lemma text_split_nonempty sep t : text_split sep t <> [].
Proof. destruct t as [|c r]; simpl; [done|]. destruct (c =? sep)%N; [done|]. by destruct (text_split sep r). Qed.

Lemma text_split_no_sep sep p :
  forallb (fun c => negb (c =? sep)%N) p = true -> text_split sep p = [p].
Proof.
  induction p as [|c p IH]; simpl; [done|].
  intros [Hc Hp]%andb_true_iff. apply negb_true_iff in Hc. by rewrite Hc, IH.
Qed.

Lemma text_split_app sep p r :
  forallb (fun c => negb (c =? sep)%N) p = true ->
  text_split sep (p ++ sep :: r) = p :: text_split sep r.
Proof.
  induction p as [|c p IH]; simpl.
  - by rewrite N.eqb_refl.
  - intros [Hc Hp]%andb_true_iff. apply negb_true_iff in Hc. by rewrite Hc, IH.
Qed.

(** The parts of a split and the separators between them make up the text. *)
Lemma text_split_length sep t :
  length t = (foldr (fun p n => length p + n) 0 (text_split sep t)
              + (length (text_split sep t) - 1))%nat.
Proof.
  induction t as [|c r IH]; simpl; [done|].
  pose proof (text_split_nonempty sep r) as Hne.
  destruct (c =? sep)%N; simpl.
  - rewrite IH. destruct (text_split sep r); [done|]. simpl. lia.
  - rewrite IH. destruct (text_split sep r); [done|]. simpl. lia.
Qed.

Lemma omap_of_N_length (t : text) :
  forallb (fun c => (c <? 128)%N) t = true -> length (omap Byte.of_N t) = length t.
Proof.
  induction t as [|c t IH]; simpl; [done|].
  intros [Hc Ht]%andb_true_iff. apply N.ltb_lt in Hc.
  destruct (Byte.of_N c) eqn:E.
  - cbn [length]. f_equal. by apply IH.
  - apply Byte.of_N_None_iff in E. lia.
Qed.

Lemma omap_of_to_N (s : bytes) : omap Byte.of_N (map Byte.to_N s) = s.
Proof.
  induction s as [|c s IH]; simpl; [done|]. rewrite Byte.of_to_N. f_equal. exact IH.
Qed.

Lemma digits_text s :
  forallb is_digit s = true ->
  forallb (fun c => negb (c =? dot)%N) (map Byte.to_N s) = true
  /\ forallb (fun c => (c <? 128)%N) (map Byte.to_N s) = true.
Proof.
  induction s as [|c s IH]; simpl; [done|].
  intros [Hc Hs]%andb_true_iff. destruct (IH Hs) as [-> ->].
  split; rewrite andb_true_r; revert Hc; destruct c; vm_compute; congruence.
Qed.

(** X3: [str2dbf] undoes [dbf2str]: the display form of 8 digits is read
    back as those 8 digits.  Whatever [str2dbf] returns has 8 bytes and
    comes from a string of 10 characters; a string of another length is
    refused with the error that reports its length. *)
Theorem X3_str2dbf (s : bytes) (v : value) (out : bytes) :
  (isdigit s = true -> length s = 8%nat ->
   dbf2str (Some s) = OK (Some (display s)) /\ str2dbf (VStr (display s)) = inr s)
  /\ (str2dbf v = inr out ->
      length out = 8%nat /\ exists t, v = VStr t /\ length t = 10%nat)
  /\ (forall t, length t <> 10%nat -> str2dbf (VStr t) = inl (not_10_symbols (length t))).
Proof.
  split; [|split].
  - intros Hd Hl. split; [by apply dbf2str_digits|].
    pose proof (isdigit_forallb s Hd) as Hs.
    assert (Hpart : forall i j, forallb is_digit (slice i j s) = true)
      by (intros; unfold slice; by apply forallb_take, forallb_drop).
    destruct (digits_text _ (Hpart 6 8)%nat) as [Hd1 Hd2].
    destruct (digits_text _ (Hpart 4 6)%nat) as [Hm1 Hm2].
    destruct (digits_text _ (Hpart 0 4)%nat) as [Hy1 Hy2].
    unfold str2dbf.
    rewrite (bool_decide_eq_true_2 (length (display s) = 10%nat)).
    2:{ unfold display, slice. rewrite !length_app. simpl. rewrite !length_app. simpl.
        rewrite !length_map, !length_take, !length_drop. lia. }
    cbn [negb]. unfold display.
    rewrite (text_split_app dot _ _ Hd1), (text_split_app dot _ _ Hm1),
            (text_split_no_sep dot _ Hy1).
    rewrite !forallb_app, Hy2, Hm2, Hd2. cbn [andb].
    rewrite <- !map_app, omap_of_to_N. f_equal. symmetry. by apply app_of_slices.
  - unfold str2dbf. destruct v as [| | | |t| |]; try done.
    case_bool_decide as Hl; cbn [negb]; [|done].
    pose proof (text_split_length dot t) as Hsum.
    destruct (text_split dot t) as [|d [|m [|y [|? ?]]]]; try done.
    destruct (forallb _ _) eqn:Ha; [|done]. intros [= <-].
    split; [|by exists t].
    rewrite (omap_of_N_length _ Ha), !length_app. simpl in Hsum. lia.
  - intros t Hl. unfold str2dbf. by rewrite (bool_decide_eq_false_2 _ Hl).
Qed.

Lemma X3_str2dbf_witness :
  dbf2str (Some (b "20090714")) = OK (Some (display (b "20090714")))
  /\ str2dbf (VStr (display (b "20090714"))) = inr (b "20090714").
Proof.
  exact (proj1 (X3_str2dbf (b "20090714") VNone []) eq_refl eq_refl).
Defined.

(** ** What the constructor accepts and stores (reader.py) *)

(** X4: the [fields] argument of the constructor has no effect: whatever
    field structure is passed, the constructor of either class does what it
    does without one, because [__init__] empties [self.fields] again before
    the header is read. *)
Theorem X4_fields_argument_ignored post fh0 (flds : list field) use_unicode encoding0 :
  __init__ post fh0 (Some flds) use_unicode encoding0
  = __init__ post fh0 None use_unicode encoding0.
Proof. reflexivity. Qed.

(** X5: a file of fewer than 32 bytes, the empty file included, makes the
    constructor of either class raise [struct.error]. *)
Theorem X5_short_header post fh0 fields0 use_unicode encoding0 :
  (length (fh_data fh0) < 32)%nat ->
  __init__ post fh0 fields0 use_unicode encoding0 = Raise struct_error.
Proof.
  intros Hlen. unfold __init__, _readHeader. cbn. rewrite drop_0.
  unfold unpack_HEADER_FORMAT.
  rewrite bool_decide_eq_false_2 by (rewrite length_take; lia). reflexivity.
Qed.

Lemma X5_short_header_witness :
  new_YDbfReader (sample.handle [] None) None true None = Raise struct_error.
Proof.
  apply (X5_short_header postInit (sample.handle [] None) None true None).
  simpl. lia.
Defined.

Lemma byte_to_Z_range c : 0 <= byte_to_Z c <= 255.
Proof. unfold byte_to_Z. pose proof (Byte.to_N_bounded c). lia. Qed.

Lemma byte_at_range i buf : 0 <= byte_at i buf <= 255.
Proof. apply byte_to_Z_range. Qed.

Lemma le_range bs : 0 <= le bs < 256 ^ Z.of_nat (length bs).
Proof.
  unfold le. induction bs as [|c bs IH]; [simpl; lia|].
  cbn [fold_right length]. pose proof (byte_to_Z_range c).
  rewrite Nat2Z.inj_succ, Z.pow_succ_r by lia. lia.
Qed.

Lemma string_of_list_byte_length (l : bytes) :
  String.length (string_of_list_byte l) = length l.
Proof. induction l as [|c l IH]; simpl; [done|]. by f_equal. Qed.

Lemma until_nul_length name : (length (until_nul name) <= length name)%nat.
Proof.
  induction name as [|c r IH]; simpl; [done|]. destruct (is_nul c); simpl; lia.
Qed.

Lemma ascii_decode_length val s : ascii_decode val = OK s -> String.length s = length val.
Proof.
  unfold ascii_decode. destruct (forallb _ _); [|done].
  intros <-%OK_inj. apply string_of_list_byte_length.
Qed.

(** The descriptor loop keeps accepted descriptors, adds one per turn and
    moves the handle by 32 bytes per turn. *)
Lemma read_field_descriptions_ok n f acc flds f' :
  read_field_descriptions n f acc = OK (flds, f') ->
  Forall descriptor_ok acc ->
  Forall descriptor_ok flds
  /\ length flds = (length acc + n)%nat
  /\ fh_pos f' = (fh_pos f + 32 * n)%nat.
Proof.
  revert f acc. induction n as [|n IH]; intros f acc.
  - intros [= <- <-] Hacc. repeat split; [done|lia..].
  - cbn [read_field_descriptions]. destruct (fh_read 32 f) as [buf f1] eqn:Hread.
    unfold unpack_FIELD_DESCRIPTION_FORMAT. case_bool_decide as Hlen; [|done]. cbn.
    intros (ts & Hts & H)%bind_OK. apply bind_OK in H as (ns & Hns & H).
    case_bool_decide as Htyp; cbn in H; [|done].
    intros Hacc. apply IH in H as (Hok & Hl & Hpos).
    + split; [done|]. rewrite length_app in Hl. cbn in Hl.
      unfold fh_read in Hread. injection Hread as <- <-. cbn in Hpos.
      split; lia.
    + apply Forall_app. split; [done|]. apply Forall_singleton.
      unfold descriptor_ok. cbn.
      split; [done|]. split; [|split; apply byte_at_range].
      rewrite (ascii_decode_length _ _ Hns).
      pose proof (until_nul_length (slice 0 11 buf)).
      unfold slice in *. rewrite length_take in *. lia.
Qed.

Lemma calcsize_cons n l : calcsize (n :: l) = n + calcsize l.
Proof. reflexivity. Qed.

Lemma calcsize_range (flds : list field) :
  Forall descriptor_ok flds ->
  0 <= calcsize (map field_size flds) <= 255 * Z.of_nat (length flds).
Proof.
  induction 1 as [|f flds (_&_&Hs&_) _ IH]; [done|].
  cbn [map length]. rewrite calcsize_cons, Nat2Z.inj_succ.
  change (field_size f) with (f.1.2). lia.
Qed.

(** What a successful [_readHeader] has stored about the fields. *)
Lemma readHeader_fields self self' :
  _readHeader self = OK self' ->
  fields self = [] ->
  _fields self' = deletion_flag_field :: fields self'
  /\ builtin_fields self' = fields self'
  /\ builtin__fields self' = _fields self'
  /\ Forall descriptor_ok (fields self')
  /\ length (fields self') = Z.to_nat (numfields self')
  /\ numfields self' = (lenheader self' - 33) / 32
  /\ field_names self' = map field_name (fields self')
  /\ recsize self' = 1 + calcsize (map field_size (fields self'))
  /\ start_from self' = start_from self.
Proof.
  unfold _readHeader. cbn. rewrite drop_0.
  unfold unpack_HEADER_FORMAT.
  case_bool_decide as Hlen; cbn; [|done].
  intros (d & Hd & H)%bind_OK Hfields.
  case_bool_decide as Hsig; cbn in H; [|done].
  apply bind_OK in H as ([flds f1] & Hf & H).
  apply read_field_descriptions_ok in Hf as (Hok & Hl & _); [|done].
  destruct (negb _); [done|].
  rewrite Hfields in H. apply OK_inj in H as <-. cbn.
  repeat split; try done; cbn in Hl; lia.
Qed.

(** The stages after [_readHeader] keep what it stored. *)
Lemma init_keeps_header post fh0 fields0 use_unicode encoding0 r :
  __init__ post fh0 fields0 use_unicode encoding0 = OK r ->
  (forall s, post s = OK r -> r = s) ->
  exists s1,
    _readHeader (init_attributes fh0 fields0 encoding0) = OK s1
    /\ _fields r = _fields s1 /\ fields r = fields s1
    /\ builtin_fields r = builtin_fields s1 /\ builtin__fields r = builtin__fields s1
    /\ numrec r = numrec s1 /\ lenheader r = lenheader s1 /\ numfields r = numfields s1
    /\ field_names r = field_names s1 /\ start_from r = start_from s1
    /\ stop_at r = stop_at s1 /\ recfmt r = recfmt s1 /\ recsize r = recsize s1
    /\ dt r = dt s1 /\ sig r = sig s1 /\ raw_lang r = raw_lang s1 /\ fh r = fh s1.
Proof.
  intros (s1 & s2 & s3 & H1 & H2 & H3 & H4)%init_inv Hpost.
  apply Hpost in H4 as ->. exists s1. split; [done|].
  apply makeActions_inv in H3 as [convs ->]. cbn.
  destruct use_unicode.
  - apply defineEncoding_inv in H2 as (e & bi & ->). cbn. repeat split; done.
  - apply OK_inj in H2 as <-. repeat split; done.
Qed.

Lemma initialized_keeps_header fh0 fields0 use_unicode encoding0 r :
  initialized fh0 fields0 use_unicode encoding0 r ->
  exists s1,
    _readHeader (init_attributes fh0 fields0 encoding0) = OK s1
    /\ _fields r = _fields s1 /\ fields r = fields s1
    /\ builtin_fields r = builtin_fields s1 /\ builtin__fields r = builtin__fields s1
    /\ numrec r = numrec s1 /\ lenheader r = lenheader s1 /\ numfields r = numfields s1
    /\ field_names r = field_names s1 /\ start_from r = start_from s1
    /\ stop_at r = stop_at s1 /\ recfmt r = recfmt s1 /\ recsize r = recsize s1
    /\ dt r = dt s1 /\ sig r = sig s1 /\ raw_lang r = raw_lang s1 /\ fh r = fh s1.
Proof.
  intros Hr%initialized_plain. apply (init_keeps_header postInit _ _ _ _ _ Hr).
  by intros s <-%OK_inj.
Qed.



(** X7: the header values of a reader of either class.  The signature is
    3, 4 or 5; the record count is below 2^32 and the header length below
    2^16, and neither is negative; the creation date is a calendar date
    whose year lies between 1950 and 2155; and an iteration starts at
    record 0 and stops at the record count unless told otherwise. *)
Theorem X7_header_ranges fh0 fields0 use_unicode encoding0 r :
  initialized fh0 fields0 use_unicode encoding0 r ->
  sig r ∈ [3; 4; 5]
  /\ 0 <= numrec r < 2 ^ 32
  /\ 0 <= lenheader r < 2 ^ 16
  /\ (exists d, dt r = Some d /\ 1950 <= year d <= 2155
                /\ valid_ymd (year d) (month d) (day d) = true)
  /\ start_from r = 0 /\ stop_at r = numrec r.
Proof.
  intros Hr. pose proof (plain_reader_facts _ _ _ _ _ (initialized_plain _ _ _ _ _ Hr)) as Hf.
  cbn in Hf. destruct Hf as (_&_&Hsig&Hdt&Hn&Hl&_&Hstop&_).
  destruct (initialized_keeps_header _ _ _ _ _ Hr)
    as (s1 & H1 & _ & _ & _ & _ & _ & _ & _ & _ & E9 & _ & _ & _ & E13 & _).
  pose proof H1 as (_ & _ & _ & _ & _ & _ & _ & _ & S)%readHeader_fields; [|done].
  split; [exact Hsig|].
  pose proof (le_range (slice 4 8 (fh_data fh0))) as Hn4.
  pose proof (le_range (slice 8 10 (fh_data fh0))) as Hl2.
  assert (length (slice 4 8 (fh_data fh0)) <= 4)%nat
    by (unfold slice; rewrite length_take; lia).
  assert (length (slice 8 10 (fh_data fh0)) <= 2)%nat
    by (unfold slice; rewrite length_take; lia).
  assert (256 ^ Z.of_nat (length (slice 4 8 (fh_data fh0))) <= 256 ^ 4)
    by (apply Z.pow_le_mono_r; lia).
  assert (256 ^ Z.of_nat (length (slice 8 10 (fh_data fh0))) <= 256 ^ 2)
    by (apply Z.pow_le_mono_r; lia).
  split; [rewrite Hn; lia|]. split; [rewrite Hl; lia|].
  split; [|split; [by rewrite E9, S|done]].
  eexists. split; [exact Hdt|]. cbn.
  pose proof (byte_at_range 1 (fh_data fh0)).
  split; [destruct (_ <? 1950) eqn:E; [apply Z.ltb_lt in E|apply Z.ltb_ge in E]; lia|].
  (* the date was accepted by datetime.date *)
  unfold _readHeader in H1. cbn in H1. rewrite drop_0 in H1.
  unfold unpack_HEADER_FORMAT in H1. case_bool_decide as Hlen; cbn in H1; [|done].
  apply bind_OK in H1 as (d & Hd & _). unfold datetime_date in Hd.
  destruct (valid_ymd _ _ _) eqn:Hv; [|done].
  rewrite length_take in Hlen. rewrite !byte_at_take in Hv by lia. exact Hv.
Qed.

Lemma X7_header_ranges_witness :
  let r := sample.opened (sample.handle (sample.table 0 x2a) None) true None in
  sig r ∈ [3; 4; 5]
  /\ 0 <= numrec r < 2 ^ 32
  /\ 0 <= lenheader r < 2 ^ 16
  /\ (exists d, dt r = Some d /\ 1950 <= year d <= 2155
                /\ valid_ymd (year d) (month d) (day d) = true)
  /\ start_from r = 0 /\ stop_at r = numrec r.
Proof.
  intros r.
  apply (X7_header_ranges (sample.handle (sample.table 0 x2a) None) None true None).
  left. vm_compute. reflexivity.
Defined.

(** ** The choice of the converters (reader.py) *)

(** The answer of the rule set, rule by rule. *)
Lemma resolve_rules enc typ size dec :
  resolve (action_resolvers enc) typ size dec
  = if bool_decide (typ = lib.CHAR) then
      Some (if truthy_str enc then dbf2py_unicode else dbf2py_string)
    else if bool_decide (typ = lib.NUMERAL) then
      Some (if dec =? 0 then dbf2py_integer else dbf2py_decimal)
    else if bool_decide (typ = lib.DATE) then Some dbf2py_date
    else if bool_decide (typ = lib.LOGICAL) then Some dbf2py_logic
    else None.
Proof.
  cbn [resolve action_resolvers].
  case_bool_decide as HC.
  - subst typ. by destruct (truthy_str enc).
  - cbn [andb]. case_bool_decide as HN.
    + subst typ. by destruct (dec =? 0).
    + cbn [andb]. by repeat case_bool_decide.
Qed.

(** Every rule either does not answer or gives the answer of the rule set. *)
Lemma rules_agree enc typ size dec :
  Forall (fun rule => rule typ size dec = None
                      \/ rule typ size dec = resolve (action_resolvers enc) typ size dec)
    (action_resolvers enc).
Proof.
  rewrite resolve_rules. unfold action_resolvers.
  repeat (apply Forall_cons; split); [..|apply Forall_nil]; cbn beta;
    repeat case_bool_decide; subst; cbn; try discriminate; auto;
    try (destruct (truthy_str enc); cbn; auto);
    try (destruct (dec =? 0); cbn; auto).
Qed.

Lemma resolve_first (l : list (string -> Z -> Z -> option action)) typ size dec answer :
  Forall (fun rule => rule typ size dec = None \/ rule typ size dec = answer) l ->
  (answer <> None -> exists rule, rule ∈ l /\ rule typ size dec = answer) ->
  resolve l typ size dec = answer.
Proof.
  induction 1 as [|rule l Hrule Hl IH]; intros Hex; cbn [resolve].
  - destruct answer as [a|]; [|done].
    destruct Hex as (rule & Hin & _); [done|]. by apply elem_of_nil in Hin.
  - destruct Hrule as [Hr|Hr]; rewrite Hr.
    + apply IH. intros Hne. destruct (Hex Hne) as (rule' & Hin & Hans).
      apply elem_of_cons in Hin as [->|Hin]; [congruence|eauto].
    + destruct answer as [a|]; [done|]. apply IH. intros Hne. done.
Qed.

(** X8: the rules that choose a converter can be tried in any order.  For
    every field, whatever the order of the six rules, the answer is the one
    the type decides: [dbf2py_unicode] or [dbf2py_string] for a Character
    field, by the truth of the encoding; [dbf2py_integer] or
    [dbf2py_decimal] for a Numeral field, by its decimal count being zero
    or not; [dbf2py_date] for a Date and [dbf2py_logic] for a Logical
    field; and no answer exactly for the other type tags. *)
Theorem X8_rules_in_any_order enc typ size dec
    (rules : list (string -> Z -> Z -> option action)) :
  rules ≡ₚ action_resolvers enc ->
  resolve rules typ size dec
  = (if bool_decide (typ = lib.CHAR) then
       Some (if truthy_str enc then dbf2py_unicode else dbf2py_string)
     else if bool_decide (typ = lib.NUMERAL) then
       Some (if dec =? 0 then dbf2py_integer else dbf2py_decimal)
     else if bool_decide (typ = lib.DATE) then Some dbf2py_date
     else if bool_decide (typ = lib.LOGICAL) then Some dbf2py_logic
     else None)
  /\ (resolve rules typ size dec = None
      <-> typ ∉ [lib.CHAR; lib.DATE; lib.LOGICAL; lib.NUMERAL]).
Proof.
  intros Hperm.
  assert (Hres : resolve rules typ size dec = resolve (action_resolvers enc) typ size dec).
  { apply resolve_first.
    - rewrite Hperm. apply rules_agree.
    - intros Hne.
      assert (Hin : exists rule, rule ∈ action_resolvers enc
                /\ rule typ size dec = resolve (action_resolvers enc) typ size dec).
      { revert Hne. generalize (action_resolvers enc).
        induction l as [|rule l IH]; cbn [resolve]; [done|].
        destruct (rule typ size dec) as [a|] eqn:Hr.
        - intros _. exists rule. split; [by left|done].
        - intros Hne. destruct (IH Hne) as (rule' & Hin & Hans).
          exists rule'. split; [by right|done]. }
      destruct Hin as (rule & Hin & Hans). exists rule. split; [|done].
      by rewrite Hperm. }
  rewrite Hres, resolve_rules. split; [done|].
  split.
  - intros Hnone Hin.
    repeat (apply elem_of_cons in Hin as [->|Hin]; [by repeat case_bool_decide|]).
    by apply elem_of_nil in Hin.
  - intros Hnot. repeat case_bool_decide; subst; try done;
      exfalso; apply Hnot; repeat constructor.
Qed.

Lemma X8_rules_in_any_order_witness :
  resolve (rev (action_resolvers None)) lib.NUMERAL 3 2 = Some dbf2py_decimal
  /\ (resolve (rev (action_resolvers None)) lib.NUMERAL 3 2 = None
      <-> lib.NUMERAL ∉ [lib.CHAR; lib.DATE; lib.LOGICAL; lib.NUMERAL]).
Proof.
  apply (X8_rules_in_any_order None lib.NUMERAL 3 2 (rev (action_resolvers None))).
  symmetry. apply Permutation_rev.
Defined.

Lemma make_converters_total enc (flds : list field) c0 :
  Forall (fun f : field => f.1.1.2 ∈ [lib.CHAR; lib.DATE; lib.LOGICAL; lib.NUMERAL]) flds ->
  exists c, make_converters enc flds c0 = OK c.
Proof.
  intros Hall. revert c0. induction Hall as [|[[[n t] sz] d] l Ht _ IH]; intros c0.
  - by eexists.
  - cbn [make_converters]. cbn in Ht.
    destruct (resolve (action_resolvers enc) t sz d) as [a|] eqn:Hr; [apply IH|].
    exfalso. revert Hr. rewrite resolve_rules.
    repeat (apply elem_of_cons in Ht as [->|Ht]; [by repeat case_bool_decide|]).
    by apply elem_of_nil in Ht.
Qed.

Lemma make_converters_other enc (flds : list field) c0 c name :
  make_converters enc flds c0 = OK c ->
  name ∉ map field_name flds -> c !! name = c0 !! name.
Proof.
  revert c0. induction flds as [|[[[n t] sz] d] l IH]; intros c0.
  - by intros <-%OK_inj.
  - cbn [make_converters map]. destruct (resolve _ t sz d) as [a|]; [|done].
    intros Hc Hnot. rewrite (IH _ Hc).
    + apply lookup_insert_ne. intros ->. apply Hnot. by left.
    + intros Hin. apply Hnot. by right.
Qed.

(** The converter stored under a name is the one chosen for the last field
    of that name. *)
Lemma make_converters_last enc (before after : list field) f c0 c :
  make_converters enc (before ++ f :: after) c0 = OK c ->
  field_name f ∉ map field_name after ->
  c !! field_name f = resolve (action_resolvers enc) f.1.1.2 f.1.2 f.2.
Proof.
  revert c0. induction before as [|[[[n t] sz] d] l IH]; intros c0.
  - destruct f as [[[n t] sz] d]. cbn [app make_converters].
    destruct (resolve _ t sz d) as [a|] eqn:Hr; [|done].
    intros Hc Hnot. rewrite (make_converters_other _ _ _ _ _ Hc Hnot).
    cbn. by rewrite lookup_insert_eq.
  - cbn [app make_converters]. destruct (resolve _ t sz d) as [a|]; [|done]. apply IH.
Qed.

(** X9: once the header is read and the encoding settled, the constructor
    succeeds: the error for a field without converter cannot happen, since
    the header loop admits the four known type tags only.  In the reader,
    the converter stored under a field name is the one the rules choose for
    the last field of that name, so that fields sharing a name share the
    converter of the last of them. *)
Theorem X9_converters fh0 fields0 (use_unicode : bool) encoding0 s s2 :
  _readHeader (init_attributes fh0 fields0 encoding0) = OK s ->
  (if use_unicode then _defineEncoding s else OK s) = OK s2 ->
  exists r,
    new_YDbfReader fh0 fields0 use_unicode encoding0 = OK r
    /\ encoding r = encoding s2
    /\ forall before f after,
         _fields r = before ++ f :: after ->
         field_name f ∉ map field_name after ->
         converters r !! field_name f
         = resolve (action_resolvers (encoding r)) f.1.1.2 f.1.2 f.2.
Proof.
  intros Hs Hs2.
  pose proof (readHeader_fields _ _ Hs eq_refl) as (F1 & _ & _ & F4 & _).
  assert (E : _fields s2 = _fields s).
  { destruct use_unicode; [|by apply OK_inj in Hs2 as <-].
    by apply defineEncoding_inv in Hs2 as (e & bi & ->). }
  destruct (make_converters_total (encoding s2) (_fields s2) (converters s2)) as [c Hc].
  { rewrite E, F1. apply Forall_cons. split; [cbn; by left|].
    eapply Forall_impl; [exact F4|]. by intros f (Ht & _). }
  unfold new_YDbfReader, __init__. rewrite Hs. cbn [mbind result_bind]. rewrite Hs2.
  cbn [mbind result_bind]. unfold _makeActions. rewrite Hc. cbn [mbind result_bind].
  eexists. split; [reflexivity|]. cbn. split; [done|].
  intros before f after Hsplit Hnot. rewrite Hsplit in Hc.
  by apply (make_converters_last _ _ _ _ _ _ Hc).
Qed.

Lemma X9_converters_witness :
  let fh0 := sample.handle (sample.table 0 x2a) None in
  exists r,
    new_YDbfReader fh0 None true None = OK r
    /\ encoding r = Some "ascii"
    /\ forall before f after,
         _fields r = before ++ f :: after ->
         field_name f ∉ map field_name after ->
         converters r !! field_name f
         = resolve (action_resolvers (encoding r)) f.1.1.2 f.1.2 f.2.
Proof.
  intros fh0.
  pose (s := match _readHeader (init_attributes fh0 None None) with
             | OK s => s
             | Raise _ => init_attributes fh0 None None
             end).
  pose (s2 := match _defineEncoding s with OK s2 => s2 | Raise _ => s end).
  apply (X9_converters fh0 None true None s s2); vm_compute; reflexivity.
Defined.

(** ** What the strict reader guarantees (reader.py) *)

Lemma assert_OK c msg : assert c msg = OK tt -> c = true.
Proof. by destruct c. Qed.

Lemma check_fields_OK flds : check_fields flds = OK tt -> Forall strict_field_ok flds.
Proof.
  induction flds as [|[[[n t] sz] d] l IH]; [by constructor|].
  cbn [check_fields].
  intros ([] & H1 & H)%bind_OK. apply bind_OK in H as ([] & H2 & H).
  apply bind_OK in H as ([] & H3 & H).
  constructor; [|by apply IH]. unfold strict_field_ok. cbn.
  split; [|split]; intros ->.
  - rewrite bool_decide_eq_true_2 in H1 by done. apply assert_OK in H1. lia.
  - rewrite bool_decide_eq_true_2 in H2 by done. apply assert_OK in H2. lia.
  - rewrite bool_decide_eq_true_2 in H3 by done. apply assert_OK in H3. lia.
Qed.

Section strict_guarantees.
Variable os_stat_size : string -> option Z.

(** X10: a reader that the strict class returns is the reader the plain
    class returns, and it has passed every check: a record size above 1 and
    below 32 KB (below 4000 under the signatures 3 and 4), at least one
    field (fewer than 128 under signature 3, fewer than 256 under signature
    4), Numeral sizes below 20, Character sizes below 255, Logical sizes
    equal to 1, and a file size, when the handle has a name and the system
    reports its size, equal to [lenheader + 1 + numrec * recsize]. *)
Theorem X10_strict_guarantees fh0 fields0 use_unicode encoding0 r :
  new_YDbfStrictReader os_stat_size fh0 fields0 use_unicode encoding0 = OK r ->
  new_YDbfReader fh0 fields0 use_unicode encoding0 = OK r
  /\ 1 < recsize r < 32 * 1024
  /\ (sig r ∈ [3; 4] -> recsize r < 4000)
  /\ 0 < numfields r /\ fields r <> []
  /\ (sig r = 3 -> numfields r < 128)
  /\ (sig r = 4 -> numfields r < 256)
  /\ Forall strict_field_ok (fields r)
  /\ (forall file_name os_size,
        fh_name fh0 = Some file_name -> os_stat_size file_name = Some os_size ->
        os_size = lenheader r + 1 + numrec r * recsize r).
Proof.
  intros Hstrict. pose proof (strict_is_plain _ _ _ _ _ _ Hstrict) as Hplain.
  split; [exact Hplain|].
  assert (Hr : initialized fh0 fields0 use_unicode encoding0 r) by (by left).
  destruct (initialized_keeps_header _ _ _ _ _ Hr) as (s1 & H1 & _ & E2 & _ & _ & _ & _ & E7 & _).
  pose proof (readHeader_fields _ _ H1 eq_refl) as (_ & _ & _ & _ & F5 & _).
  rewrite <- E2, <- E7 in F5.
  pose proof (plain_reader_facts _ _ _ _ _ Hplain) as Hf. cbn in Hf.
  destruct Hf as (_&_&_&_&_&_&_&_&_&_&Hname&_).
  unfold new_YDbfStrictReader in Hstrict.
  apply init_inv in Hstrict as (t1 & t2 & t3 & _ & _ & _ & [-> Hc]%strict_postInit_inv).
  pose proof Hc as Hsize.
  unfold checkConsistency in Hc.
  apply bind_OK in Hc as ([] & A1 & Hc). apply bind_OK in Hc as ([] & A2 & Hc).
  apply bind_OK in Hc as ([] & A3 & Hc). apply bind_OK in Hc as ([] & A4 & Hc).
  apply bind_OK in Hc as ([] & A5 & Hc). apply bind_OK in Hc as ([] & A6 & Hc).
  apply bind_OK in Hc as ([] & A7 & Hc). apply bind_OK in Hc as ([] & A8 & _).
  apply assert_OK in A1, A3, A5.
  split; [lia|]. split.
  { intros Hsig. rewrite bool_decide_eq_true_2 in A2 by done. apply assert_OK in A2. lia. }
  split; [lia|]. split.
  { intros E. rewrite E in F5. cbn in F5. lia. }
  split.
  { intros Hsig. rewrite Hsig in A6. cbn in A6. apply assert_OK in A6. lia. }
  split.
  { intros Hsig. rewrite Hsig in A7. cbn in A7. apply assert_OK in A7. lia. }
  split; [by apply check_fields_OK|].
  intros file_name os_size Hn Hs.
  apply (checkConsistency_size os_stat_size t3 file_name os_size Hsize); [|done].
  by rewrite Hname.
Qed.

End strict_guarantees.

Lemma X10_strict_guarantees_witness :
  let fh0 := sample.handle (sample.table 0 x2a) (Some "t.dbf") in
  let r := sample.opened fh0 true None in
  new_YDbfReader fh0 None true None = OK r
  /\ 1 < recsize r < 32 * 1024
  /\ (sig r ∈ [3; 4] -> recsize r < 4000)
  /\ 0 < numfields r /\ fields r <> []
  /\ (sig r = 3 -> numfields r < 128)
  /\ (sig r = 4 -> numfields r < 256)
  /\ Forall strict_field_ok (fields r)
  /\ (forall file_name os_size,
        fh_name fh0 = Some file_name -> sample.os_stat_size 116 file_name = Some os_size ->
        os_size = lenheader r + 1 + numrec r * recsize r).
Proof.
  intros fh0 r.
  apply (X10_strict_guarantees (sample.os_stat_size 116) fh0 None true None r).
  vm_compute. reflexivity.
Defined.

(** X11: the strict reader checks the file size only when the handle has a
    name whose size the system reports.  When the handle has no name, or
    when the system reports no size for its name, the strict constructor
    does what it does on a system that reports no size at all. *)
Theorem X11_size_check_skipped (os_stat_size : string -> option Z)
    fh0 fields0 use_unicode encoding0 :
  (forall file_name, fh_name fh0 = Some file_name -> os_stat_size file_name = None) ->
  new_YDbfStrictReader os_stat_size fh0 fields0 use_unicode encoding0
  = new_YDbfStrictReader (fun _ => None) fh0 fields0 use_unicode encoding0.
Proof.
  intros Hos.
  destruct (new_YDbfReader fh0 fields0 use_unicode encoding0) as [r|e] eqn:Hplain.
  - pose proof (plain_reader_facts _ _ _ _ _ Hplain) as Hf. cbn in Hf.
    destruct Hf as (_&_&_&_&_&_&_&_&_&_&Hname&_).
    apply init_inv in Hplain as (s1 & s2 & s3 & H1 & H2 & H3 & <-%OK_inj).
    unfold new_YDbfStrictReader, __init__. rewrite H1. cbn [mbind result_bind].
    rewrite H2. cbn [mbind result_bind]. rewrite H3. cbn [mbind result_bind].
    unfold strict_postInit, postInit. cbn [mbind result_bind].
    assert (E : checkConsistency os_stat_size s3 = checkConsistency (fun _ => None) s3).
    { unfold checkConsistency. rewrite Hname.
      destruct (fh_name fh0) as [file_name|]; [|done]. by rewrite (Hos file_name). }
    by rewrite E.
  - unfold new_YDbfReader, new_YDbfStrictReader, __init__ in *.
    destruct (_readHeader _) as [s1|e1]; cbn [mbind result_bind] in *; [|done].
    destruct (if use_unicode then _ else _) as [s2|e2]; cbn [mbind result_bind] in *; [|done].
    destruct (_makeActions s2) as [s3|e3]; cbn [mbind result_bind] in *; [|done].
    discriminate Hplain.
Qed.

Lemma X11_size_check_skipped_witness :
  let fh0 := sample.handle (sample.table 0 x2a) None in
  new_YDbfStrictReader (sample.os_stat_size 7) fh0 None true None
  = new_YDbfStrictReader (fun _ => None) fh0 None true None.
Proof.
  intros fh0.
  apply (X11_size_check_skipped (sample.os_stat_size 7) fh0 None true None).
  intros file_name H. discriminate H.
Defined.

(** ** Iteration (reader.py) *)

Lemma seek_target_ok offset f :
  0 <= offset ->
  (if bool_decide (fh_tell f = offset) then OK f else fh_seek offset f)
  = OK (mkfh (fh_data f) (Z.to_nat offset) (fh_name f)).
Proof.
  intros Ho. case_bool_decide as Ht.
  - destruct f as [d p n]. unfold fh_tell in Ht. cbn in *. f_equal. f_equal. lia.
  - unfold fh_seek. destruct (offset <? 0) eqn:E; [lia|done].
Qed.

Lemma seek_target_neg offset f :
  offset < 0 ->
  (if bool_decide (fh_tell f = offset) then OK f else fh_seek offset f) = Raise OSError.
Proof.
  intros Ho. case_bool_decide as Ht.
  - unfold fh_tell in Ht. lia.
  - unfold fh_seek. destruct (offset <? 0) eqn:E; [done|lia].
Qed.

Lemma omap_cons_eq {A B} (f : A -> option B) (x : A) (l : list A) :
  omap f (x :: l) = match f x with Some y => y :: omap f l | None => omap f l end.
Proof. reflexivity. Qed.

Section iteration_facts.
Variable codecs : string -> option (bytes -> option text).

Lemma records_loop_ext self self' sd convs f i n :
  recsize self' = recsize self -> recfmt self' = recfmt self ->
  encoding self' = encoding self ->
  records_loop codecs self' sd convs f i n = records_loop codecs self sd convs f i n.
Proof.
  intros E1 E2 E3. revert f i. induction n as [|n IH]; intros f i; [done|].
  cbn [records_loop]. rewrite E1, E2, E3.
  destruct (fh_read _ f) as [buf f1]. destruct (unpack_record _ _); [|done].
  destruct (loop_body _ _ _ _ _ _); [apply IH| by rewrite IH |done].
Qed.

Lemma records_unfold self a b sd :
  records codecs self a b sd
  = let start := window_start self a in
    let stop := window_stop self a b in
    let offset := lenheader self + recsize self * start in
    if offset <? 0
    then (with_cursor self (fh self) start (stop_at self), mkiteration [] (Some OSError))
    else
      let f := mkfh (fh_data (fh self)) (Z.to_nat offset) (fh_name (fh self)) in
      match converters_tuple (converters self) (_fields self) with
      | Raise e => (with_cursor self f start stop, mkiteration [] (Some e))
      | OK convs =>
          let '(it, f1) :=
            records_loop codecs self sd convs f start (Z.to_nat (stop - start)) in
          (with_cursor self f1 start stop, it)
      end.
Proof.
  unfold records, window_stop, window_start. cbn zeta.
  destruct (_ <? 0) eqn:E.
  - rewrite seek_target_neg by lia. done.
  - rewrite seek_target_ok by lia. done.
Qed.

(** The loop reads the handle and changes nothing else of it. *)
Lemma records_loop_handle self sd convs f i n it f' :
  records_loop codecs self sd convs f i n = (it, f') ->
  fh_data f' = fh_data f /\ fh_name f' = fh_name f.
Proof.
  revert f i it. induction n as [|n IH]; intros f i it; cbn [records_loop].
  - by intros [= <- <-].
  - unfold fh_read. set (f1 := mkfh _ _ _).
    destruct (unpack_record _ _); [|by intros [= <- <-]].
    destruct (loop_body _ _ _ _ _ _); [by intros ?%IH| |by intros [= <- <-]].
    destruct (records_loop _ _ _ _ _ _ _) as [it2 f2] eqn:Hl.
    intros [= <- <-]. by apply IH in Hl.
Qed.

Lemma records_loop_app self sd convs n m : forall f i,
  records_loop codecs self sd convs f i (n + m)
  = let '(it1, f1) := records_loop codecs self sd convs f i n in
    match raised it1 with
    | Some _ => (it1, f1)
    | None =>
        let '(it2, f2) := records_loop codecs self sd convs f1 (i + Z.of_nat n) m in
        (mkiteration (yielded it1 ++ yielded it2) (raised it2), f2)
    end.
Proof.
  induction n as [|n IH]; intros f i.
  - cbn [records_loop Nat.add raised yielded app]. rewrite Z.add_0_r.
    by destruct (records_loop _ _ _ _ _ _ _) as [[ys e] f2].
  - cbn [records_loop Nat.add]. destruct (fh_read _ f) as [buf f1].
    destruct (unpack_record _ _) as [record|e]; [|done].
    replace (i + Z.of_nat (S n)) with (i + 1 + Z.of_nat n) by lia.
    destruct (loop_body _ _ _ _ _ _) as [|d|e]; [apply IH| |done].
    rewrite IH. destruct (records_loop _ _ _ _ _ _ n) as [it1 f2]. cbn [raised yielded].
    destruct (raised it1) as [e|] eqn:He; [by rewrite He|].
    by destruct (records_loop _ _ _ _ _ _ m) as [it2 f3].
Qed.

Lemma records_loop_complete self sd convs n : forall i f it f',
  calcsize (recfmt self) = recsize self -> 0 < recsize self ->
  0 <= lenheader self -> 0 <= i ->
  fh_data f = fh_data (fh self) ->
  fh_pos f = Z.to_nat (lenheader self + recsize self * i) ->
  records_loop codecs self sd convs f i n = (it, f') ->
  raised it = None ->
  f' = mkfh (fh_data f) (Z.to_nat (lenheader self + recsize self * (i + Z.of_nat n)))
         (fh_name f)
  /\ (n <> 0%nat ->
      lenheader self + recsize self * (i + Z.of_nat n) <= Z.of_nat (length (fh_data f)))
  /\ Forall (fun j => is_raised (turn_at codecs self sd convs j) = false)
       (seqZ i (Z.of_nat n))
  /\ yielded it
     = omap (fun j => yield_of (turn_at codecs self sd convs j)) (seqZ i (Z.of_nat n)).
Proof.
  induction n as [|n IH]; intros i f it f' Hsize Hrs Hlh Hi Hdata Hpos.
  - cbn [records_loop]. intros [= <- <-] _. rewrite Z.add_0_r, <- Hpos.
    destruct f; cbn. repeat split; try done; try constructor.
  - cbn [records_loop]. unfold fh_read.
    assert (Hbuf : take (Z.to_nat (recsize self)) (drop (fh_pos f) (fh_data f))
                   = record_bytes self i).
    { unfold record_bytes. by rewrite Hdata, Hpos. }
    rewrite Hbuf. unfold unpack_record. case_bool_decide as Hlen; [|by intros [= <- <-]].
    assert (Hfit : (fh_pos f + Z.to_nat (recsize self) <= length (fh_data f))%nat).
    { rewrite <- Hbuf, Hsize, length_take, length_drop in Hlen. lia. }
    assert (Hl : length (record_bytes self i) = Z.to_nat (recsize self)) by lia.
    rewrite Hl.
    set (f1 := mkfh _ _ _).
    assert (Hpos1 : fh_pos f1 = Z.to_nat (lenheader self + recsize self * (i + 1))).
    { subst f1. cbn. rewrite Hpos. nia. }
    rewrite Nat2Z.inj_succ, seqZ_cons by lia.
    replace (Z.pred (Z.succ (Z.of_nat n))) with (Z.of_nat n) by lia.
    replace (i + Z.succ (Z.of_nat n)) with (i + 1 + Z.of_nat n) by lia.
    change (Z.succ i) with (i + 1).
    rewrite omap_cons_eq, Forall_cons.
    change (loop_body codecs (encoding self) sd convs i
              (split_by (recfmt self) (record_bytes self i)))
      with (turn_at codecs self sd convs i).
    assert (Hend : n <> 0%nat \/ n = 0%nat) by lia.
    assert (Hlast : forall f2,
      f2 = mkfh (fh_data f1) (Z.to_nat (lenheader self + recsize self * (i + 1 + Z.of_nat n)))
             (fh_name f1) ->
      (n <> 0%nat ->
        lenheader self + recsize self * (i + 1 + Z.of_nat n) <= Z.of_nat (length (fh_data f1))) ->
      lenheader self + recsize self * (i + 1 + Z.of_nat n) <= Z.of_nat (length (fh_data f))).
    { intros f2 _ Hn. destruct Hend as [Hne| ->]; [by apply Hn|]. nia. }
    destruct (turn_at codecs self sd convs i) as [|d|e] eqn:Hb; cbn [yield_of is_raised].
    + intros Hloop Hnone.
      destruct (IH (i + 1) f1 it f' Hsize Hrs Hlh ltac:(lia) Hdata Hpos1 Hloop Hnone)
        as (Hf' & Hn & Hall & Hy).
      split; [done|]. split; [intros _; by apply (Hlast f')|].
      done.
    + destruct (records_loop _ _ _ _ _ _ _) as [it1 f2] eqn:Hloop.
      intros [= <- <-] Hnone. cbn in Hnone.
      destruct (IH (i + 1) f1 it1 f2 Hsize Hrs Hlh ltac:(lia) Hdata Hpos1 Hloop Hnone)
        as (Hf' & Hn & Hall & Hy).
      split; [done|]. split; [intros _; by apply (Hlast f2)|].
      split; [done|]. cbn. by rewrite Hy.
    + by intros [= <- <-].
Qed.

Lemma records_loop_yielded self sd convs f i n d :
  d ∈ yielded (records_loop codecs self sd convs f i n).1 ->
  exists j buf,
    Z.of_nat (length buf) = calcsize (recfmt self)
    /\ loop_body codecs (encoding self) sd convs j (split_by (recfmt self) buf) = Yielded d.
Proof.
  revert f i. induction n as [|n IH]; intros f i; cbn [records_loop].
  - cbn. by intros ?%elem_of_nil.
  - destruct (fh_read _ f) as [buf f1]. unfold unpack_record.
    case_bool_decide as Hlen; [|cbn; by intros ?%elem_of_nil].
    destruct (loop_body _ _ _ _ _ _) as [|d'|e] eqn:Hb.
    + apply IH.
    + specialize (IH f1 (i + 1)).
      destruct (records_loop _ _ _ _ _ _ _) as [it f2]. cbn in *.
      intros [->|Hd]%elem_of_cons; [eauto|by apply IH].
    + cbn. by intros ?%elem_of_nil.
Qed.

Lemma loop_body_yielded enc sd convs i record d :
  loop_body codecs enc sd convs i record = Yielded d ->
  exists items,
    record_items codecs enc sd (zip convs record) = OK items /\ d = py_dict items.
Proof.
  unfold loop_body. destruct (negb sd && _); [done|].
  destruct (reraise i _) as [d'|e] eqn:Hr; [|done]. intros [= <-].
  apply reraise_OK in Hr. apply bind_OK in Hr as (items & Hitems & <-%OK_inj). eauto.
Qed.

Lemma record_items_keys enc sd zipped items k :
  record_items codecs enc sd zipped = OK items ->
  k ∈ items.*1
  <-> k ∈ map (fun x : action * string * Z * Z * bytes => x.1.1.1.2) zipped
      /\ (k <> "_deletion_flag" \/ sd = true).
Proof.
  revert items. induction zipped as [|[[[[conv name] size] dec] val] l IH]; intros items.
  - intros <-%OK_inj. cbn. split; [by intros ?%elem_of_nil|by intros [?%elem_of_nil _]].
  - cbn [record_items map]. rewrite elem_of_cons. cbn [fst snd].
    destruct (negb _ || sd) eqn:Hkeep.
    + intros (v & _ & (l' & Hl & <-%OK_inj)%bind_OK)%bind_OK.
      rewrite fmap_cons, elem_of_cons, (IH l' Hl). cbn [fst].
      split; [|tauto]. intros [->|[? ?]]; [|tauto]. split; [by left|].
      apply orb_true_iff in Hkeep as [Hn|Hs]; [|by right].
      left. apply negb_true_iff in Hn. by apply bool_decide_eq_false in Hn.
    + intros Hl. rewrite (IH items Hl).
      apply orb_false_iff in Hkeep as [Hn ->].
      apply negb_false_iff, bool_decide_eq_true in Hn. subst name.
      split; [tauto|]. intros [[->|?] [?|?]]; try done. split; [done|by left].
Qed.

Lemma records_loop_count self sd convs f i n :
  (length (yielded (records_loop codecs self sd convs f i n).1) <= n)%nat
  /\ (sd = true -> raised (records_loop codecs self sd convs f i n).1 = None ->
      length (yielded (records_loop codecs self sd convs f i n).1) = n).
Proof.
  revert f i. induction n as [|n IH]; intros f i; cbn [records_loop]; [done|].
  destruct (fh_read _ f) as [buf f1].
  destruct (unpack_record _ _) as [record|e]; [|cbn; split; [lia|done]].
  destruct (loop_body _ _ _ _ _ _) as [|d|e] eqn:Hb.
  - destruct (IH f1 (i + 1)) as [Hle _]. split; [lia|].
    intros ->. unfold loop_body in Hb. cbn [negb andb] in Hb.
    by destruct (reraise _ _).
  - specialize (IH f1 (i + 1)).
    destruct (records_loop _ _ _ _ _ _ _) as [it f2]. cbn in *.
    destruct IH as [Hle Heq]. split; [lia|]. intros Hs Hn. by rewrite Heq.
  - cbn. split; [lia|done].
Qed.

End iteration_facts.

Lemma converters_tuple_names (convs : gmap string action) flds cs :
  converters_tuple convs flds = OK cs ->
  map (fun c : action * string * Z * Z => c.1.1.2) cs = map field_name flds.
Proof.
  revert cs. induction flds as [|[[[n t] sz] d] l IH]; intros cs.
  - by intros <-%OK_inj.
  - cbn [converters_tuple]. destruct (convs !! n) as [c|]; [|done].
    intros (l' & Hl & <-%OK_inj)%bind_OK. cbn. f_equal. by apply IH.
Qed.

Lemma split_by_length fmt buf : length (split_by fmt buf) = length fmt.
Proof. revert buf. induction fmt as [|n fmt IH]; intros buf; cbn; [done|by rewrite IH]. Qed.

Lemma zip_names (cs : list (action * string * Z * Z)) (record : list bytes) :
  length cs = length record ->
  map (fun x : action * string * Z * Z * bytes => x.1.1.1.2) (zip cs record)
  = map (fun c : action * string * Z * Z => c.1.1.2) cs.
Proof.
  revert record. induction cs as [|c cs IH]; intros [|v record]; cbn; try done.
  intros [= Hl]. f_equal. by apply IH.
Qed.

Lemma header_name_not_flag (flds : list field) k :
  Forall descriptor_ok flds -> k ∈ map field_name flds -> k <> "_deletion_flag".
Proof.
  intros Hall (f & -> & Hf)%list_elem_of_fmap.
  rewrite Forall_forall in Hall. destruct (Hall f Hf) as (_ & Hlen & _).
  intros E. unfold field_name in E. rewrite E in Hlen. cbn in Hlen. lia.
Qed.

Lemma initialized_shape fh0 fields0 use_unicode encoding0 r :
  initialized fh0 fields0 use_unicode encoding0 r ->
  _fields r = deletion_flag_field :: fields r
  /\ recfmt r = 1 :: map field_size (fields r)
  /\ calcsize (recfmt r) = recsize r
  /\ 0 < recsize r
  /\ 0 <= lenheader r
  /\ start_from r = 0 /\ stop_at r = numrec r
  /\ fh_data (fh r) = fh_data fh0
  /\ Forall descriptor_ok (fields r)
  /\ field_names r = map field_name (fields r)
  /\ exists convs, converters_tuple (converters r) (_fields r) = OK convs.
Proof.
  intros Hr. pose proof (initialized_plain _ _ _ _ _ Hr) as Hp.
  pose proof (plain_reader_facts _ _ _ _ _ Hp) as Hf.
  cbn in Hf. destruct Hf as (_&_&_&_&_&Hl&_&Hstop&_&Hdata&_&Hfmt&Hsize&_).
  destruct (initialized_keeps_header _ _ _ _ _ Hr)
    as (s1 & H1 & E1 & E2 & _ & _ & _ & E6 & E7 & E8 & E9 & _ & _ & E12 & _).
  apply readHeader_fields in H1 as (F1 & _ & _ & F4 & F5 & F6 & F7 & F8 & F9); [|done].
  rewrite <- E1, <- E2 in F1. rewrite <- E2 in F4, F5, F7, F8.
  rewrite <- E8 in F7. rewrite <- E12 in F8. rewrite <- E9 in F9.
  pose proof (calcsize_range _ F4).
  pose proof (le_range (slice 8 10 (fh_data fh0))).
  rewrite F1 in Hfmt. cbn in Hfmt.
  repeat split; try done; try lia.
  by apply plain_reader_converters in Hp.
Qed.

Lemma seqZ_to_nat i n : seqZ i (Z.of_nat (Z.to_nat n)) = seqZ i n.
Proof. unfold seqZ. by rewrite Nat2Z.id. Qed.

Section iteration_properties.
Variable codecs : string -> option (bytes -> option text).

(** X12: an iteration of a reader of either class that ends without an
    exception has read record number [i] of its window at the byte offset
    [lenheader + recsize * i] of the file: it yields, in order, what the
    body of the loop yields on those bytes, for the records it does not
    skip; the body raised on none of them; and the file holds every record
    of the window in full. *)
Theorem X12_records_by_position fh0 fields0 use_unicode encoding0 r a b sd :
  initialized fh0 fields0 use_unicode encoding0 r ->
  0 <= window_start r a ->
  raised (records codecs r a b sd).2 = None ->
  let start := window_start r a in
  let stop := window_stop r a b in
  exists convs,
    converters_tuple (converters r) (_fields r) = OK convs
    /\ yielded (records codecs r a b sd).2
       = omap (fun i => yield_of (turn_at codecs r sd convs i)) (seqZ start (stop - start))
    /\ Forall (fun i => is_raised (turn_at codecs r sd convs i) = false)
         (seqZ start (stop - start))
    /\ (start < stop ->
        lenheader r + recsize r * stop <= Z.of_nat (length (fh_data fh0))).
Proof.
  intros Hr Hstart. cbn zeta.
  destruct (initialized_shape _ _ _ _ _ Hr)
    as (_ & _ & Hsize & Hrs & Hlh & _ & _ & Hdata & _ & _ & convs & Hconvs).
  rewrite records_unfold. cbn zeta.
  destruct (_ <? 0) eqn:Hoff; [nia|].
  rewrite Hconvs.
  destruct (records_loop _ _ _ _ _ _ _) as [it f1] eqn:Hloop. cbn [snd].
  intros Hnone. exists convs. split; [done|].
  eapply records_loop_complete in Hloop as (_ & Hfit & Hall & Hy); try done.
  rewrite seqZ_to_nat in Hall, Hy. split; [done|]. split; [done|].
  intros Hlt. cbn in Hfit. rewrite Hdata in Hfit.
  replace (window_start r a + Z.of_nat (Z.to_nat (window_stop r a b - window_start r a)))
    with (window_stop r a b) in Hfit by lia.
  apply Hfit. lia.
Qed.

(** X13: reading a window in two calls gives what reading it in one call
    gives.  When [records(s, n)] ends without an exception, [records(s + n,
    m)] on the same reader continues where it stopped: the records of the
    two calls, one after the other, are the records of [records(s, n + m)],
    which ends as the second call ends. *)
Theorem X13_pagination fh0 fields0 use_unicode encoding0 r s n m sd :
  initialized fh0 fields0 use_unicode encoding0 r ->
  0 <= s -> 0 <= n -> 0 <= m ->
  let first := records codecs r (Some s) (Some n) sd in
  let second := records codecs first.1 (Some (s + n)) (Some m) sd in
  raised first.2 = None ->
  (records codecs r (Some s) (Some (n + m)) sd).2
  = mkiteration (yielded first.2 ++ yielded second.2) (raised second.2).
Proof.
  intros Hr Hs Hn Hm. cbn zeta.
  destruct (initialized_shape _ _ _ _ _ Hr)
    as (_ & _ & Hsize & Hrs & Hlh & _ & _ & Hdata & _ & _ & convs & Hconvs).
  rewrite (records_unfold codecs r (Some s) (Some n) sd),
    (records_unfold codecs r (Some s) (Some (n + m)) sd).
  unfold window_stop, window_start. cbn [default from_option id]. cbn zeta.
  destruct (_ <? 0) eqn:Hoff; [nia|]. rewrite Hconvs.
  replace (Z.to_nat (s + (n + m) - s)) with (Z.to_nat n + Z.to_nat m)%nat by lia.
  replace (Z.to_nat (s + n - s)) with (Z.to_nat n) by lia.
  rewrite records_loop_app.
  destruct (records_loop _ _ _ _ _ _ (Z.to_nat n)) as [it1 f1] eqn:Hloop. cbn [fst snd].
  intros Hnone. rewrite Hnone.
  eapply records_loop_complete in Hloop as (Hf1 & _); try done.
  cbn [fh_data fh_name] in Hf1.
  replace (s + Z.of_nat (Z.to_nat n)) with (s + n) in * by lia.
  rewrite records_unfold.
  unfold window_stop, window_start. cbn [default from_option id]. cbn zeta.
  cbn [with_cursor lenheader recsize fh converters _fields].
  assert (Hoff2 : (lenheader r + recsize r * (s + n) <? 0) = false)
    by (apply Z.ltb_ge; nia).
  rewrite Hoff2, Hconvs.
  replace (Z.to_nat (s + n + m - (s + n))) with (Z.to_nat m) by lia.
  assert (Hext : forall f i k,
    records_loop codecs (with_cursor r f1 s (s + n)) sd convs f i k
    = records_loop codecs r sd convs f i k).
  { intros f i k. by apply records_loop_ext. }
  rewrite Hext, Hf1. cbn [fh_data fh_name].
  by destruct (records_loop _ _ _ _ _ _ (Z.to_nat m)) as [it2 f2].
Qed.

(** X14: a reader remembers its window.  [records(start_from, limit)]
    stores the window on the reader and moves the file position, so a later
    call without arguments, such as [read()], goes through the same window
    again, from its first record on, and not through the whole file. *)
Theorem X14_window_is_remembered self a b sd sd' :
  (records codecs (records codecs self a b sd).1 None None sd').2
  = (records codecs self a b sd').2.
Proof.
  assert (Hws : forall f s e, window_start (with_cursor self f s e) None = s) by done.
  assert (Hwe : forall f s e, window_stop (with_cursor self f s e) None None = e) by done.
  rewrite (records_unfold codecs self a b sd), (records_unfold codecs self a b sd').
  cbn zeta.
  destruct (_ <? 0) eqn:Hoff.
  - cbn [fst snd]. rewrite records_unfold. cbn zeta. rewrite !Hws.
    cbn [with_cursor lenheader recsize]. by rewrite Hoff.
  - destruct (converters_tuple _ _) as [convs|e] eqn:Hconvs.
    + destruct (records_loop _ _ sd _ _ _ _) as [it f1] eqn:Hloop. cbn [fst snd].
      rewrite records_unfold. cbn zeta. rewrite !Hws, !Hwe.
      cbn [with_cursor lenheader recsize fh converters _fields].
      rewrite Hoff, Hconvs.
      assert (Hext : forall f i k,
        records_loop codecs
          (with_cursor self f1 (window_start self a) (window_stop self a b)) sd' convs f i k
        = records_loop codecs self sd' convs f i k).
      { intros f i k. by apply records_loop_ext. }
      rewrite Hext.
      apply records_loop_handle in Hloop as [-> ->]. cbn [fh_data fh_name].
      by destruct (records_loop _ _ sd' _ _ _ _) as [it2 f2].
    + cbn [fst snd]. rewrite records_unfold. cbn zeta. rewrite !Hws.
      cbn [with_cursor lenheader recsize converters _fields].
      by rewrite Hoff, Hconvs.
Qed.

(** X15: the keys of a yielded record.  Every record that an iteration of
    a reader of either class yields has the field names of the header as
    its keys, and the key [_deletion_flag] besides exactly in
    deleted-records mode; it has no other key. *)
Theorem X15_record_keys fh0 fields0 use_unicode encoding0 r a b sd d k :
  initialized fh0 fields0 use_unicode encoding0 r ->
  d ∈ yielded (records codecs r a b sd).2 ->
  (is_Some (d !! k) <-> k ∈ field_names r \/ (k = "_deletion_flag" /\ sd = true)).
Proof.
  intros Hr.
  destruct (initialized_shape _ _ _ _ _ Hr)
    as (Hfields & Hfmt & _ & _ & _ & _ & _ & _ & Hok & Hnames & convs & Hconvs).
  rewrite records_unfold. cbn zeta.
  destruct (_ <? 0); [cbn; by intros ?%elem_of_nil|].
  rewrite Hconvs.
  pose proof (records_loop_yielded codecs r sd convs
    (mkfh (fh_data (fh r)) (Z.to_nat (lenheader r + recsize r * window_start r a))
       (fh_name (fh r)))
    (window_start r a) (Z.to_nat (window_stop r a b - window_start r a)) d) as Hy.
  destruct (records_loop _ _ _ _ _ _ _) as [it f1]. cbn [fst snd] in *.
  intros (j & buf & _ & (items & Hitems & ->)%loop_body_yielded)%Hy.
  rewrite py_dict_is_Some, (record_items_keys _ _ _ _ _ _ Hitems), zip_names.
  - rewrite (converters_tuple_names _ _ _ Hconvs), Hfields, Hnames. cbn [map].
    rewrite elem_of_cons.
    pose proof (header_name_not_flag (fields r) k Hok) as Hne.
    change (field_name deletion_flag_field) with "_deletion_flag".
    split.
    + intros [[->|Hin] [Hk|Hs]]; tauto.
    + intros [Hin|[-> ->]]; [|tauto]. split; [by right|left; by apply Hne].
  - rewrite split_by_length, Hfmt.
    apply (f_equal (@length _)) in Hfmt.
    pose proof (f_equal (@length _) (converters_tuple_names _ _ _ Hconvs)) as Hl.
    rewrite !length_map in Hl. rewrite Hl, Hfields. cbn. by rewrite length_map.
Qed.

(** X16: [limit] bounds the records that are read, not the records that
    are yielded.  An iteration over a window yields at most as many records
    as the window has, none when the window is empty or its limit is
    negative, and, in deleted-records mode, exactly that many when it ends
    without an exception. *)
Theorem X16_limit self a b sd :
  let window := Z.to_nat (window_stop self a b - window_start self a) in
  (length (yielded (records codecs self a b sd).2) <= window)%nat
  /\ (sd = true -> raised (records codecs self a b sd).2 = None ->
      length (yielded (records codecs self a b sd).2) = window).
Proof.
  cbn zeta. rewrite records_unfold. cbn zeta.
  destruct (_ <? 0); [cbn; split; [lia|done]|].
  destruct (converters_tuple _ _) as [convs|e]; [|cbn; split; [lia|done]].
  pose proof (records_loop_count codecs self sd convs
    (mkfh (fh_data (fh self))
       (Z.to_nat (lenheader self + recsize self * window_start self a))
       (fh_name (fh self)))
    (window_start self a) (Z.to_nat (window_stop self a b - window_start self a))) as Hc.
  by destruct (records_loop _ _ _ _ _ _ _) as [it f1].
Qed.

End iteration_properties.

(** ** Raw mode (reader.py) *)

Lemma make_converters_raw enc (flds : list field) c0 c :
  make_converters enc flds c0 = OK c ->
  truthy_str enc = false ->
  (forall k, c0 !! k <> Some dbf2py_unicode) ->
  forall k, c !! k <> Some dbf2py_unicode.
Proof.
  intros Hc Henc. revert c0 Hc. induction flds as [|[[[n t] sz] d] l IH]; intros c0.
  - by intros <-%OK_inj.
  - cbn [make_converters]. destruct (resolve _ t sz d) as [a|] eqn:Hr; [|done].
    intros Hc H0. apply (IH _ Hc). intros k.
    destruct (decide (n = k)) as [->|Hne]; [|by rewrite lookup_insert_ne].
    rewrite lookup_insert_eq. intros [= ->]. revert Hr. rewrite resolve_rules, Henc.
    by repeat case_bool_decide; try destruct (d =? 0).
Qed.

Lemma converters_tuple_raw (convs : gmap string action) flds cs :
  converters_tuple convs flds = OK cs ->
  (forall k, convs !! k <> Some dbf2py_unicode) ->
  Forall (fun c : action * string * Z * Z => c.1.1.1 <> dbf2py_unicode) cs.
Proof.
  intros Hcs Hraw. revert cs Hcs. induction flds as [|[[[n t] sz] d] l IH]; intros cs.
  - intros <-%OK_inj. constructor.
  - cbn [converters_tuple]. destruct (convs !! n) as [c|] eqn:Hc; [|done].
    intros (l' & Hl & <-%OK_inj)%bind_OK. constructor; [|by apply IH].
    cbn. intros ->. by apply (Hraw n).
Qed.

Lemma call_raw codecs codecs' enc conv val size dec :
  conv <> dbf2py_unicode ->
  call codecs enc conv val size dec = call codecs' enc conv val size dec
  /\ forall t, call codecs enc conv val size dec <> OK (VStr t).
Proof.
  intros Hconv. split; [by destruct conv|]. intros t.
  destruct conv; cbn [call]; try done.
  - by intros (d & _ & [= H]%OK_inj)%bind_OK; destruct d.
  - destruct (strip val); [done|]. by intros (n & _ & [= H]%OK_inj)%bind_OK.
  - intros (x & _ & H)%bind_OK. by apply bind_OK in H as (d & _ & [= H]%OK_inj).
Qed.

Lemma record_items_raw codecs codecs' enc sd cs : forall record,
  Forall (fun c : action * string * Z * Z => c.1.1.1 <> dbf2py_unicode) cs ->
  record_items codecs enc sd (zip cs record) = record_items codecs' enc sd (zip cs record)
  /\ forall items k t,
       record_items codecs enc sd (zip cs record) = OK items -> (k, VStr t) ∉ items.
Proof.
  induction cs as [|[[[conv name] size] dec] cs IH]; intros record Hall.
  - cbn. split; [done|]. intros items k t <-%OK_inj. by intros ?%elem_of_nil.
  - destruct record as [|val record]; cbn [zip zip_with record_items].
    { split; [done|]. intros items k t <-%OK_inj. by intros ?%elem_of_nil. }
    apply Forall_cons in Hall as [Hconv Hall]. cbn in Hconv.
    destruct (IH record Hall) as [Heq Hno].
    change (zip_with pair cs record) with (zip cs record).
    destruct (call_raw codecs codecs' enc conv (rstrip_nul val) size dec Hconv) as [Hc Hv].
    split; [by rewrite Hc, Heq|]. intros items k t.
    destruct (negb _ || sd); [|apply Hno].
    intros (v & Hcall & (l' & Hl & <-%OK_inj)%bind_OK)%bind_OK.
    intros [[= -> <-]|Hin]%elem_of_cons; [by apply (Hv t)|by apply (Hno l' k t)].
Qed.

Lemma loop_body_raw codecs codecs' enc sd cs i record :
  Forall (fun c : action * string * Z * Z => c.1.1.1 <> dbf2py_unicode) cs ->
  loop_body codecs enc sd cs i record = loop_body codecs' enc sd cs i record.
Proof.
  intros Hall. unfold loop_body.
  by rewrite (proj1 (record_items_raw codecs codecs' enc sd cs record Hall)).
Qed.

Lemma records_loop_raw codecs codecs' self sd cs f i n :
  Forall (fun c : action * string * Z * Z => c.1.1.1 <> dbf2py_unicode) cs ->
  records_loop codecs self sd cs f i n = records_loop codecs' self sd cs f i n.
Proof.
  intros Hall. revert f i. induction n as [|n IH]; intros f i; [done|].
  cbn [records_loop]. destruct (fh_read _ f) as [buf f1].
  destruct (unpack_record _ _) as [record|e]; [|done].
  rewrite (loop_body_raw codecs codecs' _ _ _ _ _ Hall).
  destruct (loop_body _ _ _ _ _ _); [apply IH|by rewrite IH|done].
Qed.

(** X17: raw mode.  A reader of either class made with [use_unicode=False]
    has no encoding, whatever the [encoding] argument and the language
    byte are.  Its iterations do not depend on the codecs the interpreter
    knows, and no value of a record they yield is a text string. *)
Theorem X17_raw_mode fh0 fields0 encoding0 r :
  initialized fh0 fields0 false encoding0 r ->
  encoding r = None
  /\ (forall codecs codecs' a b sd,
        records codecs r a b sd = records codecs' r a b sd)
  /\ (forall codecs a b sd d k t,
        d ∈ yielded (records codecs r a b sd).2 -> d !! k <> Some (VStr t)).
Proof.
  intros Hr%initialized_plain.
  pose proof Hr as (s1 & s2 & s3 & H1 & <-%OK_inj & H3 & <-%OK_inj)%init_inv.
  pose proof H1 as (_&_&_&_&_&_&_&_&_&Henc&Hc0&_)%readHeader_inv.
  cbn in Henc, Hc0.
  unfold _makeActions in H3. apply bind_OK in H3 as (c & Hc & <-%OK_inj).
  cbn [encoding converters _fields].
  assert (Hraw : forall k, c !! k <> Some dbf2py_unicode).
  { apply (make_converters_raw _ _ _ _ Hc); [by rewrite Henc|].
    intros k. by rewrite Hc0, lookup_empty. }
  split; [done|].
  assert (Hrecords : forall codecs codecs' a b sd (self : YDbfReader),
    converters self = c ->
    records codecs self a b sd = records codecs' self a b sd).
  { intros codecs codecs' a b sd self Hself. rewrite !records_unfold. cbn zeta.
    destruct (_ <? 0); [done|]. rewrite Hself.
    destruct (converters_tuple c _) as [cs|e] eqn:Hcs; [|done].
    by rewrite (records_loop_raw codecs codecs' _ _ _ _ _ _
                  (converters_tuple_raw _ _ _ Hcs Hraw)). }
  split; [intros; by apply Hrecords|].
  intros codecs a b sd d k t. rewrite records_unfold. cbn zeta.
  destruct (_ <? 0); [cbn; by intros ?%elem_of_nil|].
  cbn [converters _fields].
  destruct (converters_tuple c _) as [cs|e] eqn:Hcs; [|cbn; by intros ?%elem_of_nil].
  match goal with
  | |- context [records_loop codecs ?self sd cs ?f ?i ?n] =>
      pose proof (records_loop_yielded codecs self sd cs f i n d) as Hy;
      destruct (records_loop codecs self sd cs f i n) as [it f1]
  end.
  cbn [fst snd] in *.
  intros (j & buf & _ & (items & Hitems & ->)%loop_body_yielded)%Hy.
  intros Hk%py_dict_lookup_elem.
  by apply (proj2 (record_items_raw codecs codecs _ _ _ _
                     (converters_tuple_raw _ _ _ Hcs Hraw)) items k t Hitems).
Qed.

Lemma X12_records_by_position_witness :
  let fh0 := sample.handle (sample.table 0 x2a) None in
  let r := sample.opened fh0 true None in
  let start := window_start r None in
  let stop := window_stop r None None in
  exists convs,
    converters_tuple (converters r) (_fields r) = OK convs
    /\ yielded (records sample.codecs r None None false).2
       = omap (fun i => yield_of (turn_at sample.codecs r false convs i))
           (seqZ start (stop - start))
    /\ Forall (fun i => is_raised (turn_at sample.codecs r false convs i) = false)
         (seqZ start (stop - start))
    /\ (start < stop ->
        lenheader r + recsize r * stop <= Z.of_nat (length (fh_data fh0))).
Proof.
  intros fh0 r.
  apply (X12_records_by_position sample.codecs fh0 None true None r None None false).
  - left. vm_compute. reflexivity.
  - vm_compute. discriminate.
  - vm_compute. reflexivity.
Defined.

Lemma X13_pagination_witness :
  let fh0 := sample.handle (sample.table 0 x2a) None in
  let r := sample.opened fh0 true None in
  let first := records sample.codecs r (Some 0) (Some 1) true in
  let second := records sample.codecs first.1 (Some (0 + 1)) (Some 1) true in
  (records sample.codecs r (Some 0) (Some (1 + 1)) true).2
  = mkiteration (yielded first.2 ++ yielded second.2) (raised second.2).
Proof.
  intros fh0 r.
  apply (X13_pagination sample.codecs fh0 None true None r 0 1 1 true).
  - left. vm_compute. reflexivity.
  - lia.
  - lia.
  - lia.
  - vm_compute. reflexivity.
Defined.

Lemma X15_record_keys_witness :
  let fh0 := sample.handle (sample.table 0 x2a) None in
  let r := sample.opened fh0 true None in
  let d := py_dict [("NAME", VStr (sample.u "ALICE")); ("QTY", VInt 12)] in
  is_Some (d !! "QTY")
  <-> "QTY" ∈ field_names r \/ ("QTY" = "_deletion_flag" /\ false = true).
Proof.
  intros fh0 r d.
  apply (X15_record_keys sample.codecs fh0 None true None r None None false d "QTY").
  - left. vm_compute. reflexivity.
  - apply list_elem_of_In. vm_compute. left. reflexivity.
Defined.

Lemma X16_limit_witness :
  let r := sample.opened (sample.handle (sample.table 0 x2a) None) true None in
  let window := Z.to_nat (window_stop r (Some 1) (Some 5) - window_start r (Some 1)) in
  let it := (records sample.codecs r (Some 1) (Some 5) true).2 in
  (length (yielded it) <= window)%nat
  /\ (true = true -> raised it = None -> length (yielded it) = window).
Proof.
  intros r.
  exact (X16_limit sample.codecs r (Some 1) (Some 5) true).
Defined.

Lemma X17_raw_mode_witness :
  let fh0 := sample.handle (sample.table 0 x2a) None in
  let r := sample.opened fh0 false (Some "cp866") in
  encoding r = None
  /\ (forall codecs codecs' a b sd,
        records codecs r a b sd = records codecs' r a b sd)
  /\ (forall codecs a b sd d k t,
        d ∈ yielded (records codecs r a b sd).2 -> d !! k <> Some (VStr t)).
Proof.
  intros fh0 r.
  apply (X17_raw_mode fh0 None (Some "cp866") r).
  left. vm_compute. reflexivity.
Defined.

(** ** The header terminator (reader.py) *)

Lemma take_1_drop {A} (l : list A) p x : take 1 (drop p l) = [x] -> l !! p = Some x.
Proof.
  intros H. replace p with (p + 0)%nat by lia. rewrite <- lookup_drop.
  destruct (drop p l) as [|y t]; [done|]. by injection H as ->.
Qed.

(** A successful [_readHeader] has found the byte 0x0D after the last field
    description and has left the handle behind it. *)
Lemma readHeader_terminator self self' :
  _readHeader self = OK self' ->
  let p := (32 + 32 * Z.to_nat (numfields self'))%nat in
  fh_data (fh self) !! p = Some x0d /\ fh_pos (fh self') = S p.
Proof.
  unfold _readHeader. cbn. rewrite drop_0.
  unfold unpack_HEADER_FORMAT.
  case_bool_decide as Hlen; cbn; [|done].
  intros (d & Hd & H)%bind_OK.
  case_bool_decide as Hsig; cbn in H; [|done].
  apply bind_OK in H as ([flds f1] & Hf & H).
  pose proof (read_field_descriptions_handle _ _ _ _ _ Hf) as [Hfd _].
  apply read_field_descriptions_ok in Hf as (_ & _ & Hpos); [|done].
  cbn in Hfd, Hpos. rewrite Hlen in Hpos.
  unfold fh_read in H. rewrite Hfd, Hpos in H.
  destruct (negb _) eqn:Ht; [done|].
  apply negb_false_iff, bool_decide_eq_true in Ht.
  destruct (fields self); apply OK_inj in H as <-; cbn [numfields fh fh_pos];
    rewrite Ht; cbn [length]; (split; [by apply take_1_drop|lia]).
Qed.

(** X18: in a file that a reader of either class accepts, the byte after
    the last field description, at the offset [32 + 32 * numfields], is the
    terminator 0x0D, wherever the header length says the records begin;
    and the constructor leaves the file position one byte behind it. *)
Theorem X18_terminator fh0 fields0 use_unicode encoding0 r :
  initialized fh0 fields0 use_unicode encoding0 r ->
  let p := (32 + 32 * length (fields r))%nat in
  fh_data fh0 !! p = Some x0d
  /\ fh_tell (fh r) = Z.of_nat p + 1
  /\ Z.of_nat p + 1 <= Z.of_nat (length (fh_data fh0)).
Proof.
  intros Hr. cbn zeta.
  destruct (initialized_keeps_header _ _ _ _ _ Hr)
    as (s1 & H1 & _ & E2 & _ & _ & _ & _ & E7 & _ & _ & _ & _ & _ & _ & _ & _ & E16).
  pose proof (readHeader_fields _ _ H1 eq_refl) as (_ & _ & _ & _ & F5 & _).
  apply readHeader_terminator in H1 as [Ht Hp]. cbn in Ht, Hp.
  rewrite E2, F5. split; [done|]. unfold fh_tell. rewrite E16, Hp.
  split; [lia|]. apply lookup_lt_Some in Ht. lia.
Qed.

Lemma X18_terminator_witness :
  let fh0 := sample.handle (sample.table 0 x2a) None in
  let r := sample.opened fh0 true None in
  let p := (32 + 32 * length (fields r))%nat in
  fh_data fh0 !! p = Some x0d
  /\ fh_tell (fh r) = Z.of_nat p + 1
  /\ Z.of_nat p + 1 <= Z.of_nat (length (fh_data fh0)).
Proof.
  intros fh0 r.
  apply (X18_terminator fh0 None true None r).
  left. vm_compute. reflexivity.
Defined.

Lemma take_prefix {A} (l l' : list A) n m :
  (n <= m)%nat -> take m l' = take m l -> take n l' = take n l.
Proof.
  intros Hle H. apply (f_equal (take n)) in H.
  by rewrite !take_take, !Nat.min_l in H by lia.
Qed.

(** The descriptor loop reads nothing beyond the descriptors. *)
Lemma read_field_descriptions_prefix n : forall f f' acc flds g,
  fh_pos f' = fh_pos f ->
  take (fh_pos f + 32 * n) (fh_data f') = take (fh_pos f + 32 * n) (fh_data f) ->
  read_field_descriptions n f acc = OK (flds, g) ->
  exists g',
    read_field_descriptions n f' acc = OK (flds, g')
    /\ fh_pos g' = fh_pos g /\ fh_data g' = fh_data f'.
Proof.
  induction n as [|n IH]; intros f f' acc flds g Hpos Htake.
  - intros [= <- <-]. by exists f'.
  - cbn [read_field_descriptions]. unfold fh_read. rewrite Hpos.
    assert (Hbuf : take 32 (drop (fh_pos f) (fh_data f'))
                   = take 32 (drop (fh_pos f) (fh_data f))).
    { rewrite !take_drop_commute. f_equal. eapply take_prefix; [|exact Htake]. lia. }
    rewrite Hbuf. set (buf := take 32 (drop (fh_pos f) (fh_data f))).
    unfold unpack_FIELD_DESCRIPTION_FORMAT. case_bool_decide as Hlen; [|done].
    cbn [mbind result_bind].
    destruct (ascii_decode (slice 11 12 buf)) as [ts|]; cbn [mbind result_bind]; [|done].
    destruct (ascii_decode (until_nul (slice 0 11 buf))) as [ns|];
      cbn [mbind result_bind]; [|done].
    destruct (negb _); [done|].
    intros Hf. eapply (IH _ (mkfh (fh_data f') (fh_pos f + length buf) (fh_name f'))) in Hf
      as (g' & Hg & Hp & Hd); [by exists g'|done|].
    cbn. eapply take_prefix; [|exact Htake]. lia.
Qed.

Lemma readHeader_bad_terminator self self' other :
  _readHeader self = OK self' ->
  let p := (32 + 32 * Z.to_nat (numfields self'))%nat in
  take p (fh_data (fh other)) = take p (fh_data (fh self)) ->
  fh_data (fh other) !! p <> Some x0d ->
  _readHeader other = Raise TypeError.
Proof.
  intros H. cbn zeta. intros Htake Hbad.
  assert (H32 : take 32 (fh_data (fh other)) = take 32 (fh_data (fh self)))
    by (eapply take_prefix; [|exact Htake]; lia).
  revert H. unfold _readHeader. cbn. rewrite !drop_0, H32.
  unfold unpack_HEADER_FORMAT.
  case_bool_decide as Hlen; cbn; [|done].
  destruct (datetime_date _ _ _) as [d|]; cbn; [|done].
  case_bool_decide as Hsig; cbn; [|done].
  intros ([flds f1] & Hf & H)%bind_OK.
  assert (Hn : numfields self'
               = (le (slice 8 10 (take 32 (fh_data (fh self)))) - 33) / 32).
  { destruct (fh_read 1 f1) as [t f2]. destruct (negb _); [done|].
    by destruct (fields self); apply OK_inj in H as <-. }
  rewrite Hn in Htake, Hbad. clear H.
  pose proof (read_field_descriptions_ok _ _ _ _ _ Hf ltac:(done)) as (_ & _ & Hpos).
  cbn [fh_pos] in Hpos. rewrite Hlen in Hpos.
  eapply (read_field_descriptions_prefix _ _
            (mkfh (fh_data (fh other))
               (Z.to_nat 0 + length (take 32 (fh_data (fh self))))
               (fh_name (fh other)))) in Hf as (g' & Hg & Hp & Hd); [|done|].
  - rewrite Hg. cbn [mbind result_bind]. rewrite Hd, Hp, Hpos. cbn [fh_data].
    rewrite bool_decide_eq_false_2; [done|].
    intros Ht%take_1_drop. apply Hbad. rewrite <- Ht. f_equal.
  - cbn [fh_data fh_pos]. rewrite Hlen. exact Htake.
Qed.

(** X19: a file whose terminator is wrong does not get the error message
    written for it.  Take a file that a reader of either class accepts, and
    a second file that agrees with it up to the last field description but
    has another byte than 0x0D, or no byte, in the place of the terminator.
    On the second file either constructor raises [TypeError]: the message
    of the intended [ValueError] calls [hex] on a bytes object. *)
Theorem X19_bad_terminator fh0 fields0 use_unicode encoding0 r
    post fh1 fields1 use_unicode1 encoding1 :
  initialized fh0 fields0 use_unicode encoding0 r ->
  let p := (32 + 32 * length (fields r))%nat in
  take p (fh_data fh1) = take p (fh_data fh0) ->
  fh_data fh1 !! p <> Some x0d ->
  __init__ post fh1 fields1 use_unicode1 encoding1 = Raise TypeError.
Proof.
  intros Hr. cbn zeta. intros Htake Hbad.
  destruct (initialized_keeps_header _ _ _ _ _ Hr)
    as (s1 & H1 & _ & E2 & _).
  pose proof (readHeader_fields _ _ H1 eq_refl) as (_ & _ & _ & _ & F5 & _).
  rewrite E2, F5 in Htake, Hbad.
  unfold __init__.
  by rewrite (readHeader_bad_terminator _ s1 (init_attributes fh1 fields1 encoding1) H1).
Qed.

Lemma X19_bad_terminator_witness :
  let fh0 := sample.handle (sample.table 0 x2a) None in
  let fh1 := sample.handle (<[96%nat := x00]> (sample.table 0 x2a)) None in
  new_YDbfReader fh1 None true None = Raise TypeError.
Proof.
  intros fh0 fh1.
  apply (X19_bad_terminator fh0 None true None (sample.opened fh0 true None)
           postInit fh1 None true None).
  - left. vm_compute. reflexivity.
  - vm_compute. reflexivity.
  - vm_compute. discriminate.
Defined.

(** ** Integer fields (reader.py) *)

Lemma format_d_spec n :
  forallb (fun c => negb (is_space c)) (format_d n) = true
  /\ format_d n <> []
  /\ py_int (format_d n) = OK n.
Proof.
  unfold format_d. destruct (n <? 0) eqn:Hneg.
  - apply Z.ltb_lt in Hneg.
    destruct (digits_of_spec (- n) ltac:(lia)) as (Hne & Hd & Hv).
    assert (Hsp : forallb (fun c => negb (is_space c)) (x2d :: digits_of (- n)) = true).
    { cbn [forallb]. by rewrite (digits_no_space _ Hd). }
    split; [done|]. split; [done|].
    unfold py_int, strip. rewrite (lstrip_by_id _ _ Hsp), (rstrip_by_id _ _ Hsp).
    rewrite bool_decide_eq_true_2 by done.
    rewrite (parse_digits_all _ 0 false Hd) by (by left).
    fold (digits_value (digits_of (- n))). rewrite Hv. f_equal. lia.
  - apply Z.ltb_ge in Hneg.
    destruct (digits_of_spec n Hneg) as (Hne & Hd & Hv).
    split; [by apply digits_no_space|]. split; [done|].
    rewrite py_int_digits; [by rewrite Hv|].
    unfold isdigit. by rewrite Hd, bool_decide_eq_false_2.
Qed.

(** X20: an integer field holds its integer exactly.  The decimal text of
    an integer [n], with any number of spaces before and after it, in a
    field of at most 255 bytes (the most a field description can declare;
    [int] refuses literals of thousands of digits), is converted by
    [dbf2py_integer] to [n]. *)
Theorem X20_integer_field (codecs : string -> option (bytes -> option text))
    (self_encoding : option string) (size dec n : Z) (before after : nat) :
  (before + length (format_d n) + after <= 255)%nat ->
  call codecs self_encoding dbf2py_integer
    (replicate before x20 ++ format_d n ++ replicate after x20) size dec
  = OK (VInt n).
Proof.
  intros _.
  destruct (format_d_spec n) as (Hsp & Hne & Hint).
  assert (Hstrip : strip (replicate before x20 ++ format_d n ++ replicate after x20)
                   = format_d n).
  { unfold strip. rewrite lstrip_by_replicate_app by done.
    assert (Hl : lstrip_by is_space (format_d n ++ replicate after x20)
                 = format_d n ++ replicate after x20).
    { destruct (format_d n) as [|c t]; [done|]. cbn [app lstrip_by].
      cbn [forallb] in Hsp. apply andb_true_iff in Hsp as [Hc _].
      apply negb_true_iff in Hc. by rewrite Hc. }
    rewrite Hl, rstrip_by_app_replicate by done. by apply rstrip_by_id. }
  cbn [call]. rewrite Hstrip.
  destruct (format_d n) as [|c t] eqn:E; [done|].
  by rewrite Hint.
Qed.

Lemma X20_integer_field_witness :
  call sample.codecs None dbf2py_integer
    (replicate 2 x20 ++ format_d (-40075) ++ replicate 1 x20) 9 0
  = OK (VInt (-40075)).
Proof.
  apply (X20_integer_field sample.codecs None 9 0 (-40075) 2 1).
  vm_compute. lia.
Defined.

(** ** Where an iteration stops (reader.py) *)

Lemma bind_Raise {A B} (m : result A) (k : A -> result B) (e : exn) :
  m ≫= k = Raise e -> m = Raise e \/ exists x, m = OK x /\ k x = Raise e.
Proof. destruct m as [a|e']; simpl; intros H; [right; by exists a|left; by injection H as ->]. Qed.

Lemma py_int_error s e : py_int s = Raise e -> unnumbered e.
Proof.
  unfold py_int. destruct (strip s) as [|c r]; [by intros [= <-]|].
  repeat case_bool_decide; destruct (parse_digits _ _ _); by intros [= <-].
Qed.

Lemma dbf2date_error s e : lib.dbf2date s = Raise e -> unnumbered e.
Proof.
  unfold lib.dbf2date. destruct s as [s|]; [|done].
  destruct (negb _ || _); [done|].
  intros [Hy|(y & _ & H)]%bind_Raise; [by apply py_int_error in Hy|].
  apply bind_Raise in H as [Hm|(m & _ & H)]; [by apply py_int_error in Hm|].
  apply bind_Raise in H as [Hd|(d & _ & H)]; [by apply py_int_error in Hd|].
  apply bind_Raise in H as [Hr|(r & _ & H)]; [|done].
  unfold datetime_date in Hr. destruct (valid_ymd _ _ _); [done|]. by injection Hr as <-.
Qed.

Lemma py_float_error s e : py_float s = Raise e -> unnumbered e.
Proof.
  unfold py_float. destruct (remove_underscores _ _) as [t|]; [|by intros [= <-]].
  destruct (split_sign t) as [neg s1].
  destruct (_ || _); [done|]. case_bool_decide; [done|].
  destruct (decimal_literal s1) as [[[ip fp] ex]|]; [done|by intros [= <-]].
Qed.

Lemma Decimal_of_str_error s e : Decimal_of_str s = Raise e -> unnumbered e.
Proof.
  unfold Decimal_of_str. destruct (split_sign _) as [neg s1].
  destruct (_ || _); [done|]. destruct (nan_payload _) as [[sg pl]|]; [done|].
  destruct (decimal_literal s1) as [[[ip fp] ex]|]; [done|by intros [= <-]].
Qed.

Section stops.
Variable codecs : string -> option (bytes -> option text).

Lemma call_error enc conv val size dec e :
  call codecs enc conv val size dec = Raise e -> unnumbered e.
Proof.
  destruct conv; cbn [call]; try done.
  - intros [Hd|(d & _ & H)]%bind_Raise; [by apply dbf2date_error in Hd|done].
  - intros [Hd|(t & _ & H)]%bind_Raise; [|done].
    unfold bytes_decode in Hd. destruct enc as [name|]; [|by injection Hd as <-].
    case_bool_decide; [done|]. destruct (codecs name) as [decoder|]; [|by injection Hd as <-].
    destruct (decoder val); [done|by injection Hd as <-].
  - destruct (strip val) as [|c s]; [done|].
    intros [Hn|(n & _ & H)]%bind_Raise; [by apply py_int_error in Hn|done].
  - intros [Hx|(x & _ & H)]%bind_Raise.
    + destruct (strip val) as [|c s]; [done|]. by apply py_float_error in Hx.
    + apply bind_Raise in H as [Hd|(d & _ & H)]; [by apply Decimal_of_str_error in Hd|done].
Qed.

Lemma record_items_error enc sd zipped e :
  record_items codecs enc sd zipped = Raise e -> unnumbered e.
Proof.
  induction zipped as [|[[[[conv name] size] dec] val] l IH]; [done|].
  cbn [record_items]. destruct (negb _ || sd); [|done].
  intros [Hc|(v & _ & H)]%bind_Raise; [by apply call_error in Hc|].
  apply bind_Raise in H as [Hl|(l' & _ & H)]; [by apply IH|done].
Qed.

(** The exception of a turn of the loop carries the number of its record. *)
Lemma loop_body_raised enc sd convs i record e :
  loop_body codecs enc sd convs i record = Raised e ->
  match e with
  | RuntimeError _ k | UnicodeDecodeError _ _ (Some k) => k = i
  | _ => True
  end.
Proof.
  unfold loop_body. destruct (negb sd && _); [done|].
  destruct (record_items _ _ _ _) as [items|e0] eqn:Hitems; [done|].
  apply record_items_error in Hitems. cbn [mbind result_bind].
  destruct e0 as [why|enc0 obj note|?| | |?| |?| |? ?]; try destruct note;
    cbn; try done; by intros [= <-].
Qed.

Lemma records_loop_stops self sd convs n : forall i f it f' e,
  calcsize (recfmt self) = recsize self -> 0 < recsize self ->
  0 <= lenheader self -> 0 <= i ->
  fh_data f = fh_data (fh self) ->
  fh_pos f = Z.to_nat (lenheader self + recsize self * i) ->
  records_loop codecs self sd convs f i n = (it, f') ->
  raised it = Some e ->
  exists j,
    i <= j < i + Z.of_nat n
    /\ yielded it
       = omap (fun k => yield_of (turn_at codecs self sd convs k)) (seqZ i (j - i))
    /\ Forall (fun k => is_raised (turn_at codecs self sd convs k) = false)
         (seqZ i (j - i))
    /\ ((Z.of_nat (length (record_bytes self j)) <> recsize self /\ e = struct_error)
        \/ turn_at codecs self sd convs j = Raised e).
Proof.
  induction n as [|n IH]; intros i f it f' e Hsize Hrs Hlh Hi Hdata Hpos.
  - cbn [records_loop]. by intros [= <- <-].
  - cbn [records_loop]. unfold fh_read.
    assert (Hbuf : take (Z.to_nat (recsize self)) (drop (fh_pos f) (fh_data f))
                   = record_bytes self i).
    { unfold record_bytes. by rewrite Hdata, Hpos. }
    rewrite Hbuf. unfold unpack_record. case_bool_decide as Hlen.
    2:{ intros [= <- <-] [= <-]. exists i. rewrite Z.sub_diag.
        split; [lia|]. split; [done|]. split; [constructor|].
        left. split; [congruence|done]. }
    assert (Hl : length (record_bytes self i) = Z.to_nat (recsize self)) by lia.
    rewrite Hl.
    set (f1 := mkfh _ _ _).
    assert (Hpos1 : fh_pos f1 = Z.to_nat (lenheader self + recsize self * (i + 1))).
    { subst f1. cbn. rewrite Hpos. nia. }
    change (loop_body codecs (encoding self) sd convs i
              (split_by (recfmt self) (record_bytes self i)))
      with (turn_at codecs self sd convs i).
    assert (Hcons : forall j, i + 1 <= j ->
      seqZ i (j - i) = i :: seqZ (i + 1) (j - (i + 1))).
    { intros j Hj. rewrite seqZ_cons by lia. f_equal. f_equal; lia. }
    destruct (turn_at codecs self sd convs i) as [|d|e'] eqn:Hb.
    + intros Hloop Hsome.
      destruct (IH (i + 1) f1 it f' e Hsize Hrs Hlh ltac:(lia) Hdata Hpos1 Hloop Hsome)
        as (j & Hj & Hy & Hall & Hend).
      exists j. split; [lia|]. rewrite (Hcons j) by lia.
      rewrite omap_cons_eq, Forall_cons, Hb. cbn [yield_of is_raised]. done.
    + destruct (records_loop _ _ _ _ _ _ _) as [it1 f2] eqn:Hloop.
      intros [= <- <-] Hsome. cbn in Hsome.
      destruct (IH (i + 1) f1 it1 f2 e Hsize Hrs Hlh ltac:(lia) Hdata Hpos1 Hloop Hsome)
        as (j & Hj & Hy & Hall & Hend).
      exists j. split; [lia|]. rewrite (Hcons j) by lia.
      rewrite omap_cons_eq, Forall_cons, Hb. cbn [yield_of is_raised yielded].
      by rewrite Hy.
    + intros [= <- <-] [= <-]. exists i. rewrite Z.sub_diag.
      split; [lia|]. split; [done|]. split; [constructor|]. by right.
Qed.

(** X21: where an iteration stops.  When an iteration of a reader of either
    class, from a non-negative start, ends with an exception, there is a
    record [j] of its window such that every record before [j] was read in
    full and converted or skipped without an error, those that were not
    skipped were yielded, in order, and record [j] either is cut short by
    the end of the file, and the exception is [struct.error], or is the
    record whose conversion raised the exception.  The record number that a
    [RuntimeError] or an annotated [UnicodeDecodeError] reports is [j]. *)
Theorem X21_where_iteration_stops fh0 fields0 use_unicode encoding0 r a b sd e :
  initialized fh0 fields0 use_unicode encoding0 r ->
  0 <= window_start r a ->
  raised (records codecs r a b sd).2 = Some e ->
  let start := window_start r a in
  let stop := window_stop r a b in
  exists convs j,
    converters_tuple (converters r) (_fields r) = OK convs
    /\ start <= j < stop
    /\ yielded (records codecs r a b sd).2
       = omap (fun i => yield_of (turn_at codecs r sd convs i)) (seqZ start (j - start))
    /\ Forall (fun i => is_raised (turn_at codecs r sd convs i) = false)
         (seqZ start (j - start))
    /\ ((Z.of_nat (length (record_bytes r j)) < recsize r /\ e = struct_error)
        \/ turn_at codecs r sd convs j = Raised e)
    /\ match e with
       | RuntimeError _ k | UnicodeDecodeError _ _ (Some k) => k = j
       | _ => True
       end.
Proof.
  intros Hr Hstart. cbn zeta.
  destruct (initialized_shape _ _ _ _ _ Hr)
    as (_ & _ & Hsize & Hrs & Hlh & _ & _ & Hdata & _ & _ & convs & Hconvs).
  rewrite records_unfold. cbn zeta.
  destruct (_ <? 0) eqn:Hoff; [nia|].
  rewrite Hconvs.
  destruct (records_loop _ _ _ _ _ _ _) as [it f1] eqn:Hloop. cbn [snd].
  intros Hsome. exists convs.
  eapply records_loop_stops in Hloop as (j & Hj & Hy & Hall & Hend); try done.
  exists j. split; [done|]. split; [lia|]. split; [done|]. split; [done|].
  assert (Hshort : (length (record_bytes r j) <= Z.to_nat (recsize r))%nat).
  { unfold record_bytes. rewrite length_take. lia. }
  destruct Hend as [[Hlen ->]|Hturn].
  - split; [|done]. left. split; [lia|done].
  - split; [by right|]. unfold turn_at in Hturn. by apply loop_body_raised in Hturn.
Qed.

End stops.

Lemma X21_where_iteration_stops_witness :
  let fh0 := sample.handle (sample.table 0 x80) None in
  let r := sample.opened fh0 true None in
  let e := UnicodeDecodeError "ascii" [x80] (Some 1) in
  let start := window_start r None in
  let stop := window_stop r None None in
  exists convs j,
    converters_tuple (converters r) (_fields r) = OK convs
    /\ start <= j < stop
    /\ yielded (records sample.codecs r None None true).2
       = omap (fun i => yield_of (turn_at sample.codecs r true convs i))
           (seqZ start (j - start))
    /\ Forall (fun i => is_raised (turn_at sample.codecs r true convs i) = false)
         (seqZ start (j - start))
    /\ ((Z.of_nat (length (record_bytes r j)) < recsize r /\ e = struct_error)
        \/ turn_at sample.codecs r true convs j = Raised e)
    /\ match e with
       | RuntimeError _ k | UnicodeDecodeError _ _ (Some k) => k = j
       | _ => True
       end.
Proof.
  intros fh0 r e.
  apply (X21_where_iteration_stops sample.codecs fh0 None true None r None None true e).
  - left. vm_compute. reflexivity.
  - vm_compute. discriminate.
  - vm_compute. reflexivity.
Defined.
